(** * slackclean: a shallow embedding of [cli.go] and its verified properties

    The program deletes old messages and files of a Slack workspace.  This
    development embeds its functions ([SlackTSToTime], [TimeToSlackTS],
    [ratelimitOrPanic], [Users], [Channels], [Files], [Messages],
    [DeleteMessages], [DeleteFiles], [main]) and states the properties of
    the harvesting and deletion pipeline over that embedding.

    Conventions.
    - Go's [int64] is a [Z] with the wrap-around written out ([wrap64]).
    - A Go [string] is a [string] (a sequence of bytes); [<], [>] on Go
      strings is the bytewise lexicographic order, [String.compare].
    - A [panic] (explicit or raised by the runtime) is an outcome of the
      program monad, as is [os.Exit]; the unbounded [for] loops take fuel.
    - The Slack client, the regexp engine and [time.Parse] are libraries the
      program is linked against: they are parameters (type classes). *)

From Stdlib Require Import ZArith List String Ascii Bool Lia.
From stdpp Require Import base option list strings gmap.
Import ListNotations.

Local Open Scope Z_scope.

(** ** Go strings *)

Module GoString.

(** [a > b] and [a < b] on Go strings. *)
Definition gt (a b : string) : bool :=
  match String.compare a b with Gt => true | _ => false end.

Definition lt (a b : string) : bool :=
  match String.compare a b with Lt => true | _ => false end.

(** [len(s)] *)
Definition len (s : string) : Z := Z.of_nat (String.length s).

(** [strings.Contains(s, substr)] *)
Fixpoint Contains (s substr : string) : bool :=
  String.prefix substr s ||
  match s with
  | EmptyString => false
  | String _ s' => Contains s' substr
  end.

(** [strings.Split(s, sep)] for a separator of one byte, the only use the
    program makes of it ([strings.Split(ts, ".")]): the pieces between the
    occurrences of [sep], always at least one piece. *)
Fixpoint SplitByte (sep : ascii) (s : string) : list string :=
  match s with
  | EmptyString => [EmptyString]
  | String c s' =>
      if Ascii.eqb c sep then EmptyString :: SplitByte sep s'
      else match SplitByte sep s' with
           | [] => [String c EmptyString]
           | p :: ps => String c p :: ps
           end
  end.

(** [strings.ReplaceAll(s, old, new)] for [old] and [new] of one byte
    ([strings.ReplaceAll(filter, ",", "|")]). *)
Fixpoint ReplaceAllByte (old new : ascii) (s : string) : string :=
  match s with
  | EmptyString => EmptyString
  | String c s' =>
      String (if Ascii.eqb c old then new else c) (ReplaceAllByte old new s')
  end.

(** Does the byte occur in the string? *)
Fixpoint has_byte (b : ascii) (s : string) : bool :=
  match s with
  | EmptyString => false
  | String c s' => Ascii.eqb c b || has_byte b s'
  end.

(** [s[i:j]]; [None] is the runtime panic "slice bounds out of range". *)
Definition slice (s : string) (i j : Z) : option string :=
  if (0 <=? i) && (i <=? j) && (j <=? len s)
  then Some (String.substring (Z.to_nat i) (Z.to_nat (j - i)) s)
  else None.

End GoString.

(** ** Machine integers *)

Definition maxInt64 : Z := 2 ^ 63 - 1.
Definition minInt64 : Z := - 2 ^ 63.
Definition maxUint64 : Z := 2 ^ 64 - 1.

(** Two's complement wrap-around of an [int64] result. *)
Definition wrap64 (z : Z) : Z := (z + 2 ^ 63) mod 2 ^ 64 - 2 ^ 63.

(** ** [strconv] (Go standard library), base 10 and 64 bits *)

Module strconv.

Inductive NumError := ErrSyntax | ErrRange.

Definition is_digit (c : ascii) : bool :=
  let n := Z.of_N (N_of_ascii c) in (48 <=? n) && (n <=? 57).

Definition digit_val (c : ascii) : Z := Z.of_N (N_of_ascii c) - 48.

(** The loop of [ParseUint(s, 10, 64)] over the bytes of [s]: a byte that
    is not a digit is a syntax error; an overflow returns at once with the
    largest value and a range error. *)
Fixpoint ParseUint_loop (s : string) (n : Z) : Z * option NumError :=
  match s with
  | EmptyString => (n, None)
  | String c s' =>
      if is_digit c then
        if maxUint64 / 10 + 1 <=? n then (maxUint64, Some ErrRange)
        else
          let n10 := n * 10 in
          let n1 := (n10 + digit_val c) mod 2 ^ 64 in
          if (n1 <? n10) || (maxUint64 <? n1) then (maxUint64, Some ErrRange)
          else ParseUint_loop s' n1
      else (0, Some ErrSyntax)
  end.

Definition ParseUint (s : string) : Z * option NumError :=
  match s with
  | EmptyString => (0, Some ErrSyntax)
  | _ => ParseUint_loop s 0
  end.

(** [ParseInt(s, 10, 64)]: an optional sign, then [ParseUint]; the value
    is clamped to the [int64] range on a range error and is 0 on a syntax
    error. *)
Definition ParseInt (s : string) : Z * option NumError :=
  match s with
  | EmptyString => (0, Some ErrSyntax)
  | String c s' =>
      let neg := Ascii.eqb c "-" in
      let body := if Ascii.eqb c "+" || neg then s' else s in
      match ParseUint body with
      | (_, Some ErrSyntax) => (0, Some ErrSyntax)
      | (un, _) =>
          if negb neg && (2 ^ 63 <=? un) then (maxInt64, Some ErrRange)
          else if neg && (2 ^ 63 <? un) then (minInt64, Some ErrRange)
          else (wrap64 (if neg then - un else un), None)
      end
  end.

(** [fmt.Sprintf("%d", n)] for an [int64]: the decimal digits, most
    significant first, after a minus sign when [n] is negative.  An
    [int64] has at most 19 digits. *)
Definition digit_char (d : Z) : ascii := ascii_of_N (Z.to_N (48 + d)).

Fixpoint digits_loop (fuel : nat) (n : Z) (acc : string) : string :=
  match fuel with
  | O => acc
  | S fuel' =>
      let acc' := String (digit_char (n mod 10)) acc in
      if n <? 10 then acc' else digits_loop fuel' (n / 10) acc'
  end.

Definition FormatUint (n : Z) : string := digits_loop 20 n EmptyString.

Definition FormatInt (n : Z) : string :=
  if n <? 0 then String "-" (FormatUint (- n)) else FormatUint n.

End strconv.

(** ** [time] (Go standard library) *)

Module time.

(** A [time.Time], by its Unix seconds and the nanoseconds within the
    second ([0 <= nsec < 1e9] after [Unix]). *)
Record Time := mkTime { sec : Z; nsec : Z }.

(** [time.Unix(sec, nsec)]: [nsec] outside [0, 1e9) is carried into
    [sec]; Go's [/] truncates toward zero. *)
Definition Unix (sec nsec : Z) : Time :=
  if (nsec <? 0) || (1000000000 <=? nsec) then
    let n := Z.quot nsec 1000000000 in
    let sec := wrap64 (sec + n) in
    let nsec := nsec - n * 1000000000 in
    if nsec <? 0 then mkTime (wrap64 (sec - 1)) (nsec + 1000000000)
    else mkTime sec nsec
  else mkTime sec nsec.

(** [t.Unix()] and [t.UnixNano()] *)
Definition Time_Unix (t : Time) : Z := sec t.
Definition Time_UnixNano (t : Time) : Z :=
  wrap64 (sec t * 1000000000 + nsec t).

(** The order of instants ([t.Before(u)], [t.Equal(u)], [t.After(u)]). *)
Definition compare (t u : Time) : comparison :=
  match sec t ?= sec u with
  | Eq => nsec t ?= nsec u
  | c => c
  end.

End time.

(** ** TimestampCodec: [SlackTSToTime] and [TimeToSlackTS] *)

(** [SlackTSToTime]: [strings.Split(ts, ".")], then [parts[0]] and
    [parts[1]] parsed with their errors discarded, then [time.Unix(sec,
    nsec*1000)].  [None] is the runtime panic "index out of range" of
    [parts[1]].  The receiver is not used. *)
Definition SlackTSToTime (ts : string) : option time.Time :=
  let parts := GoString.SplitByte "." ts in
  match parts !! 0%nat, parts !! 1%nat with
  | Some p0, Some p1 =>
      let sec := fst (strconv.ParseInt p0) in
      let nsec := fst (strconv.ParseInt p1) in
      Some (time.Unix sec (wrap64 (nsec * 1000)))
  | _, _ => None
  end.

(** [TimeToSlackTS]: the microseconds since the epoch printed with [%d],
    cut six bytes before the end.  [None] is the runtime panic "slice
    bounds out of range" when fewer than six digits were printed. *)
Definition TimeToSlackTS (t : time.Time) : option string :=
  let ts := strconv.FormatInt (Z.quot (time.Time_UnixNano t) 1000) in
  let n := GoString.len ts in
  match GoString.slice ts 0 (n - 6), GoString.slice ts (n - 6) n with
  | Some whole, Some frac => Some (whole +:+ "." +:+ frac)
  | _, _ => None
  end.

(** The text of that panic.  Go names the bound that is out of range: it
    is the upper bound [len(ts)-6] of the first slice, [ts[0:len(ts)-6]],
    which is evaluated first and is negative whenever a slice fails
    ("slice bounds out of range [:-5]" when one digit was printed). *)
Definition TimeToSlackTS_panic (t : time.Time) : string :=
  let ts := strconv.FormatInt (Z.quot (time.Time_UnixNano t) 1000) in
  "runtime error: slice bounds out of range [:"
  +:+ strconv.FormatInt (GoString.len ts - 6) +:+ "]".

(** ** [slack] (the client library): the records and calls the program uses *)

Module slack.

Record User := mkUser {
  user_ID : string; user_Name : string; user_RealName : string }.

Record Channel := mkChannel {
  ch_ID : string; ch_Name : string; ch_User : string;
  ch_IsIM : bool; ch_IsMpIM : bool; ch_IsPrivate : bool }.

Record Message := mkMessage {
  msg_Channel : string; msg_User : string; msg_Text : string;
  msg_Timestamp : string; msg_ThreadTimestamp : string }.

(** [Created] is a [JSONTime], an [int64] of Unix seconds. *)
Record File := mkFile {
  file_ID : string; file_Name : string; file_User : string;
  file_Created : Z }.

Record ListFilesParameters := mkListFiles {
  lf_Limit : Z; lf_User : string; lf_Channel : string; lf_Cursor : string }.

Record GetConversationsParameters := mkGetConversations {
  gc_Types : list string; gc_Cursor : string }.

Record GetConversationHistoryParameters := mkGetHistory {
  gh_ChannelID : string; gh_Cursor : string; gh_Limit : Z }.

Record GetConversationHistoryResponse := mkHistory {
  hr_Messages : list Message; hr_HasMore : bool; hr_NextCursor : string }.

Record GetConversationRepliesParameters := mkGetReplies {
  gr_ChannelID : string; gr_Timestamp : string; gr_Cursor : string;
  gr_Limit : Z }.

(** An [error] is modelled by its [Error()] text, the only thing the
    program looks at; [inl] is a [nil] error. *)
Definition error := string.

(** The client together with the workspace behind it: every call answers
    and moves the world [W] on.  [ListFiles] returns its three results
    as they are (the program reads them even when the error is set). *)
Class Client (W : Type) := {
  GetUsers : W -> (list User + error) * W;
  GetConversations :
    GetConversationsParameters -> W -> (list Channel * string + error) * W;
  ListFiles :
    ListFilesParameters -> W ->
    (list File * option ListFilesParameters * option error) * W;
  GetConversationHistory :
    GetConversationHistoryParameters -> W ->
    (GetConversationHistoryResponse + error) * W;
  GetConversationReplies :
    GetConversationRepliesParameters -> W ->
    (list Message * bool * string + error) * W;
  DeleteMessage : string -> string -> W -> (string * string + error) * W;
  DeleteFile : string -> W -> option error * W;
}.

(** The calls, as they are recorded in the trace of a run. *)
Inductive Call :=
| CGetUsers
| CGetConversations (p : GetConversationsParameters)
| CListFiles (p : ListFilesParameters)
| CGetConversationHistory (p : GetConversationHistoryParameters)
| CGetConversationReplies (p : GetConversationRepliesParameters)
| CDeleteMessage (channel timestamp : string)
| CDeleteFile (id : string).

Definition setChannel (channel : string) (m : Message) : Message :=
  mkMessage channel (msg_User m) (msg_Text m) (msg_Timestamp m)
    (msg_ThreadTimestamp m).

End slack.
Export slack.

(** ** [regexp] and [time.Parse] (Go standard library), as parameters *)

Class GoLib := {
  Regexp : Type;
  (** [regexp.Compile]; [MustCompile] panics on the error. *)
  regexp_Compile : string -> Regexp + string;
  (** [re.String()], [re.MatchString(s)], [re.ReplaceAllString(src, repl)] *)
  regexp_String : Regexp -> string;
  MatchString : Regexp -> string -> bool;
  ReplaceAllString : Regexp -> string -> string -> string;
  (** [time.Parse(layout, value)] *)
  time_Parse : string -> string -> time.Time + string;
}.

(** ** The program monad: the world, a trace, and how a run can end *)

(** An argument of a [Printf]; [ADate t] is [prettyDate(t)], the RFC 3339
    rendering of [t] in UTC.  A [Printf] is recorded by its format, the
    text of the source as it is written there, and its arguments. *)
Inductive Arg := AStr (s : string) | AInt (n : Z) | ADate (t : time.Time).

Inductive Event :=
| ECall (c : slack.Call)
| ESleep (milliseconds : Z)
| EPrintf (format : string) (args : list Arg)
| EPrintln (s : string)
| EPrintDefaults.

Record State (W : Type) := mkState { world : W; trace : list Event }.
Arguments mkState {W}.
Arguments world {W}.
Arguments trace {W}.

Inductive Outcome (A : Type) :=
| Return (a : A)
| Panic (msg : string)
| Exit (code : Z)
| OutOfFuel.
Arguments Return {A}.
Arguments Panic {A}.
Arguments Exit {A}.
Arguments OutOfFuel {A}.

Definition M (W A : Type) : Type := State W -> Outcome A * State W.

Definition ret {W A} (a : A) : M W A := fun st => (Return a, st).

Definition bind {W A B} (m : M W A) (k : A -> M W B) : M W B :=
  fun st =>
    match m st with
    | (Return a, st') => k a st'
    | (Panic msg, st') => (Panic msg, st')
    | (Exit code, st') => (Exit code, st')
    | (OutOfFuel, st') => (OutOfFuel, st')
    end.

(** The monad notations of stdpp: [x ← m; k] and [m;; k]. *)
#[global] Instance M_ret {W} : MRet (M W) := fun A a => ret a.
#[global] Instance M_bind {W} : MBind (M W) := fun A B k m => bind m k.

Definition panic {W A} (msg : string) : M W A := fun st => (Panic msg, st).
Definition os_Exit {W A} (code : Z) : M W A := fun st => (Exit code, st).
Definition out_of_fuel {W A} : M W A := fun st => (OutOfFuel, st).

Definition emit {W} (e : Event) : M W unit :=
  fun st => (Return tt, mkState (world st) (trace st ++ [e])).

Definition printf {W} (format : string) (args : list Arg) : M W unit :=
  emit (EPrintf format args).
Definition println {W} (s : string) : M W unit := emit (EPrintln s).
Definition time_Sleep {W} (ms : Z) : M W unit := emit (ESleep ms).

(** A call of the client: recorded, then answered by the world. *)
Definition call {W A} (c : slack.Call) (f : W -> A * W) : M W A :=
  fun st =>
    let '(a, w) := f (world st) in
    (Return a, mkState w (trace st ++ [ECall c])).

(** [for _, x := range l { acc = f(acc, x) }] *)
Fixpoint foldM {W A B} (f : B -> A -> M W B) (l : list A) (b : B) : M W B :=
  match l with
  | [] => ret b
  | x :: l' => b' ← f b x; foldM f l' b'
  end.

(** [for i, x := range l { f(i, x) }], counting from [i]. *)
Fixpoint forM_from {W A} (f : Z -> A -> M W unit) (i : Z) (l : list A)
  : M W unit :=
  match l with
  | [] => ret tt
  | x :: l' => f i x ;; forM_from f (i + 1) l'
  end.

(** [n++] on an [int]. *)
Definition incr (n : Z) : Z := wrap64 (n + 1).

Definition len {A} (l : list A) : Z := Z.of_nat (length l).

(** ** The program *)

(** [SlackClean]; the client [c] is the world of the monad. *)
Record SlackClean := mkSlackClean {
  beforeTS : string;
  beforeTSUnix : Z }.

Record SlackCleanOptions := mkOptions {
  Before : string;
  Token : string }.

(** The accumulators of [Messages]. *)
Record MsgAcc := mkMsgAcc {
  found : Z; keep : Z; total : Z; messagesToDelete : list Message }.

(** The flags of the command line, parsed. *)
Record Flags := mkFlags {
  flag_token : string; flag_user : string; flag_filter : string;
  flag_before : string; flag_commit : bool }.

Definition nonempty (s : string) : bool := negb (String.eqb s "").

Section Program.

Context {W : Type} `{!slack.Client W} `{!GoLib}.

Local Abbreviation M := (M W).

(** A call that can raise a runtime panic. *)
Definition or_panic {A} (msg : string) (o : option A) : M A :=
  match o with
  | Some a => ret a
  | None => panic msg
  end.

Definition regexp_MustCompile (str : string) : M Regexp :=
  match regexp_Compile str with
  | inl re => ret re
  | inr err => panic ("regexp: Compile(" +:+ str +:+ "): " +:+ err)
  end.

(** [prettyDate(s.SlackTSToTime(ts))], an argument of a [Printf]. *)
Definition prettyTS (ts : string) : M Arg :=
  t ← or_panic "runtime error: index out of range [1] with length 1"
        (SlackTSToTime ts);
  ret (ADate t).

Definition New (o : SlackCleanOptions) : M SlackClean :=
  match time_Parse "20060102-1504" (Before o) with
  | inr err => panic err
  | inl t =>
      ts ← or_panic (TimeToSlackTS_panic t) (TimeToSlackTS t);
      let s := mkSlackClean ts (time.Time_Unix t) in
      printf "Cleaning Slack messages before: %s (Slack TS: %s , Check: %s)\n"
        [ADate t; AStr (beforeTS s); ADate (time.Unix (beforeTSUnix s) 0)];;
      printf "Using token: %s\n" [AStr (Token o)];;
      ret s
  end.

Definition ratelimitOrPanic (err : slack.error) : M unit :=
  if negb (GoString.Contains err "rate limit") then panic err
  else
    printf "Rate limited, retrying in 1 sec ..\n" [];;
    time_Sleep 1000.

(** *** [Users] *)

Definition Users_item (user : string) (acc : gmap string string * string)
    (u : User) : M (gmap string string * string) :=
  let '(users, userID) := acc in
  userID ← (if nonempty user then
              if String.eqb (user_Name u) user then ret (user_ID u)
              else
                printf "Checked user %s (real name: %s)\n"
                  [AStr (user_Name u); AStr (user_RealName u)];;
                ret userID
            else ret userID);
  ret (<[user_ID u := user_Name u]> users, userID).

Definition Users (user : string) : M (gmap string string * string) :=
  r ← call CGetUsers GetUsers;
  match r with
  | inr err => panic err
  | inl res =>
      '(users, userID) ← foldM (Users_item user) res (∅, EmptyString);
      (if nonempty user then
         if String.eqb userID "" then panic ("could not find user: " +:+ user)
         else
           printf "Found user %s (ID: %s)\n"
             [AStr (default EmptyString (users !! userID)); AStr userID]
       else ret tt);;
      printf "Fetched %d users\n" [AInt (Z.of_nat (size users))];;
      ret (users, userID)
  end.

(** *** [Channels] *)

(** [re == nil || re.MatchString(name)] *)
Definition passes (re : option Regexp) (name : string) : bool :=
  match re with
  | None => true
  | Some r => MatchString r name
  end.

(** [username := users[c.User]]: a missing key reads as the empty
    string. *)
Definition username (users : gmap string string) (c : Channel) : string :=
  default EmptyString (users !! ch_User c).

Definition Channels_item (re : option Regexp) (users : gmap string string)
    (acc : Z * list Channel) (c : Channel) : M (Z * list Channel) :=
  let '(found, channels) := acc in
  if ch_IsMpIM c then
    if passes re (ch_Name c) then
      let found := incr found in
      printf "%04d. Found multiparty DM channel ID %s (name: %s)\n"
        [AInt found; AStr (ch_ID c); AStr (ch_Name c)];;
      ret (found, channels ++ [c])
    else ret acc
  else if ch_IsIM c then
    let username := username users c in
    if passes re username then
      let found := incr found in
      printf "%04d. Found DM channel ID %s (name: %s)\n"
        [AInt found; AStr (ch_ID c); AStr username];;
      ret (found, channels ++ [c])
    else ret acc
  else if ch_IsPrivate c then
    if passes re (ch_Name c) then
      let found := incr found in
      printf "%04d. Found private channel ID %s (name: %s)\n"
        [AInt found; AStr (ch_ID c); AStr (ch_Name c)];;
      ret (found, channels ++ [c])
    else ret acc
  else
    if passes re (ch_Name c) then
      let found := incr found in
      printf "%04d. Found public channel ID %s (name: %s)\n"
        [AInt found; AStr (ch_ID c); AStr (ch_Name c)];;
      ret (found, channels ++ [c])
    else ret acc.

Fixpoint Channels_loop (n : nat) (re : option Regexp)
    (users : gmap string string) (cursor : string)
    (acc : Z * list Channel) : M (Z * list Channel) :=
  match n with
  | O => out_of_fuel
  | S n' =>
      r ← call
            (CGetConversations (mkGetConversations
               ["public_channel"; "private_channel"; "mpim"; "im"] cursor))
            (GetConversations (mkGetConversations
               ["public_channel"; "private_channel"; "mpim"; "im"] cursor));
      match r with
      | inr err =>
          ratelimitOrPanic err;;
          Channels_loop n' re users cursor acc
      | inl (res, next) =>
          acc ← foldM (Channels_item re users) res acc;
          if String.eqb next "" then ret acc
          else
            printf "Fetching more channels (cursor: %s , channels: %d)\n"
              [AStr next; AInt (len (snd acc))];;
            Channels_loop n' re users next acc
      end
  end.

Definition Channels (fuel : nat) (filter : string)
    (users : gmap string string) : M (list Channel) :=
  re ← (if nonempty filter then
          re ← regexp_MustCompile
                 ("(?i)(" +:+ GoString.ReplaceAllByte "," "|" filter +:+ ")");
          printf "Filtering channels using regexp pattern: %s\n"
            [AStr (regexp_String re)];;
          ret (Some re)
        else ret None);
  '(_, channels) ← Channels_loop fuel re users EmptyString (0, []);
  printf "Fetched %d channels\n" [AInt (len channels)];;
  ret channels.

(** *** [Files] *)

Definition Files_item (s : SlackClean) (acc : Z * list File) (f : File)
  : M (Z * list File) :=
  let '(found, filesToDelete) := acc in
  if file_Created f <? beforeTSUnix s then
    let found := incr found in
    printf "%04d. Found file %s (created: %s)\n"
      [AInt found; AStr (file_Name f); ADate (time.Unix (file_Created f) 0)];;
    ret (found, filesToDelete ++ [f])
  else ret acc.

(** The [for] loop of one channel.  The [p] that [ListFiles] returns is
    a new variable of the loop body ([res, p, err := ...]): every call is
    made with the parameters [p] of the channel, and the returned pointer
    is only read for its cursor.  After [ratelimitOrPanic] the body goes
    on (there is no [continue]). *)
Fixpoint Files_loop (n : nat) (s : SlackClean) (p : ListFilesParameters)
    (acc : Z * list File) : M (Z * list File) :=
  match n with
  | O => out_of_fuel
  | S n' =>
      '(res, p', err) ← call (CListFiles p) (ListFiles p);
      match err with
      | Some e => ratelimitOrPanic e
      | None => ret tt
      end;;
      acc ← foldM (Files_item s) res acc;
      p' ← or_panic
             "runtime error: invalid memory address or nil pointer dereference"
             p';
      if String.eqb (lf_Cursor p') "" then ret acc
      else
        printf "Fetching more files (cursor: %s , files: %d)\n"
          [AStr (lf_Cursor p'); AInt (len (snd acc))];;
        Files_loop n' s p acc
  end.

Definition Files_channel (fuel : nat) (s : SlackClean) (userID : string)
    (acc : Z * list File) (c : Channel) : M (Z * list File) :=
  let p := mkListFiles 100 EmptyString (ch_ID c) EmptyString in
  p ← (if nonempty userID then
         printf
           "Fetching only files owned by user ID %s in channel %s (name: %s)\n"
           [AStr userID; AStr (ch_ID c); AStr (ch_Name c)];;
         ret (mkListFiles (lf_Limit p) userID (lf_Channel p) (lf_Cursor p))
       else ret p);
  Files_loop fuel s p acc.

Definition Files (fuel : nat) (s : SlackClean) (userID : string)
    (channels : list Channel) : M (list File) :=
  '(_, filesToDelete) ← foldM (Files_channel fuel s userID) channels (0, []);
  printf "Fetched %d files\n" [AInt (len filesToDelete)];;
  ret filesToDelete.

(** *** [Messages] *)

Definition preview_of (clean : Regexp) (text : string) : string :=
  let preview := ReplaceAllString clean text " " in
  if 50 <? GoString.len preview
  then String.substring 0 46 preview +:+ " ..."
  else preview.

Definition add_message (m : Message) (a : MsgAcc) : MsgAcc :=
  mkMsgAcc (found a) (keep a) (total a) (messagesToDelete a ++ [m]).

(** The body of [for _, r := range replies]. *)
Definition Messages_reply (c : Channel) (channelName : string)
    (clean : Regexp) (a : MsgAcc) (r : Message) : M MsgAcc :=
  let r := setChannel (ch_ID c) r in
  let a := add_message r a in
  let preview := preview_of clean (msg_Text r) in
  date ← prettyTS (msg_Timestamp r);
  printf "%04d. [%-30s] [ts: %s]  --  %s\n"
    [AInt (found a); AStr ("thread  : " +:+ channelName); date; AStr preview];;
  ret (mkMsgAcc (incr (found a)) (keep a) (incr (total a))
         (messagesToDelete a)).

(** The [for] loop over the pages of replies of one thread. *)
Fixpoint Messages_replies (n : nat) (c : Channel) (channelName : string)
    (clean : Regexp) (p : GetConversationRepliesParameters) (a : MsgAcc)
  : M MsgAcc :=
  match n with
  | O => out_of_fuel
  | S n' =>
      r ← call (CGetConversationReplies p) (GetConversationReplies p);
      match r with
      | inr err =>
          ratelimitOrPanic err;;
          Messages_replies n' c channelName clean p a
      | inl (replies, hasMore, nextCursor) =>
          a ← foldM (Messages_reply c channelName clean) replies a;
          if negb hasMore then ret a
          else
            Messages_replies n' c channelName clean
              (mkGetReplies (gr_ChannelID p) (gr_Timestamp p) nextCursor
                 (gr_Limit p)) a
      end
  end.

(** The body of [for _, m := range res.Messages]. *)
Definition Messages_item (fuel : nat) (s : SlackClean) (c : Channel)
    (userID : string) (clean : Regexp) (last : Z) (a : MsgAcc)
    (m : Message) : M MsgAcc :=
  let a := mkMsgAcc (found a) (keep a) (incr (total a))
             (messagesToDelete a) in
  let kept := mkMsgAcc (found a) (incr (keep a)) (total a)
                (messagesToDelete a) in
  if nonempty userID && String.eqb (msg_User m) userID then ret kept
  else if GoString.gt (msg_Timestamp m) (beforeTS s) then ret kept
  else
    (if found a =? last then println "" else ret tt);;
    let a := mkMsgAcc (incr (found a)) (keep a) (total a)
               (messagesToDelete a) in
    let channelName :=
      if String.eqb (ch_Name c) "" then ch_ID c else ch_Name c in
    let preview := preview_of clean (msg_Text m) in
    date ← prettyTS (msg_Timestamp m);
    printf "%04d. [%-30s] [ts: %s]  --  %s\n"
      [AInt (found a); AStr ("channel : " +:+ channelName); date;
       AStr preview];;
    let m := setChannel (ch_ID c) m in
    let a := add_message m a in
    if nonempty (msg_ThreadTimestamp m)
       && String.eqb (msg_Timestamp m) (msg_ThreadTimestamp m)
    then
      Messages_replies fuel c channelName clean
        (mkGetReplies (msg_Channel m) (msg_Timestamp m) EmptyString 1000) a
    else ret a.

(** The [for] loop over the pages of history of one channel. *)
Fixpoint Messages_loop (n fuel : nat) (s : SlackClean) (c : Channel)
    (userID : string) (clean : Regexp) (cursor : string) (last : Z)
    (a : MsgAcc) : M MsgAcc :=
  match n with
  | O => out_of_fuel
  | S n' =>
      r ← call
            (CGetConversationHistory (mkGetHistory (ch_ID c) cursor 1000))
            (GetConversationHistory (mkGetHistory (ch_ID c) cursor 1000));
      match r with
      | inr err =>
          ratelimitOrPanic err;;
          Messages_loop n' fuel s c userID clean cursor last a
      | inl res =>
          a ← foldM (Messages_item fuel s c userID clean last)
                (hr_Messages res) a;
          if negb (hr_HasMore res) then ret a
          else
            let cursor := hr_NextCursor res in
            (if found a =? last then printf "." []
             else
               printf
                 "Fetching more messages for channel ID %s (cursor: %s , messages: %d)\n"
                 [AStr (ch_ID c); AStr cursor;
                  AInt (len (messagesToDelete a))]);;
            Messages_loop n' fuel s c userID clean cursor (found a) a
      end
  end.

Definition Messages_channel (fuel : nat) (s : SlackClean) (userID : string)
    (clean : Regexp) (ia : Z * MsgAcc) (c : Channel) : M (Z * MsgAcc) :=
  let '(i, a) := ia in
  printf "%04d. Fetching messages for channel ID %s (name: %s)\n"
    [AInt (i + 1); AStr (ch_ID c); AStr (ch_Name c)];;
  a ← Messages_loop fuel fuel s c userID clean EmptyString 0 a;
  ret (i + 1, a).

Definition Messages (fuel : nat) (s : SlackClean) (channels : list Channel)
    (userID : string) : M (list Message) :=
  clean ← regexp_MustCompile "[\r\n\t]+";
  '(_, a) ← foldM (Messages_channel fuel s userID clean) channels
              (0, mkMsgAcc 0 0 0 []);
  printf "Fetched %d messages to delete (kept %d / %d)\n"
    [AInt (len (messagesToDelete a)); AInt (keep a); AInt (total a)];;
  ret (messagesToDelete a).

(** *** [DeleteMessages] and [DeleteFiles] *)

(** The inner [for] loop of [DeleteMessages] for the message of index
    [i]. *)
Fixpoint DeleteMessages_loop (n : nat) (i : Z) (m : Message) : M unit :=
  match n with
  | O => out_of_fuel
  | S n' =>
      r ← call (CDeleteMessage (msg_Channel m) (msg_Timestamp m))
            (DeleteMessage (msg_Channel m) (msg_Timestamp m));
      match r with
      | inr err =>
          if String.eqb err "message_not_found" then ret tt
          else
            ratelimitOrPanic err;;
            DeleteMessages_loop n' i m
      | inl (ch, ts) =>
          printf "%04d. Deleted message ID %s in channel ID %s\n"
            [AInt (i + 1); AStr ts; AStr ch]
      end
  end.

Definition DeleteMessages (fuel : nat) (messages : list Message) : M unit :=
  forM_from (fun i m => DeleteMessages_loop fuel i m;; time_Sleep 50)
    0 messages.

Fixpoint DeleteFiles_loop (n : nat) (i : Z) (f : File) : M unit :=
  match n with
  | O => out_of_fuel
  | S n' =>
      err ← call (CDeleteFile (file_ID f)) (DeleteFile (file_ID f));
      match err with
      | Some err =>
          if String.eqb err "file_not_found" then ret tt
          else
            ratelimitOrPanic err;;
            DeleteFiles_loop n' i f
      | None =>
          printf "%04d. Deleted file named %s (created: %s)\n"
            [AInt (i + 1); AStr (file_Name f);
             ADate (time.Unix (file_Created f) 0)]
      end
  end.

Definition DeleteFiles (fuel : nat) (files : list File) : M unit :=
  forM_from (fun i f => DeleteFiles_loop fuel i f;; time_Sleep 50) 0 files.

(** *** [main], after [pflag.Parse]; [env] is [MY_SLACK_TOKEN] *)

Definition main (fuel : nat) (flags : Flags) (env : string) : M unit :=
  token ← (if String.eqb (flag_token flags) "" then
             if String.eqb env "" then
               panic
                 "--token flag (or MY_SLACK_TOKEN env var) required but missing"
             else ret env
           else ret (flag_token flags));
  (if String.eqb (flag_before flags) "" then
     emit EPrintDefaults;;
     panic "--before flag is required but missing"
   else ret tt);;
  s ← New (mkOptions (flag_before flags) token);
  '(users, userID) ← Users (flag_user flags);
  channels ← Channels fuel (flag_filter flags) users;
  files ← Files fuel s userID channels;
  messages ← Messages fuel s channels userID;
  printf "\nFound %d messages and %d files to delete!\n\n"
    [AInt (len messages); AInt (len files)];;
  (if negb (flag_commit flags) then
     printf
       "Run command again with --commit flag to perform the delete operations!\n\n"
       [];;
     os_Exit 0
   else ret tt);;
  DeleteMessages fuel messages;;
  DeleteFiles fuel files;;
  printf "\nIt's a Done Deal!\n\n" [].

End Program.

(** ** Decimal texts *)

Module Decimal.

Fixpoint all_digits (s : string) : bool :=
  match s with
  | EmptyString => true
  | String c s' => strconv.is_digit c && all_digits s'
  end.

(** The number a text of digits denotes, continuing from [n]. *)
Fixpoint value_from (n : Z) (s : string) : Z :=
  match s with
  | EmptyString => n
  | String c s' => value_from (n * 10 + strconv.digit_val c) s'
  end.

Definition value (s : string) : Z := value_from 0 s.

End Decimal.


(** ** Timestamps

    The vocabulary of the properties of the codec. *)


(** The form of the timestamps of the platform: the seconds in digits (at
    most 18, so that they fit an [int64]), a point, the microseconds in six
    digits. *)
Definition ts_form (a whole frac : string) : Prop :=
  a = whole +:+ String "." frac
  /\ Decimal.all_digits whole = true /\ Decimal.all_digits frac = true
  /\ String.length frac = 6%nat /\ (String.length whole <= 18)%nat.

(** A message whose timestamp [SlackTSToTime] decodes. *)
Definition decodable (m : Message) : Prop :=
  SlackTSToTime (msg_Timestamp m) <> None.

(** ** Observing a run *)

(** The delete operations among the events of a trace. *)
Definition is_delete (e : Event) : bool :=
  match e with
  | ECall (CDeleteMessage _ _) | ECall (CDeleteFile _) => true
  | _ => false
  end.

Definition delete_calls (tr : list Event) : list Event :=
  List.filter is_delete tr.

(** The calls of the client among the events of a trace. *)
Definition calls (tr : list Event) : list slack.Call :=
  omap (fun e => match e with ECall c => Some c | _ => None end) tr.

(** The events of a call that is turned down as rate limited. *)
Definition retried (c : slack.Call) : list Event :=
  [ECall c; EPrintf "Rate limited, retrying in 1 sec ..\n" []; ESleep 1000].

(** A program that makes no delete call, however it ends. *)
Definition quiet {W A} (m : M W A) : Prop :=
  forall st, delete_calls (trace (snd (m st))) = delete_calls (trace st).

(** A program that does not call [os.Exit]. *)
Definition no_exit {W A} (m : M W A) : Prop :=
  forall st code, fst (m st) <> Exit code.

(** A program whose exits, if any, satisfy [Q]. *)
Definition exits_with {W A} (Q : Z -> list Event -> Prop) (m : M W A)
  : Prop :=
  forall st code, fst (m st) = Exit code -> Q code (trace (snd (m st))).

(** The end of a dry run: status 0, after the counts of the harvest and
    the advice to run again with [--commit]. *)
Definition reported (code : Z) (tr : list Event) : Prop :=
  code = 0
  /\ exists n_messages n_files tr0,
       tr = tr0
            ++ [EPrintf "\nFound %d messages and %d files to delete!\n\n"
                  [AInt n_messages; AInt n_files];
                EPrintf
                  "Run command again with --commit flag to perform the delete operations!\n\n"
                  []].

(** A program that does not return (it panics, exits, or runs on). *)
Definition never_returns {W A} (m : M W A) : Prop :=
  forall st a, fst (m st) <> Return a.

(** The directory after the users [res]: every id with its handle. *)
Definition directory_of (res : list User) : gmap string string :=
  foldl (fun users u => <[user_ID u := user_Name u]> users) ∅ res.

(** ** What the remote side is assumed to answer *)

Section Remote.

Context {W : Type} `{!slack.Client W}.

(** In the worlds [I], the delete of the message is settled at once: it is
    answered with [message_not_found] (the message is already absent) or
    it succeeds; and the world stays in [I]. *)
Definition message_settles (I : W -> Prop) (m : Message) : Prop :=
  forall w, I w ->
    exists w', I w'
      /\ (DeleteMessage (msg_Channel m) (msg_Timestamp m) w
          = (inr "message_not_found", w')
          \/ exists ch ts,
               DeleteMessage (msg_Channel m) (msg_Timestamp m) w
               = (inl (ch, ts), w')).

Definition file_settles (I : W -> Prop) (f : File) : Prop :=
  forall w, I w ->
    exists w', I w'
      /\ (DeleteFile (file_ID f) w = (Some "file_not_found", w')
          \/ DeleteFile (file_ID f) w = (None, w')).

(** [RepliesRun w p pages w']: asked for the replies of a thread with the
    parameters [p], from the world [w] on, the remote side hands out the
    pages [pages] one after the other, each but the last with [hasMore]
    and the cursor of the next, possibly turning some of the calls down
    as rate limited in between, and is left in [w']. *)
Inductive RepliesRun :
  W -> GetConversationRepliesParameters -> list (list Message) -> W -> Prop :=
| replies_last w p replies next w' :
    GetConversationReplies p w = (inl (replies, false, next), w') ->
    RepliesRun w p [replies] w'
| replies_more w p replies next w1 pages w' :
    GetConversationReplies p w = (inl (replies, true, next), w1) ->
    RepliesRun w1
      (mkGetReplies (gr_ChannelID p) (gr_Timestamp p) next (gr_Limit p))
      pages w' ->
    RepliesRun w p (replies :: pages) w'
| replies_retry w p err w1 pages w' :
    GetConversationReplies p w = (inr err, w1) ->
    GoString.Contains err "rate limit" = true ->
    RepliesRun w1 p pages w' ->
    RepliesRun w p pages w'.

End Remote.

(** ** A workspace in memory, for closed runs of the program

    A client whose world is a small workspace: the listing calls answer in
    one page, the delete calls remove what they find and answer
    [message_not_found] / [file_not_found] otherwise.  [ws_limited] says,
    call by call, which of the next calls are turned down as rate
    limited. *)

Module Fake.

Record Workspace := mkWorkspace {
  ws_users : list User;
  ws_channels : list Channel;
  (** every message names its conversation in [msg_Channel] *)
  ws_messages : list Message;
  (** every file with the conversation it was shared in *)
  ws_files : list (string * File);
  ws_limited : list bool }.

Definition rate_limited : slack.error :=
  "slack rate limit exceeded, retry after 1s".

Definition set_messages (ms : list Message) (w : Workspace) : Workspace :=
  mkWorkspace (ws_users w) (ws_channels w) ms (ws_files w) (ws_limited w).

Definition set_files (fs : list (string * File)) (w : Workspace)
  : Workspace :=
  mkWorkspace (ws_users w) (ws_channels w) (ws_messages w) fs (ws_limited w).

(** Is the next call turned down?  The answer is consumed. *)
Definition let_through (w : Workspace) : bool * Workspace :=
  match ws_limited w with
  | [] => (true, w)
  | b :: bs =>
      (negb b,
       mkWorkspace (ws_users w) (ws_channels w) (ws_messages w)
         (ws_files w) bs)
  end.

Definition is_message (channel timestamp : string) (m : Message) : bool :=
  String.eqb (msg_Channel m) channel
  && String.eqb (msg_Timestamp m) timestamp.

Definition top_level (m : Message) : bool :=
  String.eqb (msg_ThreadTimestamp m) ""
  || String.eqb (msg_ThreadTimestamp m) (msg_Timestamp m).

Definition reply_of (channel timestamp : string) (m : Message) : bool :=
  String.eqb (msg_Channel m) channel
  && String.eqb (msg_ThreadTimestamp m) timestamp
  && negb (String.eqb (msg_Timestamp m) timestamp).

Definition files_of (p : ListFilesParameters) (cf : string * File) : bool :=
  String.eqb (fst cf) (lf_Channel p)
  && (String.eqb (lf_User p) "" || String.eqb (file_User (snd cf)) (lf_User p)).

#[global] Instance client : slack.Client Workspace := {
  GetUsers w :=
    let '(ok, w) := let_through w in
    (if ok then inl (ws_users w) else inr rate_limited, w);
  GetConversations p w :=
    let '(ok, w) := let_through w in
    (if ok then inl (ws_channels w, EmptyString) else inr rate_limited, w);
  ListFiles p w :=
    let '(ok, w) := let_through w in
    (if ok then
       (map snd (List.filter (fun cf => files_of p cf) (ws_files w)),
        Some (mkListFiles (lf_Limit p) (lf_User p) (lf_Channel p)
                EmptyString),
        None)
     else ([], None, Some rate_limited), w);
  GetConversationHistory p w :=
    let '(ok, w) := let_through w in
    (if ok then
       inl (mkHistory
              (map (setChannel EmptyString)
                 (List.filter (fun m => String.eqb (msg_Channel m) (gh_ChannelID p)
                                   && top_level m) (ws_messages w)))
              false EmptyString)
     else inr rate_limited, w);
  GetConversationReplies p w :=
    let '(ok, w) := let_through w in
    (if ok then
       inl (map (setChannel EmptyString)
              (List.filter (fun m => reply_of (gr_ChannelID p) (gr_Timestamp p) m)
                 (ws_messages w)),
            false, EmptyString)
     else inr rate_limited, w);
  DeleteMessage channel timestamp w :=
    let '(ok, w) := let_through w in
    if ok then
      if existsb (is_message channel timestamp) (ws_messages w) then
        (inl (channel, timestamp),
         set_messages
           (List.filter (fun m => negb (is_message channel timestamp m))
              (ws_messages w)) w)
      else (inr "message_not_found", w)
    else (inr rate_limited, w);
  DeleteFile id w :=
    let '(ok, w) := let_through w in
    if ok then
      if existsb (fun cf => String.eqb (file_ID (snd cf)) id) (ws_files w)
      then
        (None,
         set_files
           (List.filter (fun cf => negb (String.eqb (file_ID (snd cf)) id))
              (ws_files w)) w)
      else (Some "file_not_found", w)
    else (Some rate_limited, w);
}.

(** A regexp engine for the two shapes of pattern the program compiles:
    the case-insensitive alternation of literal words of the channel
    filter, and the white-space pattern of the previews. *)
Inductive Re :=
| Words (pattern : string) (words : list string)
| Blanks (pattern : string).

Definition lower (c : ascii) : ascii :=
  let n := N_of_ascii c in
  if ((65 <=? n) && (n <=? 90))%N then ascii_of_N (n + 32) else c.

Fixpoint lower_string (s : string) : string :=
  match s with
  | EmptyString => EmptyString
  | String c s' => String (lower c) (lower_string s')
  end.

Definition is_blank (c : ascii) : bool :=
  let n := N_of_ascii c in ((n =? 9) || (n =? 10) || (n =? 13))%N.

(** Every run of blanks becomes [repl]. *)
Fixpoint replace_blanks (in_run : bool) (repl s : string) : string :=
  match s with
  | EmptyString => EmptyString
  | String c s' =>
      if is_blank c then
        if in_run then replace_blanks true repl s'
        else repl +:+ replace_blanks true repl s'
      else String c (replace_blanks false repl s')
  end.

Definition compile (str : string) : Re + string :=
  if String.eqb str "[\r\n\t]+" then inl (Blanks str)
  else
    let n := String.length str in
    if String.prefix "(?i)(" str
       && String.eqb (String.substring (n - 1) 1 str) ")"
    then inl (Words str
                (GoString.SplitByte "|" (String.substring 5 (n - 6) str)))
    else inr "error parsing regexp".

Definition pattern_of (re : Re) : string :=
  match re with
  | Words p _ => p
  | Blanks p => p
  end.

(** Days from 1970-01-01 to the civil date [y]-[m]-[d]. *)
Definition days_from_civil (y m d : Z) : Z :=
  let y := if m <=? 2 then y - 1 else y in
  let era := y / 400 in
  let yoe := y - era * 400 in
  let doy := (153 * (if 2 <? m then m - 3 else m + 9) + 2) / 5 + d - 1 in
  let doe := yoe * 365 + yoe / 4 - yoe / 100 + doy in
  era * 146097 + doe - 719468.

Definition days_in (y m : Z) : Z :=
  if m =? 2 then
    if ((y mod 4 =? 0) && negb (y mod 100 =? 0)) || (y mod 400 =? 0)
    then 29 else 28
  else if (m =? 4) || (m =? 6) || (m =? 9) || (m =? 11) then 30
  else 31.

(** [time.Parse] for the layout of the program and values of the shape
    [YYYYMMDD-HHMM]. *)
Definition parse (layout value : string) : time.Time + string :=
  let field i n := String.substring i n value in
  let num i n := Decimal.value (field i n) in
  if String.eqb layout "20060102-1504"
     && (String.length value =? 13)%nat
     && Decimal.all_digits (field 0%nat 8%nat)
     && String.eqb (field 8%nat 1%nat) "-"
     && Decimal.all_digits (field 9%nat 4%nat)
  then
    let y := num 0%nat 4%nat in
    let m := num 4%nat 2%nat in
    let d := num 6%nat 2%nat in
    let hh := num 9%nat 2%nat in
    let mm := num 11%nat 2%nat in
    if (1 <=? m) && (m <=? 12) && (1 <=? d) && (d <=? days_in y m)
       && (hh <? 24) && (mm <? 60)
    then inl (time.mkTime
                (days_from_civil y m d * 86400 + hh * 3600 + mm * 60) 0)
    else inr "parsing time: out of range"
  else inr "parsing time: cannot parse".

#[global] Instance golib : GoLib := {
  Regexp := Re;
  regexp_Compile := compile;
  regexp_String := pattern_of;
  MatchString re s :=
    match re with
    | Words _ words =>
        existsb (fun w => GoString.Contains (lower_string s) (lower_string w))
          words
    | Blanks _ => existsb is_blank (list_ascii_of_string s)
    end;
  ReplaceAllString re src repl :=
    match re with
    | Words _ _ => src
    | Blanks _ => replace_blanks false repl src
    end;
  time_Parse := parse;
}.

Definition run {A} (m : M Workspace A) (w : Workspace)
  : Outcome A * State Workspace :=
  m (mkState w []).

End Fake.

(** ** A small workspace *)

Module Demo.

Definition alice := mkUser "U1" "alice" "Alice A".
Definition bob := mkUser "U2" "bob" "Bob B".

Definition general := mkChannel "C1" "general" "" false false false.
(** a direct conversation whose peer is not in the directory *)
Definition direct := mkChannel "D1" "" "U9" true false false.

(** 2020-05-01T00:00:00Z is 1588291200. *)
Definition old_by_alice :=
  mkMessage "C1" "U1" "hello" "1588000000.000100" "".
Definition root_by_bob :=
  mkMessage "C1" "U2" "a thread" "1588000001.000100" "1588000001.000100".
Definition late_reply_by_alice :=
  mkMessage "C1" "U1" "a reply" "1589000001.000100" "1588000001.000100".
Definition at_cutoff_by_bob :=
  mkMessage "C1" "U2" "on the hour" "1588291200.000000" "".
Definition new_by_bob :=
  mkMessage "C1" "U2" "fresh" "1588291200.000001" "".

Definition file_before := mkFile "F1" "a.png" "U1" 1588291199.
Definition file_at_cutoff := mkFile "F2" "b.png" "U2" 1588291200.

Definition workspace : Fake.Workspace :=
  Fake.mkWorkspace [alice; bob] [general; direct]
    [old_by_alice; root_by_bob; late_reply_by_alice; at_cutoff_by_bob;
     new_by_bob]
    [("C1", file_before); ("C1", file_at_cutoff)] [].

(** The same workspace, with the next calls turned down or not. *)
Definition limited (bs : list bool) : Fake.Workspace :=
  Fake.mkWorkspace (Fake.ws_users workspace) (Fake.ws_channels workspace)
    (Fake.ws_messages workspace) (Fake.ws_files workspace) bs.

(** Two old messages, one of each author, and the two files. *)
Definition old_by_bob :=
  mkMessage "C1" "U2" "hi" "1588000002.000100" "".

Definition two_authors : Fake.Workspace :=
  Fake.mkWorkspace [alice; bob] [general] [old_by_alice; old_by_bob]
    [("C1", file_before); ("C1", file_at_cutoff)] [].

(** A message and a file at the cutoff, to the second. *)
Definition on_the_hour : Fake.Workspace :=
  Fake.mkWorkspace [alice; bob] [general] [at_cutoff_by_bob; new_by_bob]
    [("C1", file_before); ("C1", file_at_cutoff)] [].

(** The directory that [Users] builds for these workspaces. *)
Definition directory : gmap string string :=
  <["U2" := "bob"]> (<["U1" := "alice"]> ∅).

(** [--before 20200501-0000] *)
Definition cutoff : SlackClean :=
  mkSlackClean "1588291200.000000" 1588291200.

(** The white-space pattern of the previews, compiled. *)
Definition clean : @Regexp Fake.golib := Fake.Blanks "[\r\n\t]+".

Definition dry_run : Flags :=
  mkFlags "xoxp-1" "" "" "20200501-0000" false.

Definition commit_for_alice : Flags :=
  mkFlags "xoxp-1" "alice" "" "20200501-0000" true.

(** What a commit run of the small workspace selects, and the workspace it
    leaves behind. *)
Definition selected_messages : list Message :=
  [old_by_alice; root_by_bob; late_reply_by_alice;
   at_cutoff_by_bob].

Definition selected_files : list File := [file_before].

Definition after_commit : Fake.Workspace :=
  world (snd (Fake.run (DeleteMessages 5 selected_messages;;
                        DeleteFiles 5 selected_files)
                workspace)).

End Demo.

(** ** A vocabulary for the rest of the code *)

(** A program all of whose calls of the client satisfy [P], however it
    ends. *)
Definition only_calls {W A} (P : slack.Call -> Prop) (m : M W A) : Prop :=
  forall st,
    exists cs,
      calls (trace (snd (m st))) = calls (trace st) ++ cs /\ Forall P cs.

(** A program whose results, when it returns, satisfy [Q]. *)
Definition returns_only {W A} (Q : A -> Prop) (m : M W A) : Prop :=
  forall st a st', m st = (Return a, st') -> Q a.




(** The two tests of [Messages] on a message: not of the given user, and
    not after the cutoff (as texts). *)
Definition passes_filters (s : SlackClean) (userID : string) (m : Message)
  : bool :=
  negb (nonempty userID && String.eqb (msg_User m) userID)
  && negb (GoString.gt (msg_Timestamp m) (beforeTS s)).

Definition thread_root (m : Message) : bool :=
  nonempty (msg_ThreadTimestamp m)
  && String.eqb (msg_Timestamp m) (msg_ThreadTimestamp m).

(** The numbers of the report of [Messages] add up. *)
Definition counted (a : MsgAcc) : Prop :=
  found a = wrap64 (len (messagesToDelete a))
  /\ total a = wrap64 (keep a + len (messagesToDelete a)).

Section Pages.

Context {W : Type} `{!slack.Client W}.


(** The same for the history of the conversation [id]. *)
Inductive HistoryRun (id : string)
  : W -> string -> list (list Message) -> W -> Prop :=
| history_last w cursor res w' :
    GetConversationHistory (mkGetHistory id cursor 1000) w = (inl res, w') ->
    hr_HasMore res = false ->
    HistoryRun id w cursor [hr_Messages res] w'
| history_more w cursor res w1 pages w' :
    GetConversationHistory (mkGetHistory id cursor 1000) w = (inl res, w1) ->
    hr_HasMore res = true ->
    HistoryRun id w1 (hr_NextCursor res) pages w' ->
    HistoryRun id w cursor (hr_Messages res :: pages) w'
| history_retry w cursor err w1 pages w' :
    GetConversationHistory (mkGetHistory id cursor 1000) w = (inr err, w1) ->
    GoString.Contains err "rate limit" = true ->
    HistoryRun id w1 cursor pages w' ->
    HistoryRun id w cursor pages w'.

(** The histories of the conversations of a list, one after the other. *)
Inductive HistoriesRun
  : W -> list Channel -> list (list (list Message)) -> W -> Prop :=
| histories_nil w : HistoriesRun w [] [] w
| histories_cons w c pages w1 cs rest w' :
    HistoryRun (ch_ID c) w EmptyString pages w1 ->
    HistoriesRun w1 cs rest w' ->
    HistoriesRun w (c :: cs) (pages :: rest) w'.

(** The files of the conversations of a list, each listing answered in one
    page (without an error and without a cursor). *)
Inductive FilesRun (userID : string)
  : W -> list Channel -> list (list File) -> W -> Prop :=
| files_nil w : FilesRun userID w [] [] w
| files_cons w c res p' w1 cs rest w' :
    ListFiles (mkListFiles 100 userID (ch_ID c) EmptyString) w
    = ((res, Some p', None), w1) ->
    lf_Cursor p' = EmptyString ->
    FilesRun userID w1 cs rest w' ->
    FilesRun userID w (c :: cs) (res :: rest) w'.

(** [Throttled f err_of k w w']: from [w] on, the call [f] is turned down
    as rate limited [k] times in a row, which leaves the world [w']. *)
Inductive Throttled {R} (f : W -> R * W) (err_of : R -> option slack.error)
  : nat -> W -> W -> Prop :=
| throttled_O w : Throttled f err_of 0 w w
| throttled_S k w r err w1 w' :
    f w = (r, w1) -> err_of r = Some err ->
    GoString.Contains err "rate limit" = true ->
    Throttled f err_of k w1 w' ->
    Throttled f err_of (S k) w w'.

End Pages.

(** The error of an answer of [DeleteMessage]. *)
Definition error_of {A} (r : A + slack.error) : option slack.error :=
  match r with
  | inl _ => None
  | inr err => Some err
  end.

(** The events of [k] calls that are turned down, one after the other. *)
Fixpoint retried_times (k : nat) (c : slack.Call) : list Event :=
  match k with
  | O => []
  | S k' => retried c ++ retried_times k' c
  end.

(** ** A server that answers in pages

    A client without state: its listings are cut into the pages given, the
    cursor of a page being its number in decimal; nothing is ever found to
    delete. *)

Module Paged.

Record Server := mkServer {
  sv_users : list User;
  sv_channels : list (list Channel);
  sv_files : list (list File);
  sv_history : list (list Message) }.

(** The page of the cursor (the first for the empty cursor), and the
    cursor of the next page, empty after the last. *)
Definition page {A} (pages : list (list A)) (cursor : string)
  : list A * string :=
  let k := Z.to_nat (Decimal.value cursor) in
  (nth k pages [],
   if (S k <? length pages)%nat then strconv.FormatUint (Z.of_nat (S k))
   else EmptyString).

#[global] Instance client : slack.Client Server := {
  GetUsers w := (inl (sv_users w), w);
  GetConversations p w := (inl (page (sv_channels w) (gc_Cursor p)), w);
  ListFiles p w :=
    let '(files, next) := page (sv_files w) (lf_Cursor p) in
    ((files, Some (mkListFiles (lf_Limit p) (lf_User p) (lf_Channel p) next),
      None), w);
  GetConversationHistory p w :=
    let '(messages, next) := page (sv_history w) (gh_Cursor p) in
    (inl (mkHistory messages (nonempty next) next), w);
  GetConversationReplies p w := (inl ([], false, EmptyString), w);
  DeleteMessage channel timestamp w := (inr "message_not_found", w);
  DeleteFile id w := (Some "file_not_found", w);
}.

(** Two pages of everything. *)
Definition server : Server :=
  mkServer [Demo.alice; Demo.bob]
    [[Demo.general]; [Demo.direct]]
    [[Demo.file_before]; [Demo.file_at_cutoff]]
    [[Demo.old_by_alice; Demo.new_by_bob]; [Demo.old_by_bob]].

(** One page of files. *)
Definition one_page : Server :=
  mkServer [Demo.alice; Demo.bob] [[Demo.general; Demo.direct]]
    [[Demo.file_before; Demo.file_at_cutoff]]
    [[Demo.old_by_alice; Demo.new_by_bob; Demo.old_by_bob]].


End Paged.

(** ** A token that has been revoked

    Every call fails with [invalid_auth]. *)
Module Revoked.

Definition invalid_auth : slack.error := "invalid_auth".

#[global] Instance client : slack.Client unit := {
  GetUsers w := (inr invalid_auth, w);
  GetConversations p w := (inr invalid_auth, w);
  ListFiles p w := (([], None, Some invalid_auth), w);
  GetConversationHistory p w := (inr invalid_auth, w);
  GetConversationReplies p w := (inr invalid_auth, w);
  DeleteMessage channel timestamp w := (inr invalid_auth, w);
  DeleteFile id w := (Some invalid_auth, w);
}.

End Revoked.

(** The id that the loop of [Users] is left with, from [userID] on: the id
    of the last user of the list whose handle is [user]. *)
Definition resolve (user : string) (userID : string) (res : list User)
  : string :=
  foldl (fun id u => if String.eqb (user_Name u) user then user_ID u else id)
    userID res.

(** What [Messages] selects from the histories of the conversations, when
    no message is the root of a thread: of every conversation in turn, the
    messages of its pages that pass the two tests, stamped with its id. *)
Definition harvest_of (s : SlackClean) (userID : string)
    (channels : list Channel) (histories : list (list (list Message)))
  : list Message :=
  concat
    (map (fun ch => map (setChannel (ch_ID (fst ch)))
                      (List.filter (passes_filters s userID)
                         (concat (snd ch))))
       (combine channels histories)).

(** Every selected message carries the id of one of the conversations. *)
Definition stamped (ids : list string) (a : MsgAcc) : Prop :=
  Forall (fun m => In (msg_Channel m) ids) (messagesToDelete a).

(** A call that reads, and a call that deletes. *)
Definition reads (c : slack.Call) : Prop := is_delete (ECall c) = false.
Definition deletes (c : slack.Call) : Prop := is_delete (ECall c) = true.

(** A program all of whose reads come before all of its deletes. *)
Definition reads_then_deletes {W A} (m : M W A) : Prop :=
  forall st,
    exists rs ds,
      calls (trace (snd (m st))) = calls (trace st) ++ rs ++ ds
      /\ Forall reads rs /\ Forall deletes ds.

(** ** The harvest of conversations with threads *)

(** A message whose replies [Messages] asks for: one that passes the two
    tests and is the root of a thread. *)
Definition asks_replies (s : SlackClean) (userID : string) (m : Message)
  : bool :=
  passes_filters s userID m && thread_root m.

Section ThreadedPages.

Context {W : Type} `{!slack.Client W}.

(** [ThreadsRun s userID id w items w']: what the remote side answers
    while the messages of one page of the conversation [id] are gone
    through, in order.  [items] pairs every message of the page with the
    pages of replies handed out for it (see [RepliesRun]); for a message
    whose replies are not asked for no call is made, and it has none. *)
Inductive ThreadsRun (s : SlackClean) (userID id : string)
  : W -> list (Message * list (list Message)) -> W -> Prop :=
| threads_nil w : ThreadsRun s userID id w [] w
| threads_skip w m items w' :
    asks_replies s userID m = false ->
    ThreadsRun s userID id w items w' ->
    ThreadsRun s userID id w ((m, []) :: items) w'
| threads_root w m pages w1 items w' :
    asks_replies s userID m = true ->
    RepliesRun w (mkGetReplies id (msg_Timestamp m) EmptyString 1000)
      pages w1 ->
    ThreadsRun s userID id w1 items w' ->
    ThreadsRun s userID id w ((m, pages) :: items) w'.

(** The pages of the history of the conversation [id], from [cursor] on,
    each with the threads of its messages: after a page is handed out its
    messages are gone through before the next page is asked for. *)
Inductive ThreadedHistoryRun (s : SlackClean) (userID id : string)
  : W -> string -> list (list (Message * list (list Message))) -> W
    -> Prop :=
| threaded_last w cursor res items w1 w' :
    GetConversationHistory (mkGetHistory id cursor 1000) w = (inl res, w1) ->
    hr_Messages res = map fst items ->
    ThreadsRun s userID id w1 items w' ->
    hr_HasMore res = false ->
    ThreadedHistoryRun s userID id w cursor [items] w'
| threaded_more w cursor res items w1 w2 pages w' :
    GetConversationHistory (mkGetHistory id cursor 1000) w = (inl res, w1) ->
    hr_Messages res = map fst items ->
    ThreadsRun s userID id w1 items w2 ->
    hr_HasMore res = true ->
    ThreadedHistoryRun s userID id w2 (hr_NextCursor res) pages w' ->
    ThreadedHistoryRun s userID id w cursor (items :: pages) w'
| threaded_retry w cursor err w1 pages w' :
    GetConversationHistory (mkGetHistory id cursor 1000) w = (inr err, w1) ->
    GoString.Contains err "rate limit" = true ->
    ThreadedHistoryRun s userID id w1 cursor pages w' ->
    ThreadedHistoryRun s userID id w cursor pages w'.

(** The same for the conversations of a list, one after the other. *)
Inductive HarvestRun (s : SlackClean) (userID : string)
  : W -> list Channel
    -> list (list (list (Message * list (list Message)))) -> W -> Prop :=
| harvest_nil w : HarvestRun s userID w [] [] w
| harvest_cons w c pages w1 cs rest w' :
    ThreadedHistoryRun s userID (ch_ID c) w EmptyString pages w1 ->
    HarvestRun s userID w1 cs rest w' ->
    HarvestRun s userID w (c :: cs) (pages :: rest) w'.

End ThreadedPages.

(** What becomes of a message of the conversation [id] and the replies
    handed out for it: nothing when the message does not pass the two
    tests; otherwise the message and, after it, every reply of every page,
    all stamped with [id]. *)
Definition expand (s : SlackClean) (userID id : string)
    (item : Message * list (list Message)) : list Message :=
  if passes_filters s userID (fst item)
  then setChannel id (fst item) :: map (setChannel id) (concat (snd item))
  else [].

Definition deletion_set (s : SlackClean) (userID : string)
    (channels : list Channel)
    (answers : list (list (list (Message * list (list Message)))))
  : list Message :=
  concat
    (map (fun ch => concat (map (expand s userID (ch_ID (fst ch)))
                              (concat (snd ch))))
       (combine channels answers)).

(** The time stamps of a message that passes the tests, and of its
    replies, decode. *)
Definition decodable_item (s : SlackClean) (userID : string)
    (item : Message * list (list Message)) : Prop :=
  passes_filters s userID (fst item) = true ->
  decodable (fst item) /\ Forall decodable (concat (snd item)).

(** ** A conversation with one thread

    A client without state: the history of every conversation is
    [sv_history], in one page, and the replies of every thread are
    [sv_replies], in one page. *)
Module Threaded.

Record Server := mkServer {
  sv_history : list Message;
  sv_replies : list Message }.

#[global] Instance client : slack.Client Server := {
  GetUsers w := (inl [], w);
  GetConversations p w := (inl ([], EmptyString), w);
  ListFiles p w := (([], Some p, None), w);
  GetConversationHistory p w :=
    (inl (mkHistory (sv_history w) false EmptyString), w);
  GetConversationReplies p w := (inl (sv_replies w, false, EmptyString), w);
  DeleteMessage channel timestamp w := (inr "message_not_found", w);
  DeleteFile id w := (Some "file_not_found", w);
}.

Definition root :=
  mkMessage "" "U2" "a thread" "1588000001.000100" "1588000001.000100".

(** A reply that was also sent to the conversation: the history lists it
    as well. *)
Definition broadcast_reply :=
  mkMessage "" "U1" "also to the channel" "1588000005.000100"
    "1588000001.000100".

(** A reply whose time stamp has no decimal point. *)
Definition undated_reply :=
  mkMessage "" "U1" "a reply" "1588000005" "1588000001.000100".

Definition broadcast : Server :=
  mkServer [root; broadcast_reply] [broadcast_reply].

Definition undated : Server := mkServer [root] [undated_reply].

End Threaded.

(** * Properties *)

(** ** Splitting and decimal texts *)

Section SplitFacts.

Import GoString.

Lemma SplitByte_nonempty sep s : SplitByte sep s <> [].
Proof.
  induction s as [|c s IH]; simpl; [discriminate|].
  destruct (Ascii.eqb c sep); [discriminate|].
  destruct (SplitByte sep s); discriminate.
Qed.

Lemma SplitByte_no_sep sep s :
  has_byte sep s = false -> SplitByte sep s = [s].
Proof.
  induction s as [|c s IH]; simpl; [reflexivity|].
  intros Hb. apply orb_false_iff in Hb as [Hc Hs].
  rewrite Hc, (IH Hs). reflexivity.
Qed.

Lemma SplitByte_sep sep s :
  has_byte sep s = true ->
  exists p0 p1 rest, SplitByte sep s = p0 :: p1 :: rest.
Proof.
  induction s as [|c s IH]; simpl; [discriminate|].
  destruct (Ascii.eqb c sep) eqn:Hc; simpl.
  - intros _. pose proof (SplitByte_nonempty sep s) as Hne.
    destruct (SplitByte sep s) as [|p ps]; [contradiction|].
    exists EmptyString, p, ps. reflexivity.
  - intros Hs. destruct (IH Hs) as (p0 & p1 & rest & ->).
    exists (String c p0), p1, rest. reflexivity.
Qed.

(** A separator between two texts that have none splits them apart. *)
Lemma SplitByte_two sep x y :
  has_byte sep x = false -> has_byte sep y = false ->
  SplitByte sep (x +:+ String sep y) = [x; y].
Proof.
  intros Hx Hy. induction x as [|c x IH]; simpl in *.
  - rewrite Ascii.eqb_refl, (SplitByte_no_sep _ _ Hy). reflexivity.
  - apply orb_false_iff in Hx as [Hc Hx].
    rewrite Hc, (IH Hx). reflexivity.
Qed.

End SplitFacts.

Section DecodeFacts.

Import strconv.

Lemma ParseUint_loop_syntax s n v :
  ParseUint_loop s n = (v, Some ErrSyntax) -> v = 0.
Proof.
  revert n. induction s as [|c s IH]; simpl; intros n; [discriminate|].
  destruct (is_digit c); [|congruence].
  destruct (maxUint64 / 10 + 1 <=? n); [discriminate|].
  destruct (_ || _); [discriminate|]. apply IH.
Qed.

(** A syntax error of [ParseInt] comes with the value 0. *)
Lemma ParseInt_syntax_zero p :
  snd (ParseInt p) = Some ErrSyntax -> fst (ParseInt p) = 0.
Proof.
  unfold ParseInt. destruct p as [|c p]; [reflexivity|].
  destruct (ParseUint _) as [un [[]|]]; simpl; [reflexivity| |];
    repeat (destruct (_ && _); simpl); discriminate.
Qed.

Lemma SlackTSToTime_parts ts p0 p1 rest :
  GoString.SplitByte "." ts = p0 :: p1 :: rest ->
  SlackTSToTime ts =
    Some (time.Unix (fst (ParseInt p0)) (wrap64 (fst (ParseInt p1) * 1000))).
Proof. unfold SlackTSToTime. intros ->. reflexivity. Qed.

End DecodeFacts.

(** ** Closed runs of the codec *)

Example SlackTSToTime_ex :
  SlackTSToTime "1588291200.000123" = Some (time.mkTime 1588291200 123000).
Proof. reflexivity. Qed.

Example TimeToSlackTS_ex :
  TimeToSlackTS (time.mkTime 1588291200 123000) = Some "1588291200.000123".
Proof. vm_compute. reflexivity. Qed.

Example Fake_parse_ex :
  Fake.parse "20060102-1504" "20200501-0000"
  = inl (time.mkTime 1588291200 0).
Proof. vm_compute. reflexivity. Qed.

Section DecimalFacts.

Import strconv Decimal.

Lemma is_digit_digit_char d : 0 <= d <= 9 -> is_digit (digit_char d) = true.
Proof.
  intros Hd.
  assert (d = 0 \/ d = 1 \/ d = 2 \/ d = 3 \/ d = 4 \/ d = 5 \/ d = 6
          \/ d = 7 \/ d = 8 \/ d = 9) as Hcases by lia.
  repeat (destruct Hcases as [-> | Hcases]; [reflexivity|]).
  subst d. reflexivity.
Qed.

Lemma all_digits_digits_loop fuel : forall n acc,
  0 <= n -> all_digits acc = true ->
  all_digits (digits_loop fuel n acc) = true.
Proof.
  induction fuel as [|fuel IH]; intros n acc Hn Hacc; simpl; [exact Hacc|].
  assert (all_digits (String (digit_char (n mod 10)) acc) = true) as Hacc'.
  { simpl. rewrite is_digit_digit_char, Hacc; [reflexivity|].
    pose proof (Z.mod_pos_bound n 10). lia. }
  destruct (n <? 10); [exact Hacc'|].
  apply IH; [|exact Hacc']. apply Z.div_pos; lia.
Qed.

Lemma length_digits_loop fuel : forall n acc,
  (String.length (digits_loop fuel n acc) <= fuel + String.length acc)%nat.
Proof.
  induction fuel as [|fuel IH]; intros n acc; simpl; [lia|].
  destruct (n <? 10); simpl; [lia|].
  etransitivity; [apply IH|]. simpl. lia.
Qed.

Lemma all_digits_app x y :
  all_digits (x +:+ y) = all_digits x && all_digits y.
Proof.
  induction x as [|c x IH]; simpl; [reflexivity|].
  rewrite IH, andb_assoc. reflexivity.
Qed.

Lemma all_digits_no_dot x :
  all_digits x = true -> GoString.has_byte "." x = false.
Proof.
  induction x as [|c x IH]; simpl; [reflexivity|].
  intros [Hc Hx]%andb_true_iff. rewrite (IH Hx), orb_false_r.
  destruct (Ascii.eqb_spec c "."); [subst c; discriminate|reflexivity].
Qed.

Lemma digit_val_range c : is_digit c = true -> 0 <= digit_val c <= 9.
Proof. unfold is_digit, digit_val. lia. Qed.

Lemma value_from_shift x : forall n,
  value_from n x = n * 10 ^ Z.of_nat (String.length x) + value x.
Proof.
  unfold value. induction x as [|c x IH]; intros n.
  - simpl. lia.
  - cbn [value_from String.length]. rewrite (IH (n * 10 + _)), (IH (0 * 10 + _)).
    rewrite Nat2Z.inj_succ, Z.pow_succ_r by lia. lia.
Qed.

Lemma value_range x :
  all_digits x = true -> 0 <= value x < 10 ^ Z.of_nat (String.length x).
Proof.
  induction x as [|c x IH]; [intros _; cbv; split; congruence|].
  cbn [all_digits String.length]. intros [Hc Hx]%andb_true_iff.
  unfold value. cbn [value_from]. rewrite value_from_shift.
  rewrite Nat2Z.inj_succ, Z.pow_succ_r by lia.
  pose proof (digit_val_range c Hc). specialize (IH Hx). nia.
Qed.



Lemma length_app x y :
  String.length (x +:+ y) = (String.length x + String.length y)%nat.
Proof. induction x as [|c x IH]; simpl; [reflexivity|]. rewrite IH. reflexivity. Qed.

Lemma substring_all s : String.substring 0 (String.length s) s = s.
Proof. induction s as [|c s IH]; simpl; [reflexivity|]. now rewrite IH. Qed.

Lemma substring_cut s : forall k,
  (k <= String.length s)%nat ->
  String.substring 0 k s +:+ String.substring k (String.length s - k) s = s.
Proof.
  induction s as [|c s IH]; intros [|k] Hk; simpl in *.
  - reflexivity.
  - lia.
  - now rewrite substring_all.
  - change (String c (String.substring 0 k s
                        +:+ String.substring k (String.length s - k) s)
            = String c s).
    rewrite IH by lia. reflexivity.
Qed.

Lemma length_substring s : forall k m,
  (k + m <= String.length s)%nat ->
  String.length (String.substring k m s) = m.
Proof.
  induction s as [|c s IH]; intros [|k] [|m] Hk; simpl in *;
    try reflexivity; try lia.
  - rewrite (IH 0%nat m) by lia. reflexivity.
  - apply (IH k 0%nat). lia.
  - apply (IH k (S m)). lia.
Qed.

Lemma ParseUint_loop_digits x : forall n,
  all_digits x = true -> 0 <= n -> value_from n x <= maxUint64 ->
  ParseUint_loop x n = (value_from n x, None).
Proof.
  induction x as [|c x IH]; intros n Hx Hn Hmax; [reflexivity|].
  cbn [all_digits] in Hx. apply andb_true_iff in Hx as [Hc Hx].
  cbn [ParseUint_loop value_from] in *. rewrite Hc.
  pose proof (digit_val_range c Hc) as Hd.
  pose proof (value_range x Hx) as Rx.
  rewrite value_from_shift in Hmax.
  assert (1 <= 10 ^ Z.of_nat (String.length x)) as HP
    by (apply Z.lt_pred_le, Z.pow_pos_nonneg; lia).
  assert (n * 10 + digit_val c <= maxUint64) as Hstep by nia.
  assert (maxUint64 = 18446744073709551615) as Hmx by reflexivity.
  assert (2 ^ 64 = 18446744073709551616) as H64 by reflexivity.
  destruct (Z.leb_spec (maxUint64 / 10 + 1) n) as [Hcut|_].
  { rewrite Hmx in Hcut.
    change (18446744073709551615 / 10 + 1) with 1844674407370955162 in Hcut.
    lia. }
  rewrite H64, Z.mod_small by lia.
  destruct (Z.ltb_spec (n * 10 + digit_val c) (n * 10)); [lia|].
  destruct (Z.ltb_spec maxUint64 (n * 10 + digit_val c)); [lia|].
  simpl. apply IH; [exact Hx|lia|].
  rewrite value_from_shift. lia.
Qed.

Lemma wrap64_small z : minInt64 <= z <= maxInt64 -> wrap64 z = z.
Proof.
  unfold wrap64, minInt64, maxInt64. intros Hz.
  rewrite Z.mod_small; lia.
Qed.

(** [ParseInt] reads a text of digits as its number, the empty text as 0
    (with an error that [SlackTSToTime] discards). *)
Lemma ParseInt_digits x :
  all_digits x = true -> value x <= maxInt64 ->
  fst (ParseInt x) = value x.
Proof.
  intros Hx Hmax. destruct x as [|c x]; [reflexivity|].
  pose proof Hx as Hcx. cbn [all_digits] in Hcx.
  apply andb_true_iff in Hcx as [Hc _].
  unfold ParseInt.
  assert (Ascii.eqb c "-" = false) as ->
    by (destruct (Ascii.eqb_spec c "-"); [subst c; discriminate|reflexivity]).
  assert (Ascii.eqb c "+" = false) as ->
    by (destruct (Ascii.eqb_spec c "+"); [subst c; discriminate|reflexivity]).
  cbn [orb negb andb]. unfold ParseUint.
  pose proof (value_range _ Hx) as Rx.
  assert (maxInt64 = 9223372036854775807) as Hmi by reflexivity.
  assert (maxUint64 = 18446744073709551615) as Hmx by reflexivity.
  rewrite (ParseUint_loop_digits (String c x) 0 Hx) by (fold (value (String c x)); lia).
  fold (value (String c x)).
  destruct (Z.leb_spec (2 ^ 63) (value (String c x))) as [Hbig|_].
  { change (2 ^ 63) with 9223372036854775808 in Hbig. lia. }
  cbn [fst]. apply wrap64_small. unfold minInt64. lia.
Qed.

Lemma Unix_normal s ns :
  0 <= ns < 1000000000 -> time.Unix s ns = time.mkTime s ns.
Proof.
  intros Hns. unfold time.Unix.
  destruct (Z.ltb_spec ns 0); [lia|].
  destruct (Z.leb_spec 1000000000 ns); [lia|]. reflexivity.
Qed.

End DecimalFacts.

(** ** TimestampCodec *)

Section CodecFacts.

Import strconv Decimal.


(** Decoding a text of that form. *)
Lemma SlackTSToTime_form a whole frac :
  ts_form a whole frac ->
  SlackTSToTime a = Some (time.mkTime (value whole) (value frac * 1000)).
Proof.
  intros (-> & Hw & Hf & Lf & Lw).
  rewrite (SlackTSToTime_parts _ whole frac [])
    by (apply SplitByte_two; apply all_digits_no_dot; assumption).
  pose proof (value_range _ Hw) as Rw. pose proof (value_range _ Hf) as Rf.
  rewrite Lf in Rf. change (10 ^ Z.of_nat 6) with 1000000 in Rf.
  assert (10 ^ Z.of_nat (String.length whole) <= 10 ^ 18) as Hp
    by (apply Z.pow_le_mono_r; lia).
  change (10 ^ 18) with 1000000000000000000 in Hp.
  assert (maxInt64 = 9223372036854775807) as Hmi by reflexivity.
  assert (minInt64 = -9223372036854775808) as Hmn by reflexivity.
  rewrite !ParseInt_digits by (assumption || lia).
  rewrite wrap64_small by lia. rewrite Unix_normal by lia. reflexivity.
Qed.


(** A byte that is neither a digit nor a sign at the head of a text is a
    syntax error of [ParseInt]. *)
Lemma ParseInt_rejects_head c p :
  is_digit c = false -> c <> "+"%char -> c <> "-"%char ->
  ParseInt (String c p) = (0, Some ErrSyntax).
Proof.
  intros Hc Hplus Hminus. unfold ParseInt.
  destruct (Ascii.eqb_spec c "-"); [contradiction|].
  destruct (Ascii.eqb_spec c "+"); [contradiction|].
  cbn [orb ParseUint ParseUint_loop]. rewrite Hc. reflexivity.
Qed.

End CodecFacts.




(** C7, as amended.  [SlackTSToTime] splits the text on the decimal point
    and decodes every text that has both parts: the errors of the two
    parses are discarded, and a part that is rejected as not an integer
    counts as 0. *)
Theorem SlackTSToTime_discards_parse_errors (ts p0 p1 : string)
    (rest : list string) :
  GoString.SplitByte "." ts = p0 :: p1 :: rest ->
  SlackTSToTime ts =
    Some (time.Unix (fst (strconv.ParseInt p0))
            (wrap64 (fst (strconv.ParseInt p1) * 1000)))
  /\ (snd (strconv.ParseInt p0) = Some strconv.ErrSyntax ->
      fst (strconv.ParseInt p0) = 0)
  /\ (snd (strconv.ParseInt p1) = Some strconv.ErrSyntax ->
      fst (strconv.ParseInt p1) = 0)
  /\ (snd (strconv.ParseInt p0) = Some strconv.ErrSyntax ->
      snd (strconv.ParseInt p1) = Some strconv.ErrSyntax ->
      SlackTSToTime ts = Some (time.mkTime 0 0)).
Proof.
  intros Hsplit. rewrite (SlackTSToTime_parts _ _ _ _ Hsplit).
  repeat split; try apply ParseInt_syntax_zero.
  intros E0 E1.
  rewrite (ParseInt_syntax_zero _ E0), (ParseInt_syntax_zero _ E1).
  reflexivity.
Qed.

Lemma SlackTSToTime_discards_parse_errors_witness :
  SlackTSToTime "abc.def" =
    Some (time.Unix (fst (strconv.ParseInt "abc"))
            (wrap64 (fst (strconv.ParseInt "def") * 1000)))
  /\ (snd (strconv.ParseInt "abc") = Some strconv.ErrSyntax ->
      fst (strconv.ParseInt "abc") = 0)
  /\ (snd (strconv.ParseInt "def") = Some strconv.ErrSyntax ->
      fst (strconv.ParseInt "def") = 0)
  /\ (snd (strconv.ParseInt "abc") = Some strconv.ErrSyntax ->
      snd (strconv.ParseInt "def") = Some strconv.ErrSyntax ->
      SlackTSToTime "abc.def" = Some (time.mkTime 0 0)).
Proof.
  apply (SlackTSToTime_discards_parse_errors "abc.def" "abc" "def" []).
  reflexivity.
Defined.

(** C7, as stated, fails: neither part of ["abc.def"] is an integer, and
    the text decodes (to the epoch) instead of failing. *)
Lemma SlackTSToTime_accepts_non_integers :
  snd (strconv.ParseInt "abc") = Some strconv.ErrSyntax
  /\ snd (strconv.ParseInt "def") = Some strconv.ErrSyntax
  /\ SlackTSToTime "abc.def" = Some (time.mkTime 0 0)
  /\ SlackTSToTime "abc.def" <> None.
Proof. repeat split; try reflexivity. discriminate. Qed.

(** C10.  A text without a decimal point splits into one part, the access
    to [parts[1]] is out of bounds and [SlackTSToTime] panics; a text with
    a decimal point decodes.  Decoding is total exactly on the texts that
    contain a decimal point. *)
Theorem SlackTSToTime_total_iff_decimal_point (ts : string) :
  (GoString.has_byte "." ts = false ->
   GoString.SplitByte "." ts !! 1%nat = None /\ SlackTSToTime ts = None)
  /\ (GoString.has_byte "." ts = true ->
      exists t, SlackTSToTime ts = Some t).
Proof.
  split.
  - intros Hno. unfold SlackTSToTime.
    rewrite (SplitByte_no_sep _ _ Hno). split; reflexivity.
  - intros Hdot.
    destruct (SplitByte_sep _ _ Hdot) as (p0 & p1 & rest & Hs).
    rewrite (SlackTSToTime_parts _ _ _ _ Hs). eexists. reflexivity.
Qed.

Lemma SlackTSToTime_total_iff_decimal_point_witness :
  (GoString.SplitByte "." "1588291200" !! 1%nat = None
   /\ SlackTSToTime "1588291200" = None)
  /\ exists t, SlackTSToTime "1588291200.000000" = Some t.
Proof.
  split.
  - apply (SlackTSToTime_total_iff_decimal_point "1588291200"). reflexivity.
  - apply (SlackTSToTime_total_iff_decimal_point "1588291200.000000").
    reflexivity.
Defined.

(** ** The monad and the trace *)

Section MonadFacts.

Context {W : Type}.

Lemma bind_Return {A B} (m : M W A) (k : A -> M W B) st a st' :
  m st = (Return a, st') -> (m ≫= k) st = k a st'.
Proof. unfold mbind, M_bind, bind. intros ->. reflexivity. Qed.

Lemma bind_emit {B} e (k : unit -> M W B) st :
  (emit e ≫= k) st = k tt (mkState (world st) (trace st ++ [e])).
Proof. reflexivity. Qed.

Lemma quiet_ret {A} (a : A) : quiet (ret a : M W A).
Proof. intros st. reflexivity. Qed.

Lemma quiet_panic {A} msg : quiet (panic msg : M W A).
Proof. intros st. reflexivity. Qed.

Lemma quiet_os_Exit {A} code : quiet (os_Exit code : M W A).
Proof. intros st. reflexivity. Qed.

Lemma quiet_out_of_fuel {A} : quiet (out_of_fuel : M W A).
Proof. intros st. reflexivity. Qed.

Lemma quiet_emit e : is_delete e = false -> quiet (emit e : M W unit).
Proof.
  intros He st. unfold emit, delete_calls. simpl.
  rewrite List.filter_app. simpl. rewrite He. apply app_nil_r.
Qed.

Lemma quiet_call {A} c (f : W -> A * W) :
  is_delete (ECall c) = false -> quiet (call c f).
Proof.
  intros He st. unfold call, delete_calls.
  destruct (f (world st)) as [a w]. simpl.
  rewrite List.filter_app. simpl in *. rewrite He. apply app_nil_r.
Qed.

Lemma quiet_bind {A B} (m : M W A) (k : A -> M W B) :
  quiet m -> (forall a, quiet (k a)) -> quiet (m ≫= k).
Proof.
  intros Hm Hk st. unfold mbind, M_bind, bind.
  specialize (Hm st). destruct (m st) as [[a| | |] st']; simpl in *;
    try exact Hm.
  rewrite (Hk a st'). exact Hm.
Qed.

(** What follows a program that does not return is not run. *)
Lemma quiet_bind_never_returns {A B} (m : M W A) (k : A -> M W B) :
  quiet m -> never_returns m -> quiet (m ≫= k).
Proof.
  intros Hm Hn st. unfold mbind, M_bind, bind.
  specialize (Hm st). specialize (Hn st).
  destruct (m st) as [[a| | |] st']; simpl in *; try exact Hm.
  destruct (Hn a eq_refl).
Qed.

Lemma quiet_foldM {A B} (f : B -> A -> M W B) l :
  (forall b x, quiet (f b x)) -> forall b, quiet (foldM f l b).
Proof.
  intros Hf. induction l as [|x l IH]; intros b; simpl.
  - apply quiet_ret.
  - apply quiet_bind; [apply Hf|exact IH].
Qed.

Lemma no_exit_ret {A} (a : A) : no_exit (ret a : M W A).
Proof. intros st code. discriminate. Qed.

Lemma no_exit_panic {A} msg : no_exit (panic msg : M W A).
Proof. intros st code. discriminate. Qed.

Lemma no_exit_out_of_fuel {A} : no_exit (out_of_fuel : M W A).
Proof. intros st code. discriminate. Qed.

Lemma no_exit_emit e : no_exit (emit e : M W unit).
Proof. intros st code. discriminate. Qed.

Lemma no_exit_call {A} c (f : W -> A * W) : no_exit (call c f).
Proof.
  intros st code. unfold call. destruct (f (world st)). discriminate.
Qed.

Lemma no_exit_bind {A B} (m : M W A) (k : A -> M W B) :
  no_exit m -> (forall a, no_exit (k a)) -> no_exit (m ≫= k).
Proof.
  intros Hm Hk st code. unfold mbind, M_bind, bind.
  specialize (Hm st). destruct (m st) as [[a| |c|] st']; simpl in *;
    try discriminate.
  - apply Hk.
  - destruct (Hm c eq_refl).
Qed.

Lemma no_exit_foldM {A B} (f : B -> A -> M W B) l :
  (forall b x, no_exit (f b x)) -> forall b, no_exit (foldM f l b).
Proof.
  intros Hf. induction l as [|x l IH]; intros b; simpl.
  - apply no_exit_ret.
  - apply no_exit_bind; [apply Hf|exact IH].
Qed.

(** The exits of a sequence whose head does not exit are those of what
    follows. *)
Lemma exits_with_bind {A B} Q (m : M W A) (k : A -> M W B) :
  no_exit m -> (forall a, exits_with Q (k a)) -> exits_with Q (m ≫= k).
Proof.
  intros Hm Hk st code. unfold mbind, M_bind, bind.
  specialize (Hm st). destruct (m st) as [[a| |c|] st']; simpl in *;
    try discriminate.
  - apply Hk.
  - destruct (Hm c eq_refl).
Qed.

End MonadFacts.

Create HintDb quiet.
#[local] Hint Resolve quiet_ret quiet_panic quiet_os_Exit quiet_out_of_fuel
  : quiet.
#[local] Hint Extern 0 (quiet (emit _)) =>
  apply quiet_emit; reflexivity : quiet.
#[local] Hint Extern 0 (quiet (printf _ _)) =>
  apply quiet_emit; reflexivity : quiet.
#[local] Hint Extern 0 (quiet (println _)) =>
  apply quiet_emit; reflexivity : quiet.
#[local] Hint Extern 0 (quiet (time_Sleep _)) =>
  apply quiet_emit; reflexivity : quiet.
#[local] Hint Extern 0 (quiet (call _ _)) =>
  apply quiet_call; reflexivity : quiet.
#[local] Hint Resolve no_exit_ret no_exit_panic no_exit_out_of_fuel
  no_exit_emit no_exit_call : quiet.
#[local] Hint Extern 0 (no_exit (printf _ _)) => apply no_exit_emit : quiet.
#[local] Hint Extern 0 (no_exit (println _)) => apply no_exit_emit : quiet.
#[local] Hint Extern 0 (no_exit (time_Sleep _)) => apply no_exit_emit : quiet.

(** One step of a proof that a program is quiet, or does not exit: a known
    program, a loop over a list, a sequence, or a case distinction. *)
Ltac quiet_step :=
  first
    [ solve [auto 1 with quiet nocore]
    | apply quiet_foldM; intros
    | apply no_exit_foldM; intros
    | apply quiet_bind; [|intros]
    | apply no_exit_bind; [|intros]
    | match goal with
      | |- quiet (match ?x with _ => _ end) => destruct x
      | |- no_exit (match ?x with _ => _ end) => destruct x
      end ].

Ltac quiet_tac := repeat quiet_step.

(** ** The harvest makes no delete call *)

Section Harvest.

Context {W : Type} `{!slack.Client W} `{!GoLib}.

Lemma quiet_or_panic {A} msg (o : option A) : quiet (or_panic (W:=W) msg o).
Proof. unfold or_panic. quiet_tac. Qed.
Hint Resolve quiet_or_panic : quiet.

Lemma quiet_regexp_MustCompile str : quiet (regexp_MustCompile (W:=W) str).
Proof. unfold regexp_MustCompile. quiet_tac. Qed.
Hint Resolve quiet_regexp_MustCompile : quiet.

Lemma quiet_prettyTS ts : quiet (prettyTS (W:=W) ts).
Proof. unfold prettyTS. quiet_tac. Qed.
Hint Resolve quiet_prettyTS : quiet.

Lemma quiet_ratelimitOrPanic err : quiet (ratelimitOrPanic (W:=W) err).
Proof. unfold ratelimitOrPanic. quiet_tac. Qed.
Hint Resolve quiet_ratelimitOrPanic : quiet.

Lemma quiet_New o : quiet (New (W:=W) o).
Proof. unfold New. quiet_tac. Qed.

Lemma quiet_Users user : quiet (Users user).
Proof. unfold Users, Users_item. quiet_tac. Qed.

Lemma quiet_Channels_loop n re users : forall cursor acc,
  quiet (Channels_loop n re users cursor acc).
Proof.
  induction n as [|n IH]; intros cursor acc; simpl; [auto with quiet|].
  unfold Channels_item. quiet_tac; apply IH.
Qed.
Hint Resolve quiet_Channels_loop : quiet.

Lemma quiet_Channels fuel filter users : quiet (Channels fuel filter users).
Proof. unfold Channels. quiet_tac. Qed.

Lemma quiet_Files_loop n s p : forall acc, quiet (Files_loop n s p acc).
Proof.
  induction n as [|n IH]; intros acc; simpl; [auto with quiet|].
  unfold Files_item. quiet_tac; apply IH.
Qed.
Hint Resolve quiet_Files_loop : quiet.

Lemma quiet_Files fuel s userID channels :
  quiet (Files fuel s userID channels).
Proof. unfold Files, Files_channel. quiet_tac. Qed.

Lemma quiet_Messages_replies n c channelName clean : forall p a,
  quiet (Messages_replies n c channelName clean p a).
Proof.
  induction n as [|n IH]; intros p a; simpl; [auto with quiet|].
  unfold Messages_reply. quiet_tac; apply IH.
Qed.
Hint Resolve quiet_Messages_replies : quiet.

Lemma quiet_Messages_item fuel s c userID clean last a m :
  quiet (Messages_item fuel s c userID clean last a m).
Proof. unfold Messages_item. quiet_tac. Qed.
Hint Resolve quiet_Messages_item : quiet.

Lemma quiet_Messages_loop n fuel s c userID clean : forall cursor last a,
  quiet (Messages_loop n fuel s c userID clean cursor last a).
Proof.
  induction n as [|n IH]; intros cursor last a; simpl; [auto with quiet|].
  quiet_tac; apply IH.
Qed.
Hint Resolve quiet_Messages_loop : quiet.

Lemma quiet_Messages fuel s channels userID :
  quiet (Messages fuel s channels userID).
Proof. unfold Messages, Messages_channel. quiet_tac. Qed.

(** The same programs do not exit. *)

Lemma no_exit_or_panic {A} msg (o : option A) : no_exit (or_panic (W:=W) msg o).
Proof. unfold or_panic. quiet_tac. Qed.
Hint Resolve no_exit_or_panic : quiet.

Lemma no_exit_regexp_MustCompile str : no_exit (regexp_MustCompile (W:=W) str).
Proof. unfold regexp_MustCompile. quiet_tac. Qed.
Hint Resolve no_exit_regexp_MustCompile : quiet.

Lemma no_exit_prettyTS ts : no_exit (prettyTS (W:=W) ts).
Proof. unfold prettyTS. quiet_tac. Qed.
Hint Resolve no_exit_prettyTS : quiet.

Lemma no_exit_ratelimitOrPanic err : no_exit (ratelimitOrPanic (W:=W) err).
Proof. unfold ratelimitOrPanic. quiet_tac. Qed.
Hint Resolve no_exit_ratelimitOrPanic : quiet.

Lemma no_exit_New o : no_exit (New (W:=W) o).
Proof. unfold New. quiet_tac. Qed.

Lemma no_exit_Users user : no_exit (Users user).
Proof. unfold Users, Users_item. quiet_tac. Qed.

Lemma no_exit_Channels_loop n re users : forall cursor acc,
  no_exit (Channels_loop n re users cursor acc).
Proof.
  induction n as [|n IH]; intros cursor acc; simpl; [auto with quiet|].
  unfold Channels_item. quiet_tac; apply IH.
Qed.
Hint Resolve no_exit_Channels_loop : quiet.

Lemma no_exit_Channels fuel filter users : no_exit (Channels fuel filter users).
Proof. unfold Channels. quiet_tac. Qed.

Lemma no_exit_Files_loop n s p : forall acc, no_exit (Files_loop n s p acc).
Proof.
  induction n as [|n IH]; intros acc; simpl; [auto with quiet|].
  unfold Files_item. quiet_tac; apply IH.
Qed.
Hint Resolve no_exit_Files_loop : quiet.

Lemma no_exit_Files fuel s userID channels :
  no_exit (Files fuel s userID channels).
Proof. unfold Files, Files_channel. quiet_tac. Qed.

Lemma no_exit_Messages_replies n c channelName clean : forall p a,
  no_exit (Messages_replies n c channelName clean p a).
Proof.
  induction n as [|n IH]; intros p a; simpl; [auto with quiet|].
  unfold Messages_reply. quiet_tac; apply IH.
Qed.
Hint Resolve no_exit_Messages_replies : quiet.

Lemma no_exit_Messages_item fuel s c userID clean last a m :
  no_exit (Messages_item fuel s c userID clean last a m).
Proof. unfold Messages_item. quiet_tac. Qed.
Hint Resolve no_exit_Messages_item : quiet.

Lemma no_exit_Messages_loop n fuel s c userID clean : forall cursor last a,
  no_exit (Messages_loop n fuel s c userID clean cursor last a).
Proof.
  induction n as [|n IH]; intros cursor last a; simpl; [auto with quiet|].
  quiet_tac; apply IH.
Qed.
Hint Resolve no_exit_Messages_loop : quiet.

Lemma no_exit_Messages fuel s channels userID :
  no_exit (Messages fuel s channels userID).
Proof. unfold Messages, Messages_channel. quiet_tac. Qed.

End Harvest.

(** ** The dry run *)

Section DryRun.

Context {W : Type} `{!slack.Client W} `{!GoLib}.

Lemma never_returns_bind_l {A B} (m : M W A) (k : A -> M W B) :
  never_returns m -> never_returns (m ≫= k).
Proof.
  intros Hm st b. unfold mbind, M_bind, bind. specialize (Hm st).
  destruct (m st) as [[a| | |] st']; simpl in *; try discriminate.
  destruct (Hm a eq_refl).
Qed.

Lemma never_returns_bind_r {A B} (m : M W A) (k : A -> M W B) :
  (forall a, never_returns (k a)) -> never_returns (m ≫= k).
Proof.
  intros Hk st b. unfold mbind, M_bind, bind.
  destruct (m st) as [[a| | |] st']; simpl; try discriminate.
  apply Hk.
Qed.

Lemma never_returns_os_Exit {A} code : never_returns (os_Exit (W:=W) (A:=A) code).
Proof. intros st a. discriminate. Qed.

Lemma main_dry_run_quiet fuel flags env :
  flag_commit flags = false -> quiet (main fuel flags env).
Proof.
  intros Hc. unfold main. rewrite Hc. cbn [negb].
  apply quiet_bind; [quiet_tac|intros token].
  apply quiet_bind; [quiet_tac|intros _].
  apply quiet_bind; [apply quiet_New|intros s].
  apply quiet_bind; [apply quiet_Users|intros [users userID]].
  apply quiet_bind; [apply quiet_Channels|intros channels].
  apply quiet_bind; [apply quiet_Files|intros files].
  apply quiet_bind; [apply quiet_Messages|intros messages].
  apply quiet_bind; [quiet_tac|intros _].
  apply quiet_bind_never_returns; [quiet_tac|].
  apply never_returns_bind_r; intros _. apply never_returns_os_Exit.
Qed.

Lemma main_dry_run_never_returns fuel flags env :
  flag_commit flags = false -> never_returns (main fuel flags env).
Proof.
  intros Hc. unfold main. rewrite Hc. cbn [negb].
  apply never_returns_bind_r; intros token.
  apply never_returns_bind_r; intros _.
  apply never_returns_bind_r; intros s.
  apply never_returns_bind_r; intros [users userID].
  apply never_returns_bind_r; intros channels.
  apply never_returns_bind_r; intros files.
  apply never_returns_bind_r; intros messages.
  apply never_returns_bind_r; intros _.
  apply never_returns_bind_l.
  apply never_returns_bind_r; intros _. apply never_returns_os_Exit.
Qed.

Lemma main_dry_run_reports fuel flags env :
  flag_commit flags = false -> exits_with reported (main fuel flags env).
Proof.
  intros Hc. unfold main. rewrite Hc. cbn [negb].
  apply exits_with_bind; [quiet_tac|intros token].
  apply exits_with_bind; [|intros _].
  { destruct (String.eqb (flag_before flags) ""); quiet_tac. }
  apply exits_with_bind; [apply no_exit_New|intros s].
  apply exits_with_bind; [apply no_exit_Users|intros [users userID]].
  apply exits_with_bind; [apply no_exit_Channels|intros channels].
  apply exits_with_bind; [apply no_exit_Files|intros files].
  apply exits_with_bind; [apply no_exit_Messages|intros messages].
  intros st code Hexit. revert Hexit.
  unfold mbind, M_bind, bind, printf, emit, os_Exit. cbn [fst snd trace].
  intros [= <-]. split; [reflexivity|].
  exists (len messages), (len files), (trace st).
  rewrite <- app_assoc. reflexivity.
Qed.

End DryRun.

(** C9.  Without [--commit], whatever the workspace answers and however the
    run ends (the exit after the report, a panic, or a harvest that runs
    on), [main] makes no [DeleteMessage] and no [DeleteFile] call, and it
    never goes on past the report; when it exits, it does so with status 0
    after reporting the counts of the messages and files it harvested. *)
Theorem dry_run_makes_no_delete_call {W : Type} `{!slack.Client W} `{!GoLib}
    (fuel : nat) (flags : Flags) (env : string) (st : State W) :
  flag_commit flags = false ->
  delete_calls (trace (snd (main fuel flags env st))) = delete_calls (trace st)
  /\ (forall u, fst (main fuel flags env st) <> Return u)
  /\ (forall code,
        fst (main fuel flags env st) = Exit code ->
        reported code (trace (snd (main fuel flags env st)))).
Proof.
  intros Hc. split; [|split].
  - apply main_dry_run_quiet. exact Hc.
  - apply main_dry_run_never_returns. exact Hc.
  - intros code. apply main_dry_run_reports. exact Hc.
Qed.

Lemma dry_run_makes_no_delete_call_witness :
  let r := main 5 Demo.dry_run "" (mkState Demo.workspace []) in
  delete_calls (trace (snd r)) = delete_calls []
  /\ (forall u, fst r <> Return u)
  /\ (forall code, fst r = Exit code -> reported code (trace (snd r))).
Proof.
  apply (dry_run_makes_no_delete_call 5 Demo.dry_run ""
           (mkState Demo.workspace [])).
  reflexivity.
Defined.

(** The dry run of the small workspace harvests four messages and one
    file, reports them and exits with status 0; nothing was deleted. *)
Example dry_run_ex :
  let r := Fake.run (main 5 Demo.dry_run "") Demo.workspace in
  fst r = Exit 0
  /\ world (snd r) = Demo.workspace
  /\ last (trace (snd r))
     = Some (EPrintf
         "Run command again with --commit flag to perform the delete operations!\n\n"
         [])
  /\ In (EPrintf "\nFound %d messages and %d files to delete!\n\n"
           [AInt 4; AInt 1]) (trace (snd r)).
Proof. vm_compute. intuition. Qed.

(** ** The deletion executor *)

Section Executor.

Context {W : Type} `{!slack.Client W} `{!GoLib}.

Lemma calls_app tr tr' : calls (tr ++ tr') = calls tr ++ calls tr'.
Proof. unfold calls. apply omap_app. Qed.

(** One answer [message_not_found] ends the loop of the item: one call,
    no panic, no retry, whatever fuel is left. *)
Lemma DeleteMessages_loop_not_found n i m st w' :
  DeleteMessage (msg_Channel m) (msg_Timestamp m) (world st)
  = (inr "message_not_found", w') ->
  DeleteMessages_loop (S n) i m st
  = (Return tt,
     mkState w'
       (trace st ++ [ECall (CDeleteMessage (msg_Channel m) (msg_Timestamp m))])).
Proof.
  intros Hd. cbn [DeleteMessages_loop].
  unfold mbind, M_bind, bind, call. rewrite Hd. reflexivity.
Qed.

Lemma DeleteFiles_loop_not_found n i f st w' :
  DeleteFile (file_ID f) (world st) = (Some "file_not_found", w') ->
  DeleteFiles_loop (S n) i f st
  = (Return tt, mkState w' (trace st ++ [ECall (CDeleteFile (file_ID f))])).
Proof.
  intros Hd. cbn [DeleteFiles_loop].
  unfold mbind, M_bind, bind, call. rewrite Hd. reflexivity.
Qed.

(** A delete that succeeds ends the loop of the item as well. *)
Lemma DeleteMessages_loop_deleted n i m st ch ts w' :
  DeleteMessage (msg_Channel m) (msg_Timestamp m) (world st)
  = (inl (ch, ts), w') ->
  DeleteMessages_loop (S n) i m st
  = (Return tt,
     mkState w'
       (trace st
        ++ [ECall (CDeleteMessage (msg_Channel m) (msg_Timestamp m));
            EPrintf "%04d. Deleted message ID %s in channel ID %s\n"
              [AInt (i + 1); AStr ts; AStr ch]])).
Proof.
  intros Hd. cbn [DeleteMessages_loop].
  unfold mbind, M_bind, bind, call. rewrite Hd.
  unfold printf, emit. cbn [world trace]. rewrite <- app_assoc. reflexivity.
Qed.

Lemma DeleteFiles_loop_deleted n i f st w' :
  DeleteFile (file_ID f) (world st) = (None, w') ->
  DeleteFiles_loop (S n) i f st
  = (Return tt,
     mkState w'
       (trace st
        ++ [ECall (CDeleteFile (file_ID f));
            EPrintf "%04d. Deleted file named %s (created: %s)\n"
              [AInt (i + 1); AStr (file_Name f);
               ADate (time.Unix (file_Created f) 0)]])).
Proof.
  intros Hd. cbn [DeleteFiles_loop].
  unfold mbind, M_bind, bind, call. rewrite Hd.
  unfold printf, emit. cbn [world trace]. rewrite <- app_assoc. reflexivity.
Qed.

(** Either way the item costs one call, and the executor moves on. *)
Lemma DeleteMessages_item_settled (I : W -> Prop) n i m st :
  I (world st) -> message_settles I m ->
  exists st',
    (DeleteMessages_loop (S n) i m;; time_Sleep 50) st = (Return tt, st')
    /\ I (world st')
    /\ calls (trace st')
       = calls (trace st)
         ++ [CDeleteMessage (msg_Channel m) (msg_Timestamp m)].
Proof.
  intros HI Hm. destruct (Hm _ HI) as (w' & HI' & [Hd|(ch & ts & Hd)]).
  - eexists. split; [|split].
    + rewrite (bind_Return _ _ st tt _
                 (DeleteMessages_loop_not_found n i m st w' Hd)).
      reflexivity.
    + exact HI'.
    + cbn [trace]. rewrite !calls_app, app_nil_r. reflexivity.
  - eexists. split; [|split].
    + rewrite (bind_Return _ _ st tt _
                 (DeleteMessages_loop_deleted n i m st ch ts w' Hd)).
      reflexivity.
    + exact HI'.
    + cbn [trace]. rewrite !calls_app, app_nil_r. reflexivity.
Qed.

Lemma DeleteFiles_item_settled (I : W -> Prop) n i f st :
  I (world st) -> file_settles I f ->
  exists st',
    (DeleteFiles_loop (S n) i f;; time_Sleep 50) st = (Return tt, st')
    /\ I (world st')
    /\ calls (trace st') = calls (trace st) ++ [CDeleteFile (file_ID f)].
Proof.
  intros HI Hf. destruct (Hf _ HI) as (w' & HI' & [Hd|Hd]).
  - eexists. split; [|split].
    + rewrite (bind_Return _ _ st tt _
                 (DeleteFiles_loop_not_found n i f st w' Hd)).
      reflexivity.
    + exact HI'.
    + cbn [trace]. rewrite !calls_app, app_nil_r. reflexivity.
  - eexists. split; [|split].
    + rewrite (bind_Return _ _ st tt _
                 (DeleteFiles_loop_deleted n i f st w' Hd)).
      reflexivity.
    + exact HI'.
    + cbn [trace]. rewrite !calls_app, app_nil_r. reflexivity.
Qed.

Lemma DeleteMessages_settled (I : W -> Prop) n messages : forall i st,
  I (world st) -> Forall (message_settles I) messages ->
  exists st',
    forM_from (fun i m => DeleteMessages_loop (S n) i m;; time_Sleep 50)
      i messages st = (Return tt, st')
    /\ I (world st')
    /\ calls (trace st')
       = calls (trace st)
         ++ map (fun m => CDeleteMessage (msg_Channel m) (msg_Timestamp m))
              messages.
Proof.
  induction messages as [|m messages IH]; intros i st HI Hall.
  - exists st. simpl. rewrite app_nil_r. auto.
  - apply Forall_cons in Hall as [Hm Hall].
    destruct (DeleteMessages_item_settled I n i m st HI Hm)
      as (st1 & Hrun1 & HI1 & Hcalls1).
    destruct (IH (i + 1) st1 HI1 Hall) as (st' & Hrun & HI' & Hcalls).
    exists st'. cbn [forM_from].
    rewrite (bind_Return _ _ st tt st1 Hrun1).
    split; [exact Hrun|]. split; [exact HI'|].
    rewrite Hcalls, Hcalls1, <- app_assoc. reflexivity.
Qed.

Lemma DeleteFiles_settled (I : W -> Prop) n files : forall i st,
  I (world st) -> Forall (file_settles I) files ->
  exists st',
    forM_from (fun i f => DeleteFiles_loop (S n) i f;; time_Sleep 50)
      i files st = (Return tt, st')
    /\ I (world st')
    /\ calls (trace st')
       = calls (trace st) ++ map (fun f => CDeleteFile (file_ID f)) files.
Proof.
  induction files as [|f files IH]; intros i st HI Hall.
  - exists st. simpl. rewrite app_nil_r. auto.
  - apply Forall_cons in Hall as [Hf Hall].
    destruct (DeleteFiles_item_settled I n i f st HI Hf)
      as (st1 & Hrun1 & HI1 & Hcalls1).
    destruct (IH (i + 1) st1 HI1 Hall) as (st' & Hrun & HI' & Hcalls).
    exists st'. cbn [forM_from].
    rewrite (bind_Return _ _ st tt st1 Hrun1).
    split; [exact Hrun|]. split; [exact HI'|].
    rewrite Hcalls, Hcalls1, <- app_assoc. reflexivity.
Qed.

End Executor.

(** C3.  A delete that is answered [message_not_found] (for a message) or
    [file_not_found] (for a file) ends the work on its item like a delete
    that succeeded: one call, no panic, no retry, and the executor moves on
    to the next item.  Hence over items of which each is deleted or absent
    already, and so on a second run over the same items, where all are
    absent, the executor returns, having made exactly one delete call per
    item, in order. *)
Theorem deletion_is_idempotent {W : Type} `{!slack.Client W} `{!GoLib}
    (I : W -> Prop) (fuel : nat) (messages : list Message)
    (files : list File) (st : State W) :
  I (world st) ->
  Forall (message_settles I) messages -> Forall (file_settles I) files ->
  exists st',
    (DeleteMessages (S fuel) messages;; DeleteFiles (S fuel) files) st
    = (Return tt, st')
    /\ I (world st')
    /\ calls (trace st')
       = calls (trace st)
         ++ map (fun m => CDeleteMessage (msg_Channel m) (msg_Timestamp m))
              messages
         ++ map (fun f => CDeleteFile (file_ID f)) files.
Proof.
  intros HI Hm Hf. unfold DeleteMessages, DeleteFiles.
  destruct (DeleteMessages_settled I fuel messages 0 st HI Hm)
    as (st1 & Hrun1 & HI1 & Hcalls1).
  destruct (DeleteFiles_settled I fuel files 0 st1 HI1 Hf)
    as (st2 & Hrun2 & HI2 & Hcalls2).
  exists st2. split; [|split; [exact HI2|]].
  - rewrite (bind_Return _ _ st tt st1 Hrun1). exact Hrun2.
  - rewrite Hcalls2, Hcalls1, <- app_assoc. reflexivity.
Qed.

Lemma deletion_is_idempotent_witness :
  exists st',
    (DeleteMessages 5 Demo.selected_messages;;
     DeleteFiles 5 Demo.selected_files) (mkState Demo.after_commit [])
    = (Return tt, st')
    /\ world st' = Demo.after_commit
    /\ calls (trace st')
       = calls []
         ++ map (fun m => CDeleteMessage (msg_Channel m) (msg_Timestamp m))
              Demo.selected_messages
         ++ map (fun f => CDeleteFile (file_ID f)) Demo.selected_files.
Proof.
  apply (deletion_is_idempotent (fun w => w = Demo.after_commit) 4
           Demo.selected_messages Demo.selected_files
           (mkState Demo.after_commit [])).
  - reflexivity.
  - repeat constructor; intros w ->; exists Demo.after_commit;
      (split; [reflexivity|left; vm_compute; reflexivity]).
  - repeat constructor; intros w ->; exists Demo.after_commit;
      (split; [reflexivity|left; vm_compute; reflexivity]).
Defined.

(** The first run over the small workspace is settled as well: every
    selected item is deleted, with one call each. *)
Example first_run_settles_ex :
  let r := Fake.run (DeleteMessages 5 Demo.selected_messages;;
                     DeleteFiles 5 Demo.selected_files) Demo.workspace in
  fst r = Return tt
  /\ world (snd r) = Demo.after_commit
  /\ calls (trace (snd r))
     = map (fun m => CDeleteMessage (msg_Channel m) (msg_Timestamp m))
         Demo.selected_messages
       ++ map (fun f => CDeleteFile (file_ID f)) Demo.selected_files.
Proof. vm_compute. repeat split; reflexivity. Qed.

(** The first run deletes what was selected; the second finds nothing and
    succeeds all the same. *)
Example first_run_ex :
  Fake.ws_messages Demo.after_commit = [Demo.new_by_bob]
  /\ Fake.ws_files Demo.after_commit = [("C1", Demo.file_at_cutoff)].
Proof. vm_compute. split; reflexivity. Qed.

(** ** Thread expansion *)

Section Threads.

Context {W : Type} `{!slack.Client W} `{!GoLib}.

Lemma prettyTS_run ts t (st : State W) :
  SlackTSToTime ts = Some t -> prettyTS ts st = (Return (ADate t), st).
Proof.
  intros Ht. unfold prettyTS, mbind, M_bind, bind, or_panic.
  rewrite Ht. reflexivity.
Qed.

(** A reply is stamped and appended, whatever its author and its time. *)
Lemma Messages_reply_run c channelName clean a r (st : State W) :
  decodable r ->
  exists a' st',
    Messages_reply c channelName clean a r st = (Return a', st')
    /\ messagesToDelete a'
       = messagesToDelete a ++ [setChannel (ch_ID c) r]
    /\ world st' = world st.
Proof.
  unfold decodable. intros Hdec.
  destruct (SlackTSToTime (msg_Timestamp r)) as [t|] eqn:Ht; [|congruence].
  unfold Messages_reply. cbn [setChannel msg_Timestamp].
  rewrite (bind_Return _ _ st (ADate t) st (prettyTS_run _ _ _ Ht)).
  do 2 eexists. split; [reflexivity|]. split; reflexivity.
Qed.

Lemma Messages_reply_fold c channelName clean replies :
  forall a (st : State W),
  Forall decodable replies ->
  exists a' st',
    foldM (Messages_reply c channelName clean) replies a st
    = (Return a', st')
    /\ messagesToDelete a'
       = messagesToDelete a ++ map (setChannel (ch_ID c)) replies
    /\ world st' = world st.
Proof.
  induction replies as [|r replies IH]; intros a st Hdec.
  - exists a, st. simpl. rewrite app_nil_r. auto.
  - apply Forall_cons in Hdec as [Hr Hdec].
    destruct (Messages_reply_run c channelName clean a r st Hr)
      as (a1 & st1 & Hrun1 & Hsel1 & Hw1).
    destruct (IH a1 st1 Hdec) as (a2 & st2 & Hrun2 & Hsel2 & Hw2).
    exists a2, st2. cbn [foldM].
    rewrite (bind_Return _ _ st a1 st1 Hrun1).
    split; [exact Hrun2|]. split; [|congruence].
    rewrite Hsel2, Hsel1, <- app_assoc. reflexivity.
Qed.

Lemma ratelimitOrPanic_run err (st : State W) :
  GoString.Contains err "rate limit" = true ->
  exists st',
    ratelimitOrPanic err st = (Return tt, st')
    /\ world st' = world st
    /\ trace st'
       = trace st ++ [EPrintf "Rate limited, retrying in 1 sec ..\n" [];
                      ESleep 1000].
Proof.
  intros Hrl. unfold ratelimitOrPanic. rewrite Hrl. cbn [negb].
  eexists. split; [reflexivity|]. split; [reflexivity|].
  cbn [trace]. rewrite <- app_assoc. reflexivity.
Qed.

(** The loop over the pages of replies selects every reply of every
    page, given fuel for the calls the remote side needs. *)
Lemma Messages_replies_run c channelName clean w p pages w' :
  RepliesRun w p pages w' ->
  Forall decodable (concat pages) ->
  exists n0, forall n, (n0 <= n)%nat -> forall a (st : State W),
    world st = w ->
    exists a' st',
      Messages_replies n c channelName clean p a st = (Return a', st')
      /\ messagesToDelete a'
         = messagesToDelete a ++ map (setChannel (ch_ID c)) (concat pages)
      /\ world st' = w'.
Proof.
  induction 1 as [w p replies next w' Hcall
                 |w p replies next w1 pages w' Hcall Hrest IH
                 |w p err w1 pages w' Hcall Hrl Hrest IH]; intros Hdec.
  - exists 1%nat. intros [|n] Hn a st Hw; [lia|]. subst w.
    simpl in Hdec. rewrite app_nil_r in Hdec.
    cbn [Messages_replies].
    unfold mbind at 1, M_bind, bind, call. rewrite Hcall.
    edestruct (Messages_reply_fold c channelName clean replies a)
      as (a1 & st1 & Hrun1 & Hsel1 & Hw1); [exact Hdec|].
    rewrite (bind_Return _ _ _ a1 st1 Hrun1). cbn [negb].
    exists a1, st1. split; [reflexivity|]. split.
    + rewrite Hsel1. simpl. rewrite app_nil_r. reflexivity.
    + rewrite Hw1. reflexivity.
  - simpl in Hdec. apply Forall_app in Hdec as [Hdec1 Hdec2].
    destruct (IH Hdec2) as (n0 & Hn0).
    exists (S n0). intros [|n] Hn a st Hw; [lia|]. subst w.
    cbn [Messages_replies].
    unfold mbind at 1, M_bind, bind, call. rewrite Hcall.
    edestruct (Messages_reply_fold c channelName clean replies a)
      as (a1 & st1 & Hrun1 & Hsel1 & Hw1); [exact Hdec1|].
    rewrite (bind_Return _ _ _ a1 st1 Hrun1). cbn [negb].
    destruct (Hn0 n ltac:(lia) a1 st1) as (a2 & st2 & Hrun2 & Hsel2 & Hw2).
    { rewrite Hw1. reflexivity. }
    exists a2, st2. split; [exact Hrun2|]. split; [|exact Hw2].
    rewrite Hsel2, Hsel1. simpl. rewrite map_app, <- app_assoc. reflexivity.
  - destruct (IH Hdec) as (n0 & Hn0).
    exists (S n0). intros [|n] Hn a st Hw; [lia|]. subst w.
    cbn [Messages_replies].
    unfold mbind at 1, M_bind, bind, call. rewrite Hcall.
    edestruct (ratelimitOrPanic_run err) as (st1 & Hrun1 & Hw1 & _);
      [exact Hrl|].
    rewrite (bind_Return _ _ _ tt st1 Hrun1).
    apply Hn0; [lia|]. rewrite Hw1. reflexivity.
Qed.

End Threads.

Section ThreadRoot.

Context {W : Type} `{!slack.Client W} `{!GoLib}.

(** The body of the loop over a page, at a message that passes the two
    tests and is the root of a thread: the message is selected, and after
    it every reply the remote side hands out for the thread, page after
    page, each stamped with the id of the conversation; no test is made on
    the author or the time of a reply. *)
Lemma Messages_item_thread (s : SlackClean) (c : Channel) (userID : string)
    (clean : Regexp) (m : Message) (w : W) (pages : list (list Message))
    (w' : W) :
  nonempty userID && String.eqb (msg_User m) userID = false ->
  GoString.gt (msg_Timestamp m) (beforeTS s) = false ->
  msg_ThreadTimestamp m <> EmptyString ->
  msg_Timestamp m = msg_ThreadTimestamp m ->
  decodable m -> Forall decodable (concat pages) ->
  RepliesRun w (mkGetReplies (ch_ID c) (msg_Timestamp m) "" 1000) pages w' ->
  exists n0, forall fuel, (n0 <= fuel)%nat ->
    forall last a (st : State W), world st = w ->
    exists a' st',
      Messages_item fuel s c userID clean last a m st = (Return a', st')
      /\ messagesToDelete a'
         = messagesToDelete a
           ++ setChannel (ch_ID c) m
              :: map (setChannel (ch_ID c)) (concat pages)
      /\ world st' = w'.
Proof.
  intros Hauthor Htime Hroot Hself Hdec Hdecs Hrun.
  set (channelName := if String.eqb (ch_Name c) "" then ch_ID c else ch_Name c).
  destruct (Messages_replies_run c channelName clean _ _ _ _ Hrun Hdecs)
    as (n0 & Hn0).
  exists n0. intros fuel Hfuel last a st Hst.
  unfold decodable in Hdec.
  destruct (SlackTSToTime (msg_Timestamp m)) as [t|] eqn:Ht; [|congruence].
  unfold Messages_item. rewrite Hauthor, Htime.
  cbn [found keep total messagesToDelete].
  assert (exists st1 : State W,
             (if found a =? last then println "" else ret tt) st
             = (Return tt, st1) /\ world st1 = world st)
    as (st1 & Hrun1 & Hw1)
    by (destruct (found a =? last); eexists; split; reflexivity).
  rewrite (bind_Return _ _ st tt st1 Hrun1).
  rewrite (bind_Return _ _ st1 (ADate t) st1 (prettyTS_run _ _ _ Ht)).
  unfold mbind at 1, M_bind, bind. cbn [printf emit].
  cbn [setChannel msg_ThreadTimestamp msg_Timestamp msg_Channel].
  rewrite <- Hself, String.eqb_refl.
  assert (nonempty (msg_Timestamp m) = true) as ->.
  { unfold nonempty. rewrite Hself.
    destruct (String.eqb_spec (msg_ThreadTimestamp m) ""); [contradiction|].
    reflexivity. }
  cbn [andb]. fold channelName.
  edestruct (Hn0 fuel Hfuel) as (a' & st' & Hres & Hsel & Hw).
  2:{ exists a', st'. split; [exact Hres|]. split; [|exact Hw].
      rewrite Hsel. cbn [add_message messagesToDelete].
      rewrite <- app_assoc. reflexivity. }
  cbn [world]. rewrite Hw1. exact Hst.
Qed.

End ThreadRoot.

(** The reply of the small workspace is by another author and after the
    cutoff, and is selected with its root; the whole of [Messages]: *)
Example Messages_ex :
  fst (Fake.run (Messages 5 Demo.cutoff [Demo.general] "") Demo.workspace)
  = Return [Demo.old_by_alice; Demo.root_by_bob; Demo.late_reply_by_alice;
            Demo.at_cutoff_by_bob].
Proof. vm_compute. reflexivity. Qed.

(** ** Conversations *)

Section Directory.

Context {W : Type} `{!slack.Client W} `{!GoLib}.

Lemma Users_item_run user users userID u (st : State W) :
  exists userID' st',
    Users_item user (users, userID) u st
    = (Return (<[user_ID u := user_Name u]> users, userID'), st').
Proof.
  unfold Users_item.
  destruct (nonempty user); [destruct (String.eqb (user_Name u) user)|];
    do 2 eexists; reflexivity.
Qed.

Lemma Users_item_fold user res : forall users userID (st : State W),
  exists userID' st',
    foldM (Users_item user) res (users, userID) st
    = (Return (foldl (fun users u => <[user_ID u := user_Name u]> users)
                 users res, userID'), st').
Proof.
  induction res as [|u res IH]; intros users userID st.
  - do 2 eexists. reflexivity.
  - destruct (Users_item_run user users userID u st) as (uid1 & st1 & Hrun1).
    destruct (IH (<[user_ID u := user_Name u]> users) uid1 st1)
      as (uid2 & st2 & Hrun2).
    exists uid2, st2. cbn [foldM foldl].
    rewrite (bind_Return _ _ st _ st1 Hrun1). exact Hrun2.
Qed.

(** The mapping that [Users] returns is the directory of the users that
    [GetUsers] listed: each id is mapped to the handle [Name]. *)
Lemma Users_directory user (st : State W) res w1 users userID st' :
  GetUsers (world st) = (inl res, w1) ->
  Users user st = (Return (users, userID), st') ->
  users = directory_of res.
Proof.
  intros Hcall. unfold Users.
  unfold mbind at 1, M_bind, bind, call. rewrite Hcall.
  edestruct (Users_item_fold user res ∅ EmptyString) as (uid & st1 & Hrun).
  rewrite (bind_Return _ _ _ _ st1 Hrun).
  unfold mbind, M_bind, bind.
  destruct (nonempty user); [destruct (String.eqb uid "")|];
    cbn; intros [= <- _ _]; reflexivity.
Qed.

End Directory.

(** C8, as amended.  For a direct conversation the name that is matched
    against the filter, and shown, is [users[c.User]]: the handle of the
    peer when the directory has the peer, and the empty string when it has
    not.  It is never the id of the conversation, and there is no fall
    back to the id of the peer. *)
Theorem direct_conversation_is_named_by_peer_handle
    {W : Type} `{!GoLib} (re : option Regexp) (users : gmap string string)
    (acc : Z * list Channel) (c : Channel) (st : State W) :
  ch_IsMpIM c = false -> ch_IsIM c = true ->
  Channels_item re users acc c st
  = (if passes re (username users c)
     then (Return (incr (fst acc), snd acc ++ [c]),
           mkState (world st)
             (trace st
              ++ [EPrintf "%04d. Found DM channel ID %s (name: %s)\n"
                    [AInt (incr (fst acc)); AStr (ch_ID c);
                     AStr (username users c)]]))
     else (Return acc, st))
  /\ username users c
     = match users !! ch_User c with
       | Some handle => handle
       | None => EmptyString
       end.
Proof.
  intros Hmp Him. split.
  - unfold Channels_item. destruct acc as [found channels].
    rewrite Hmp, Him. cbn [fst snd].
    destruct (passes re (username users c)); reflexivity.
  - unfold username. destruct (users !! ch_User c); reflexivity.
Qed.

Lemma direct_conversation_is_named_by_peer_handle_witness :
  Channels_item (W:=Fake.Workspace) None Demo.directory (0, @nil Channel) Demo.direct
    (mkState Demo.workspace [])
  = (if passes None (username Demo.directory Demo.direct)
     then (Return (incr (fst (0, @nil Channel)), snd (0, @nil Channel) ++ [Demo.direct]),
           mkState Demo.workspace
             ([] ++ [EPrintf "%04d. Found DM channel ID %s (name: %s)\n"
                       [AInt (incr (fst (0, @nil Channel))); AStr (ch_ID Demo.direct);
                        AStr (username Demo.directory Demo.direct)]]))
     else (Return (0, @nil Channel), mkState Demo.workspace []))
  /\ username Demo.directory Demo.direct
     = match Demo.directory !! ch_User Demo.direct with
       | Some handle => handle
       | None => EmptyString
       end.
Proof.
  apply (direct_conversation_is_named_by_peer_handle (W:=Fake.Workspace)
           None Demo.directory (0, @nil Channel) Demo.direct
           (mkState Demo.workspace []));
    reflexivity.
Defined.

(** C8, as stated, fails in its second half: the peer [U9] of the direct
    conversation is not in the directory, and the name is the empty string,
    not [U9]. *)
Lemma direct_conversation_without_peer_has_no_name :
  Demo.directory !! ch_User Demo.direct = None
  /\ ch_User Demo.direct = "U9"
  /\ username Demo.directory Demo.direct = EmptyString
  /\ username Demo.directory Demo.direct <> ch_User Demo.direct
  /\ Fake.run (Channels_item None Demo.directory (0, []) Demo.direct)
       Demo.workspace
     = (Return (1, [Demo.direct]),
        mkState Demo.workspace
          [EPrintf "%04d. Found DM channel ID %s (name: %s)\n"
             [AInt 1; AStr "D1"; AStr ""]]).
Proof. vm_compute. repeat split; try reflexivity. discriminate. Qed.

(** [Users] hands the directory of the small workspace to [Channels]. *)
Example Users_ex :
  fst (Fake.run (Users "") Demo.workspace)
  = Return (Demo.directory, EmptyString).
Proof. vm_compute. reflexivity. Qed.

(** ** The filters of the harvest *)

Section Filters.

Context {W : Type} `{!slack.Client W} `{!GoLib}.

(** With a user given, a message of that user is kept, whatever its
    time. *)
Lemma Messages_item_same_author fuel s c userID clean last a m
    (st : State W) :
  userID <> EmptyString -> msg_User m = userID ->
  Messages_item fuel s c userID clean last a m st
  = (Return (mkMsgAcc (found a) (incr (keep a)) (incr (total a))
               (messagesToDelete a)), st).
Proof.
  intros Hu Hm. unfold Messages_item, nonempty.
  destruct (String.eqb_spec userID ""); [contradiction|].
  rewrite Hm, String.eqb_refl. reflexivity.
Qed.

(** A message whose timestamp is after the cutoff, as texts, is kept. *)
Lemma Messages_item_after_cutoff fuel s c userID clean last a m
    (st : State W) :
  GoString.gt (msg_Timestamp m) (beforeTS s) = true ->
  Messages_item fuel s c userID clean last a m st
  = (Return (mkMsgAcc (found a) (incr (keep a)) (incr (total a))
               (messagesToDelete a)), st).
Proof.
  intros Hgt. unfold Messages_item. rewrite Hgt.
  destruct (nonempty userID && _); reflexivity.
Qed.

(** Every other message that is not the root of a thread is selected,
    stamped with the id of its conversation: also the one at the cutoff. *)
Lemma Messages_item_selected fuel s c userID clean last a m
    (st : State W) :
  nonempty userID && String.eqb (msg_User m) userID = false ->
  GoString.gt (msg_Timestamp m) (beforeTS s) = false ->
  nonempty (msg_ThreadTimestamp m)
  && String.eqb (msg_Timestamp m) (msg_ThreadTimestamp m) = false ->
  decodable m ->
  exists a' st',
    Messages_item fuel s c userID clean last a m st = (Return a', st')
    /\ messagesToDelete a' = messagesToDelete a ++ [setChannel (ch_ID c) m]
    /\ world st' = world st.
Proof.
  intros Hauthor Htime Hroot Hdec. unfold decodable in Hdec.
  destruct (SlackTSToTime (msg_Timestamp m)) as [t|] eqn:Ht; [|congruence].
  unfold Messages_item. rewrite Hauthor, Htime.
  cbn [found keep total messagesToDelete].
  assert (exists st1 : State W,
             (if found a =? last then println "" else ret tt) st
             = (Return tt, st1) /\ world st1 = world st)
    as (st1 & Hrun1 & Hw1)
    by (destruct (found a =? last); eexists; split; reflexivity).
  rewrite (bind_Return _ _ st tt st1 Hrun1).
  rewrite (bind_Return _ _ st1 (ADate t) st1 (prettyTS_run _ _ _ Ht)).
  unfold mbind at 1, M_bind, bind. cbn [printf emit].
  cbn [setChannel msg_ThreadTimestamp msg_Timestamp msg_Channel].
  rewrite Hroot. do 2 eexists. split; [reflexivity|].
  split; [reflexivity|exact Hw1].
Qed.

(** A selected message whose timestamp has no decimal point stops the
    run: its date is decoded for the report before it is appended. *)
Lemma Messages_item_undecodable fuel s c userID clean last a m
    (st : State W) :
  nonempty userID && String.eqb (msg_User m) userID = false ->
  GoString.gt (msg_Timestamp m) (beforeTS s) = false ->
  SlackTSToTime (msg_Timestamp m) = None ->
  fst (Messages_item fuel s c userID clean last a m st)
  = Panic "runtime error: index out of range [1] with length 1".
Proof.
  intros Hauthor Htime Hdec. unfold Messages_item. rewrite Hauthor, Htime.
  unfold prettyTS. rewrite Hdec.
  destruct (found _ =? last); reflexivity.
Qed.

(** A file is selected exactly when it was created before the cutoff,
    to the second. *)
Lemma Files_item_selects s acc f (st : State W) :
  Files_item s acc f st
  = if file_Created f <? beforeTSUnix s
    then (Return (incr (fst acc), snd acc ++ [f]),
          mkState (world st)
            (trace st
             ++ [EPrintf "%04d. Found file %s (created: %s)\n"
                   [AInt (incr (fst acc)); AStr (file_Name f);
                    ADate (time.Unix (file_Created f) 0)]]))
    else (Return acc, st).
Proof.
  unfold Files_item. destruct acc as [found files]. cbn [fst snd].
  destruct (file_Created f <? beforeTSUnix s); reflexivity.
Qed.

(** ** Rate limits *)

(** An error that is not a rate limit is fatal. *)
Lemma ratelimitOrPanic_fatal err (st : State W) :
  GoString.Contains err "rate limit" = false ->
  ratelimitOrPanic err st = (Panic err, st).
Proof. intros Hrl. unfold ratelimitOrPanic. rewrite Hrl. reflexivity. Qed.

(** [Files] after a rate limit: the client hands back no files and no
    parameters with the error, the loop waits and then goes on with the
    rest of its body, where the cursor of the parameters is read. *)
Lemma Files_loop_rate_limited n s p acc (st : State W) err w' :
  ListFiles p (world st) = (([], None, Some err), w') ->
  GoString.Contains err "rate limit" = true ->
  Files_loop (S n) s p acc st
  = (Panic "runtime error: invalid memory address or nil pointer dereference",
     mkState w'
       (trace st
        ++ [ECall (CListFiles p);
            EPrintf "Rate limited, retrying in 1 sec ..\n" [];
            ESleep 1000])).
Proof.
  intros Hcall Hrl. cbn [Files_loop].
  unfold mbind at 1, M_bind, bind, call. rewrite Hcall.
  set (st0 := mkState w' (trace st ++ [ECall (CListFiles p)])).
  destruct (ratelimitOrPanic_run err st0 Hrl) as (st1 & Hrun1 & Hw1 & Htr1).
  rewrite (bind_Return _ _ st0 tt st1 Hrun1).
  cbn [foldM]. unfold mbind, M_bind, bind, ret, or_panic, panic.
  destruct st1 as [w1 tr1]. cbn [world trace] in *. subst w1 tr1.
  unfold st0. cbn [world trace]. rewrite <- app_assoc. reflexivity.
Qed.

(** *** The loops that retry

    After a call that is turned down as rate limited, each of these loops
    waits a second and makes the same call again; any other error stops
    the run. *)

Lemma ratelimitOrPanic_limited err (st : State W) :
  GoString.Contains err "rate limit" = true ->
  ratelimitOrPanic err st
  = (Return tt,
     mkState (world st)
       (trace st
        ++ [EPrintf "Rate limited, retrying in 1 sec ..\n" []; ESleep 1000])).
Proof.
  intros Hrl. unfold ratelimitOrPanic. rewrite Hrl. cbn [negb].
  unfold mbind, M_bind, bind, printf, time_Sleep, emit. cbn [world trace].
  rewrite <- app_assoc. reflexivity.
Qed.

Lemma bind_Panic {A B} (m : M W A) (k : A -> M W B) st msg st' :
  m st = (Panic msg, st') -> (m ≫= k) st = (Panic msg, st').
Proof. unfold mbind, M_bind, bind. intros ->. reflexivity. Qed.

Ltac retry_tac Hcall Hrl :=
  unfold mbind at 1, M_bind, bind, call; rewrite Hcall;
  rewrite (bind_Return _ _ _ tt _ (ratelimitOrPanic_limited _ _ Hrl));
  cbn [world trace]; unfold retried; rewrite <- ?app_assoc; reflexivity.

Ltac fatal_tac Hcall Hrl :=
  unfold mbind at 1, M_bind, bind, call; rewrite Hcall;
  rewrite (bind_Panic _ _ _ _ _ (ratelimitOrPanic_fatal _ _ Hrl));
  reflexivity.


Lemma Channels_loop_fatal n re users cursor acc (st : State W) err w1 :
  let p := mkGetConversations
             ["public_channel"; "private_channel"; "mpim"; "im"] cursor in
  GetConversations p (world st) = (inr err, w1) ->
  GoString.Contains err "rate limit" = false ->
  Channels_loop (S n) re users cursor acc st
  = (Panic err, mkState w1 (trace st ++ [ECall (CGetConversations p)])).
Proof.
  intros p Hcall Hrl. subst p. cbn [Channels_loop]. fatal_tac Hcall Hrl.
Qed.

Lemma Messages_loop_retry n fuel s c userID clean cursor last a
    (st : State W) err w1 :
  let p := mkGetHistory (ch_ID c) cursor 1000 in
  GetConversationHistory p (world st) = (inr err, w1) ->
  GoString.Contains err "rate limit" = true ->
  Messages_loop (S n) fuel s c userID clean cursor last a st
  = Messages_loop n fuel s c userID clean cursor last a
      (mkState w1 (trace st ++ retried (CGetConversationHistory p))).
Proof.
  intros p Hcall Hrl. subst p. cbn [Messages_loop]. retry_tac Hcall Hrl.
Qed.

Lemma Messages_loop_fatal n fuel s c userID clean cursor last a
    (st : State W) err w1 :
  let p := mkGetHistory (ch_ID c) cursor 1000 in
  GetConversationHistory p (world st) = (inr err, w1) ->
  GoString.Contains err "rate limit" = false ->
  Messages_loop (S n) fuel s c userID clean cursor last a st
  = (Panic err, mkState w1 (trace st ++ [ECall (CGetConversationHistory p)])).
Proof.
  intros p Hcall Hrl. subst p. cbn [Messages_loop]. fatal_tac Hcall Hrl.
Qed.

Lemma Messages_replies_retry n c channelName clean p a (st : State W) err w1 :
  GetConversationReplies p (world st) = (inr err, w1) ->
  GoString.Contains err "rate limit" = true ->
  Messages_replies (S n) c channelName clean p a st
  = Messages_replies n c channelName clean p a
      (mkState w1 (trace st ++ retried (CGetConversationReplies p))).
Proof. intros Hcall Hrl. cbn [Messages_replies]. retry_tac Hcall Hrl. Qed.

Lemma Messages_replies_fatal n c channelName clean p a (st : State W) err w1 :
  GetConversationReplies p (world st) = (inr err, w1) ->
  GoString.Contains err "rate limit" = false ->
  Messages_replies (S n) c channelName clean p a st
  = (Panic err, mkState w1 (trace st ++ [ECall (CGetConversationReplies p)])).
Proof. intros Hcall Hrl. cbn [Messages_replies]. fatal_tac Hcall Hrl. Qed.

Lemma DeleteMessages_loop_retry n i m (st : State W) err w1 :
  let c := CDeleteMessage (msg_Channel m) (msg_Timestamp m) in
  DeleteMessage (msg_Channel m) (msg_Timestamp m) (world st) = (inr err, w1) ->
  GoString.Contains err "rate limit" = true ->
  DeleteMessages_loop (S n) i m st
  = DeleteMessages_loop n i m (mkState w1 (trace st ++ retried c)).
Proof.
  intros c Hcall Hrl. subst c. cbn [DeleteMessages_loop].
  assert (String.eqb err "message_not_found" = false) as Hnf.
  { destruct (String.eqb_spec err "message_not_found") as [->|]; [|reflexivity].
    vm_compute in Hrl. discriminate. }
  unfold mbind at 1, M_bind, bind, call. rewrite Hcall, Hnf.
  rewrite (bind_Return _ _ _ tt _ (ratelimitOrPanic_limited _ _ Hrl)).
  cbn [world trace]. unfold retried. rewrite <- ?app_assoc. reflexivity.
Qed.

Lemma DeleteMessages_loop_fatal n i m (st : State W) err w1 :
  DeleteMessage (msg_Channel m) (msg_Timestamp m) (world st) = (inr err, w1) ->
  err <> "message_not_found" ->
  GoString.Contains err "rate limit" = false ->
  DeleteMessages_loop (S n) i m st
  = (Panic err,
     mkState w1
       (trace st ++ [ECall (CDeleteMessage (msg_Channel m) (msg_Timestamp m))])).
Proof.
  intros Hcall Hnf Hrl. cbn [DeleteMessages_loop].
  apply String.eqb_neq in Hnf.
  unfold mbind at 1, M_bind, bind, call. rewrite Hcall, Hnf.
  rewrite (bind_Panic _ _ _ _ _ (ratelimitOrPanic_fatal _ _ Hrl)).
  reflexivity.
Qed.

Lemma DeleteFiles_loop_retry n i f (st : State W) err w1 :
  DeleteFile (file_ID f) (world st) = (Some err, w1) ->
  GoString.Contains err "rate limit" = true ->
  DeleteFiles_loop (S n) i f st
  = DeleteFiles_loop n i f
      (mkState w1 (trace st ++ retried (CDeleteFile (file_ID f)))).
Proof.
  intros Hcall Hrl. cbn [DeleteFiles_loop].
  assert (String.eqb err "file_not_found" = false) as Hnf.
  { destruct (String.eqb_spec err "file_not_found") as [->|]; [|reflexivity].
    vm_compute in Hrl. discriminate. }
  unfold mbind at 1, M_bind, bind, call. rewrite Hcall, Hnf.
  rewrite (bind_Return _ _ _ tt _ (ratelimitOrPanic_limited _ _ Hrl)).
  cbn [world trace]. unfold retried. rewrite <- ?app_assoc. reflexivity.
Qed.

Lemma DeleteFiles_loop_fatal n i f (st : State W) err w1 :
  DeleteFile (file_ID f) (world st) = (Some err, w1) ->
  err <> "file_not_found" ->
  GoString.Contains err "rate limit" = false ->
  DeleteFiles_loop (S n) i f st
  = (Panic err, mkState w1 (trace st ++ [ECall (CDeleteFile (file_ID f))])).
Proof.
  intros Hcall Hnf Hrl. cbn [DeleteFiles_loop].
  apply String.eqb_neq in Hnf.
  unfold mbind at 1, M_bind, bind, call. rewrite Hcall, Hnf.
  rewrite (bind_Panic _ _ _ _ _ (ratelimitOrPanic_fatal _ _ Hrl)).
  reflexivity.
Qed.

(** [Users] has no retry: any error of [GetUsers] stops the run. *)
Lemma Users_fatal user (st : State W) err w1 :
  GetUsers (world st) = (inr err, w1) ->
  Users user st = (Panic err, mkState w1 (trace st ++ [ECall CGetUsers])).
Proof.
  intros Hcall. unfold Users, mbind, M_bind, bind, call. rewrite Hcall.
  reflexivity.
Qed.

End Filters.

(** C1, on the code.  [--user alice] with [--commit] over two old messages,
    one of alice and one of bob: the message of alice is kept and the
    message of bob is deleted (while, of the files, the one of alice is
    deleted). *)
Theorem author_filter_keeps_the_author :
  let r := Fake.run (main 5 Demo.commit_for_alice "") Demo.two_authors in
  fst r = Return tt
  /\ fst (Fake.run (Users "alice") Demo.two_authors)
     = Return (Demo.directory, user_ID Demo.alice)
  /\ fst (Fake.run (Messages 5 Demo.cutoff [Demo.general] (user_ID Demo.alice))
            Demo.two_authors)
     = Return [Demo.old_by_bob]
  /\ Fake.ws_messages (world (snd r)) = [Demo.old_by_alice]
  /\ delete_calls (trace (snd r))
     = [ECall (CDeleteMessage "C1" (msg_Timestamp Demo.old_by_bob));
        ECall (CDeleteFile (file_ID Demo.file_before))].
Proof. vm_compute. repeat split; reflexivity. Qed.

(** C2, on the code.  [--before 20200501-0000]: the message whose timestamp
    is the cutoff is selected (and the one a microsecond later is not),
    while the file created at the cutoff is not selected. *)
Theorem message_at_the_cutoff_is_selected :
  fst (Fake.run (New (mkOptions "20200501-0000" "xoxp-1")) Demo.on_the_hour)
  = Return Demo.cutoff
  /\ msg_Timestamp Demo.at_cutoff_by_bob = beforeTS Demo.cutoff
  /\ fst (Fake.run (Messages 5 Demo.cutoff [Demo.general] "")
            Demo.on_the_hour)
     = Return [Demo.at_cutoff_by_bob]
  /\ file_Created Demo.file_at_cutoff = beforeTSUnix Demo.cutoff
  /\ fst (Fake.run (Files 5 Demo.cutoff "" [Demo.general]) Demo.on_the_hour)
     = Return [Demo.file_before].
Proof. vm_compute. repeat split; reflexivity. Qed.

(** C4, on the code.  The first [ListFiles] of [Files] is turned down as
    rate limited: the program waits a second and then, instead of calling
    again, reads the cursor of the parameters it did not get, and the run
    ends in a runtime panic after that single call. *)
Theorem Files_does_not_retry_after_a_rate_limit :
  let r := Fake.run (Files 5 Demo.cutoff "" [Demo.general])
             (Demo.limited [true]) in
  fst r
  = Panic "runtime error: invalid memory address or nil pointer dereference"
  /\ trace (snd r)
     = [ECall (CListFiles (mkListFiles 100 "" "C1" ""));
        EPrintf "Rate limited, retrying in 1 sec ..\n" [];
        ESleep 1000].
Proof. vm_compute. split; reflexivity. Qed.

(** The other loops do retry: [Channels], turned down once, waits a second
    and calls again; [DeleteMessages], turned down twice, calls three
    times.  [Users] has no retry: any error of [GetUsers] is a panic. *)
Example Channels_retries_ex :
  let r := Fake.run (Channels 5 "" Demo.directory) (Demo.limited [true]) in
  fst r = Return [Demo.general; Demo.direct]
  /\ calls (trace (snd r))
     = [CGetConversations
          (mkGetConversations
             ["public_channel"; "private_channel"; "mpim"; "im"] "");
        CGetConversations
          (mkGetConversations
             ["public_channel"; "private_channel"; "mpim"; "im"] "")]
  /\ In (ESleep 1000) (trace (snd r)).
Proof. vm_compute. intuition. Qed.

Example DeleteMessages_retries_ex :
  let r := Fake.run (DeleteMessages 5 [Demo.old_by_alice])
             (Demo.limited [true; true]) in
  fst r = Return tt
  /\ calls (trace (snd r))
     = [CDeleteMessage "C1" "1588000000.000100";
        CDeleteMessage "C1" "1588000000.000100";
        CDeleteMessage "C1" "1588000000.000100"].
Proof. vm_compute. split; reflexivity. Qed.

Example Users_rate_limited_ex :
  Fake.run (Users "") (Demo.limited [true])
  = (Panic Fake.rate_limited, mkState (Demo.limited []) [ECall CGetUsers]).
Proof. vm_compute. reflexivity. Qed.

(** With a cutoff before 2001-09-09 the texts have one digit less than the
    timestamps of the messages, and every message of 2020 compares as not
    after the cutoff of 2000-01-01: all five are selected. *)
Example cutoff_of_nine_digits_ex :
  fst (Fake.run (New (mkOptions "20000101-0000" "xoxp-1")) Demo.workspace)
  = Return (mkSlackClean "946684800.000000" 946684800)
  /\ fst (Fake.run
            (Messages 5 (mkSlackClean "946684800.000000" 946684800)
               [Demo.general] "") Demo.workspace)
     = Return [Demo.old_by_alice; Demo.root_by_bob; Demo.late_reply_by_alice;
               Demo.at_cutoff_by_bob; Demo.new_by_bob].
Proof. vm_compute. split; reflexivity. Qed.

(** * Further properties of the code *)

(** ** The codec, both ways *)

Section RoundTrip.

Import strconv Decimal.

Lemma digit_val_digit_char d : 0 <= d <= 9 -> digit_val (digit_char d) = d.
Proof.
  intros Hd.
  assert (d = 0 \/ d = 1 \/ d = 2 \/ d = 3 \/ d = 4 \/ d = 5 \/ d = 6
          \/ d = 7 \/ d = 8 \/ d = 9) as Hcases by lia.
  repeat (destruct Hcases as [-> | Hcases]; [reflexivity|]).
  subst d. reflexivity.
Qed.

Lemma value_cons c x :
  value (String c x) = digit_val c * 10 ^ Z.of_nat (String.length x) + value x.
Proof.
  unfold value at 1. cbn [value_from]. rewrite value_from_shift. lia.
Qed.

Lemma value_app x : forall y,
  value (x +:+ y) = value x * 10 ^ Z.of_nat (String.length y) + value y.
Proof.
  induction x as [|c x IH]; intros y.
  - change (EmptyString +:+ y) with y. unfold value at 2. simpl. lia.
  - change (String c x +:+ y) with (String c (x +:+ y)).
    rewrite !value_cons, IH, length_app, Nat2Z.inj_add, Z.pow_add_r by lia.
    lia.
Qed.

(** The digits that [%d] prints denote the number printed. *)
Lemma value_digits_loop fuel : forall n acc,
  0 <= n < 10 ^ Z.of_nat fuel ->
  value (digits_loop fuel n acc)
  = n * 10 ^ Z.of_nat (String.length acc) + value acc.
Proof.
  induction fuel as [|fuel IH]; intros n acc Hn.
  - simpl in *. assert (n = 0) as -> by lia. lia.
  - cbn [digits_loop]. rewrite Nat2Z.inj_succ, Z.pow_succ_r in Hn by lia.
    pose proof (Z.mod_pos_bound n 10 ltac:(lia)) as Hmod.
    pose proof (Z.div_mod n 10 ltac:(lia)) as Hdiv.
    destruct (Z.ltb_spec n 10) as [Hlt|Hge].
    + rewrite value_cons, digit_val_digit_char by lia.
      rewrite Z.mod_small by lia. reflexivity.
    + rewrite IH.
      * rewrite value_cons, digit_val_digit_char by lia.
        cbn [String.length]. rewrite Nat2Z.inj_succ, Z.pow_succ_r by lia.
        set (P := 10 ^ Z.of_nat (String.length acc)). nia.
      * split; [apply Z.div_pos; lia|].
        apply Z.div_lt_upper_bound; lia.
Qed.

Lemma length_digits_loop_ge fuel : forall n acc,
  (String.length acc <= String.length (digits_loop fuel n acc))%nat.
Proof.
  induction fuel as [|fuel IH]; intros n acc; simpl; [lia|].
  destruct (n <? 10); simpl; [lia|].
  etransitivity; [|apply IH]. simpl. lia.
Qed.

(** A number below [10^k] prints in at most [k] digits, and a number from
    [10^(k-1)] on in at least [k]. *)
Lemma length_digits_loop_upper fuel : forall k n acc,
  (1 <= k)%nat -> 0 <= n < 10 ^ Z.of_nat k ->
  (String.length (digits_loop fuel n acc) <= k + String.length acc)%nat.
Proof.
  induction fuel as [|fuel IH]; intros k n acc Hk Hn; simpl; [lia|].
  destruct (Z.ltb_spec n 10) as [Hlt|Hge]; simpl; [lia|].
  destruct k as [|[|k]]; [lia| |].
  - change (10 ^ Z.of_nat 1) with 10 in Hn. lia.
  - etransitivity; [apply (IH (S k))|simpl; lia]; [lia|].
    rewrite Nat2Z.inj_succ, Z.pow_succ_r in Hn by lia.
    split; [apply Z.div_pos; lia|apply Z.div_lt_upper_bound; lia].
Qed.

Lemma length_digits_loop_lower fuel : forall k n acc,
  (1 <= k <= fuel)%nat -> 10 ^ Z.of_nat (k - 1) <= n ->
  (k + String.length acc <= String.length (digits_loop fuel n acc))%nat.
Proof.
  induction fuel as [|fuel IH]; intros k n acc Hk Hn; [lia|].
  cbn [digits_loop].
  destruct (Z.ltb_spec n 10) as [Hlt|Hge].
  - destruct k as [|[|k]]; [lia|simpl; lia|].
    exfalso. replace (S (S k) - 1)%nat with (S k) in Hn by lia.
    rewrite Nat2Z.inj_succ, Z.pow_succ_r in Hn by lia.
    assert (1 <= 10 ^ Z.of_nat k)
      by (apply Z.lt_pred_le, Z.pow_pos_nonneg; lia).
    lia.
  - destruct k as [|[|k]]; [lia| |].
    + etransitivity; [|apply length_digits_loop_ge]. simpl. lia.
    + etransitivity; [|apply (IH (S k))]; [simpl; lia|lia|].
      replace (S (S k) - 1)%nat with (S k) in Hn by lia.
      replace (S k - 1)%nat with k by lia.
      rewrite Nat2Z.inj_succ, Z.pow_succ_r in Hn by lia.
      apply Z.div_le_lower_bound; lia.
Qed.

(** [TimeToSlackTS] by the microseconds [u] of the instant: it panics
    below a tenth of a second, and otherwise cuts the digits of [u] into
    the seconds and six digits of microseconds. *)
Lemma TimeToSlackTS_micros t :
  let u := Z.quot (time.Time_UnixNano t) 1000 in
  0 <= time.Time_UnixNano t ->
  (u < 100000 -> TimeToSlackTS t = None)
  /\ (100000 <= u ->
      exists whole frac,
        TimeToSlackTS t = Some (whole +:+ String "." frac)
        /\ ts_form (whole +:+ String "." frac) whole frac
        /\ value whole = u / 1000000 /\ value frac = u mod 1000000).
Proof.
  intros u Hnn.
  assert (0 <= u) as Hu by (apply Z.quot_pos; lia).
  assert (u < 10 ^ 20) as Hu20.
  { assert (time.Time_UnixNano t < 2 ^ 63) as Hw.
    { unfold time.Time_UnixNano, wrap64.
      pose proof (Z.mod_pos_bound
                    (time.sec t * 1000000000 + time.nsec t + 2 ^ 63) (2 ^ 64)
                    ltac:(lia)).
      lia. }
    assert (u <= time.Time_UnixNano t).
    { unfold u. rewrite Z.quot_div_nonneg by lia.
      apply Z.div_le_upper_bound; lia. }
    change (2 ^ 63) with 9223372036854775808 in Hw.
    change (10 ^ 20) with 100000000000000000000. lia. }
  unfold TimeToSlackTS. fold u. unfold FormatInt.
  destruct (Z.ltb_spec u 0) as [|_]; [lia|].
  unfold FormatUint. set (ds := digits_loop 20 u EmptyString).
  assert (all_digits ds = true) as Hds
    by (apply all_digits_digits_loop; [exact Hu|reflexivity]).
  assert (value ds = u) as Hval.
  { unfold ds. rewrite value_digits_loop by (change (Z.of_nat 20) with 20; lia).
    simpl. unfold value. simpl. lia. }
  pose proof (length_digits_loop 20 u EmptyString) as Hlen. fold ds in Hlen.
  simpl in Hlen. unfold GoString.slice, GoString.len.
  set (n := String.length ds) in *.
  split.
  - intros Hsmall.
    pose proof (length_digits_loop_upper 20 5 u EmptyString ltac:(lia)
                  ltac:(change (10 ^ Z.of_nat 5) with 100000; lia)) as Hup.
    fold ds in Hup. fold n in Hup. simpl in Hup.
    destruct (Z.leb_spec 0 (Z.of_nat n - 6)) as [|_]; [lia|].
    cbn [andb]. destruct (_ && _); reflexivity.
  - intros Hbig.
    pose proof (length_digits_loop_lower 20 6 u EmptyString ltac:(lia)
                  ltac:(change (10 ^ Z.of_nat (6 - 1)) with 100000; lia))
      as Hlow.
    fold ds in Hlow. fold n in Hlow. simpl in Hlow.
    destruct (Z.leb_spec 0 (Z.of_nat n - 6)); [|lia].
    destruct (Z.leb_spec (Z.of_nat n - 6) (Z.of_nat n)); [|lia].
    destruct (Z.leb_spec (Z.of_nat n) (Z.of_nat n)); [|lia].
    destruct (Z.leb_spec 0 0); [|lia].
    cbn [andb].
    replace (Z.to_nat (Z.of_nat n - 6 - 0)) with (n - 6)%nat by lia.
    replace (Z.to_nat (Z.of_nat n - 6)) with (n - 6)%nat by lia.
    replace (Z.to_nat (Z.of_nat n - (Z.of_nat n - 6))) with (n - (n - 6))%nat
      by lia.
    replace (Z.to_nat 0) with 0%nat by reflexivity.
    pose proof (substring_cut ds (n - 6)%nat ltac:(lia)) as Hcut.
    fold n in Hcut.
    set (whole := String.substring 0 (n - 6) ds) in *.
    set (frac := String.substring (n - 6) (n - (n - 6)) ds) in *.
    assert (String.length frac = 6%nat) as Lf
      by (unfold frac; rewrite length_substring; lia).
    assert (String.length whole = (n - 6)%nat) as Lw
      by (unfold whole; rewrite length_substring; lia).
    pose proof Hds as Hds'. rewrite <- Hcut, all_digits_app in Hds'.
    apply andb_true_iff in Hds' as [Hw Hf].
    exists whole, frac. split; [reflexivity|].
    split; [unfold ts_form; repeat split; try assumption; lia|].
    pose proof (value_range _ Hf) as Rf. rewrite Lf in Rf.
    change (10 ^ Z.of_nat 6) with 1000000 in Rf.
    assert (u = value whole * 1000000 + value frac) as Hsplit.
    { rewrite <- Hval, <- Hcut, value_app, Lf. reflexivity. }
    split.
    + apply (Z.div_unique u 1000000 _ (value frac)); lia.
    + apply (Z.mod_unique u 1000000 (value whole)); lia.
Qed.

Lemma length_digits_loop_pos fuel n acc :
  (S (String.length acc) <= String.length (digits_loop (S fuel) n acc))%nat.
Proof.
  cbn [digits_loop]. destruct (n <? 10); cbn [String.length]; [lia|].
  etransitivity; [|apply length_digits_loop_ge]. cbn [String.length]. lia.
Qed.

(** [%d] prints at least one byte, and fewer than six exactly for the
    numbers strictly between -10000 and 100000 (the sign is a byte). *)
Lemma length_FormatInt u :
  (1 <= String.length (FormatInt u))%nat
  /\ ((String.length (FormatInt u) < 6)%nat <-> -10000 < u < 100000).
Proof.
  unfold FormatInt, FormatUint.
  destruct (Z.ltb_spec u 0) as [Hneg|Hpos].
  - set (ds := digits_loop 20 (- u) EmptyString). cbn [String.length].
    split; [lia|]. split.
    + intros Hlen.
      destruct (Z.lt_ge_cases (- u) 10000) as [?|Hbig]; [lia|].
      pose proof (length_digits_loop_lower 20 5 (- u) EmptyString
                    ltac:(lia)
                    ltac:(change (10 ^ Z.of_nat (5 - 1)) with 10000; lia))
        as Hlow.
      fold ds in Hlow. cbn [String.length] in Hlow. lia.
    + intros Hu.
      pose proof (length_digits_loop_upper 20 4 (- u) EmptyString
                    ltac:(lia)
                    ltac:(change (10 ^ Z.of_nat 4) with 10000; lia)) as Hup.
      fold ds in Hup. cbn [String.length] in Hup. lia.
  - split.
    + pose proof (length_digits_loop_pos 19 u EmptyString) as Hpos1.
      cbn [String.length] in Hpos1. exact Hpos1.
    + set (ds := digits_loop 20 u EmptyString). split.
      * intros Hlen.
        destruct (Z.lt_ge_cases u 100000) as [?|Hbig]; [lia|].
        pose proof (length_digits_loop_lower 20 6 u EmptyString
                      ltac:(lia)
                      ltac:(change (10 ^ Z.of_nat (6 - 1)) with 100000; lia))
          as Hlow.
        fold ds in Hlow. cbn [String.length] in Hlow. lia.
      * intros Hu.
        pose proof (length_digits_loop_upper 20 5 u EmptyString
                      ltac:(lia)
                      ltac:(change (10 ^ Z.of_nat 5) with 100000; lia))
          as Hup.
        fold ds in Hup. cbn [String.length] in Hup. lia.
Qed.

(** [TimeToSlackTS] panics exactly when fewer than six bytes were
    printed. *)
Lemma TimeToSlackTS_None t :
  TimeToSlackTS t = None
  <-> (String.length
         (FormatInt (Z.quot (time.Time_UnixNano t) 1000)) < 6)%nat.
Proof.
  unfold TimeToSlackTS, GoString.slice, GoString.len.
  set (n := String.length _).
  destruct (Z.leb_spec 0 (Z.of_nat n - 6)) as [Hge|Hlt].
  - destruct (Z.leb_spec (Z.of_nat n - 6) (Z.of_nat n)); [|lia].
    destruct (Z.leb_spec (Z.of_nat n) (Z.of_nat n)); [|lia].
    destruct (Z.leb_spec 0 0); [|lia].
    cbn [andb]. split; [discriminate|lia].
  - destruct (Z.leb_spec 0 0); [|lia].
    cbn [andb]. split; [lia|reflexivity].
Qed.

End RoundTrip.

Section CutoffFacts.

Lemma UnixNano_exact t :
  0 <= time.sec t -> 0 <= time.nsec t < 1000000000 ->
  time.sec t * 1000000000 + time.nsec t <= maxInt64 ->
  time.Time_UnixNano t = time.sec t * 1000000000 + time.nsec t
  /\ Z.quot (time.Time_UnixNano t) 1000
     = time.sec t * 1000000 + time.nsec t / 1000.
Proof.
  intros Hs Hn Hmax. unfold time.Time_UnixNano.
  rewrite wrap64_small by (unfold minInt64; lia). split; [reflexivity|].
  rewrite Z.quot_div_nonneg by lia.
  replace (time.sec t * 1000000000 + time.nsec t)
    with (time.nsec t + time.sec t * 1000000 * 1000) by lia.
  rewrite Z.div_add by lia. lia.
Qed.

Lemma micros_split s us :
  0 <= us < 1000000 ->
  (s * 1000000 + us) / 1000000 = s /\ (s * 1000000 + us) mod 1000000 = us.
Proof.
  intros Hus. split.
  - symmetry. apply (Z.div_unique _ 1000000 s us); lia.
  - symmetry. apply (Z.mod_unique _ 1000000 s us); lia.
Qed.

Lemma TimeToSlackTS_decodes t :
  0 <= time.sec t -> 0 <= time.nsec t < 1000000000 ->
  time.sec t * 1000000000 + time.nsec t <= maxInt64 ->
  100000 <= time.sec t * 1000000 + time.nsec t / 1000 ->
  exists a,
    TimeToSlackTS t = Some a
    /\ SlackTSToTime a
       = Some (time.mkTime (time.sec t) (time.nsec t / 1000 * 1000)).
Proof.
  intros Hs Hn Hmax Hbig.
  destruct (UnixNano_exact t Hs Hn Hmax) as [Hnano Hu].
  destruct (TimeToSlackTS_micros t ltac:(lia)) as [_ Hsome].
  rewrite Hu in Hsome.
  destruct (Hsome Hbig) as (whole & frac & Henc & Hform & Hw & Hf).
  assert (0 <= time.nsec t / 1000 < 1000000) as Hus.
  { split; [apply Z.div_pos; lia|apply Z.div_lt_upper_bound; lia]. }
  destruct (micros_split (time.sec t) _ Hus) as [Hdiv Hmod].
  exists (whole +:+ String "." frac). split; [exact Henc|].
  rewrite (SlackTSToTime_form _ _ _ Hform), Hw, Hf, Hdiv, Hmod. reflexivity.
Qed.

End CutoffFacts.

(** X1.  Encoding an instant and decoding the text gives the instant back,
    cut to the microsecond, for every instant from a tenth of a second
    after the epoch on (within the range of [UnixNano]); an instant of
    whole microseconds comes back as it is. *)
Theorem TimeToSlackTS_round_trip (t : time.Time) :
  0 <= time.sec t -> 0 <= time.nsec t < 1000000000 ->
  time.sec t * 1000000000 + time.nsec t <= maxInt64 ->
  100000 <= time.sec t * 1000000 + time.nsec t / 1000 ->
  exists a,
    TimeToSlackTS t = Some a
    /\ SlackTSToTime a
       = Some (time.mkTime (time.sec t) (time.nsec t / 1000 * 1000))
    /\ (time.nsec t mod 1000 = 0 -> SlackTSToTime a = Some t).
Proof.
  intros Hs Hn Hmax Hbig.
  destruct (TimeToSlackTS_decodes t Hs Hn Hmax Hbig) as (a & Henc & Hdec).
  exists a. split; [exact Henc|]. split; [exact Hdec|].
  intros Hmod. rewrite Hdec. destruct t as [s ns]. cbn [time.sec time.nsec] in *.
  f_equal. f_equal. pose proof (Z.div_mod ns 1000 ltac:(lia)). lia.
Qed.

Lemma TimeToSlackTS_round_trip_witness :
  exists a,
    TimeToSlackTS (time.mkTime 1588291200 123456789) = Some a
    /\ SlackTSToTime a
       = Some (time.mkTime
                 (time.sec (time.mkTime 1588291200 123456789))
                 (time.nsec (time.mkTime 1588291200 123456789) / 1000 * 1000))
    /\ (time.nsec (time.mkTime 1588291200 123456789) mod 1000 = 0 ->
        SlackTSToTime a = Some (time.mkTime 1588291200 123456789)).
Proof.
  apply (TimeToSlackTS_round_trip (time.mkTime 1588291200 123456789));
    vm_compute; (discriminate || (split; (discriminate || reflexivity))).
Defined.

(** X2.  [TimeToSlackTS] panics (its slices are out of bounds) exactly
    when the microseconds [t.UnixNano()/1000] of the instant, an [int64],
    print in fewer than six bytes, that is when they lie strictly between
    -10000 and 100000.  Where [UnixNano] does not wrap (from 1678 to
    2262) these are the instants from a hundredth of a second before the
    epoch to a tenth of a second after it; for any other instant a text
    is returned, also when [UnixNano] has wrapped. *)
Theorem TimeToSlackTS_panics_iff (t : time.Time) :
  TimeToSlackTS t = None
  <-> -10000 < Z.quot (time.Time_UnixNano t) 1000 < 100000.
Proof.
  rewrite TimeToSlackTS_None.
  apply (length_FormatInt (Z.quot (time.Time_UnixNano t) 1000)).
Qed.

(** Three instants: the last microsecond that panics, an instant shortly
    before the epoch that does not, and an instant after 2262, where
    [UnixNano] has wrapped. *)
Example TimeToSlackTS_panics_ex :
  TimeToSlackTS (time.mkTime 0 99999000) = None
  /\ TimeToSlackTS (time.mkTime (-1) 990000000) = Some ".-10000"
  /\ TimeToSlackTS (time.mkTime 9223372037 0) = Some "-9223372036.709551".
Proof. vm_compute. repeat split. Qed.

(** X3.  When the cutoff parses to an instant from the first second after
    the epoch on whose nanoseconds since the epoch fit an [int64] (an
    instant up to 2262-04-11T23:47:16.854775807Z, so that [UnixNano] does
    not wrap; its [nsec] is within the second, as that of every
    [time.Time] is), [New] returns without a call to the client, and its two cutoffs
    are one instant: the text [beforeTS] that messages are compared with
    decodes to the second [beforeTSUnix] that files are compared with
    (and to the microseconds of the parsed instant). *)
Theorem New_cutoffs_agree {W : Type} `{!GoLib} (o : SlackCleanOptions)
    (t : time.Time) (st : State W) :
  time_Parse "20060102-1504" (Before o) = inl t ->
  1 <= time.sec t -> 0 <= time.nsec t < 1000000000 ->
  time.sec t * 1000000000 + time.nsec t <= maxInt64 ->
  exists s st',
    New o st = (Return s, st')
    /\ world st' = world st /\ calls (trace st') = calls (trace st)
    /\ beforeTSUnix s = time.sec t
    /\ SlackTSToTime (beforeTS s)
       = Some (time.mkTime (beforeTSUnix s) (time.nsec t / 1000 * 1000)).
Proof.
  intros Hparse Hs Hn Hmax.
  assert (0 <= time.nsec t / 1000) by (apply Z.div_pos; lia).
  destruct (TimeToSlackTS_decodes t ltac:(lia) Hn Hmax ltac:(lia))
    as (a & Henc & Hdec).
  unfold New. rewrite Hparse, Henc.
  do 2 eexists. split; [reflexivity|].
  cbn [world trace beforeTS beforeTSUnix]. unfold time.Time_Unix.
  repeat split; try exact Hdec.
  rewrite !calls_app. simpl. rewrite !app_nil_r. reflexivity.
Qed.

Lemma New_cutoffs_agree_witness :
  exists s st',
    New (mkOptions "20200501-0000" "xoxp-1") (mkState Demo.workspace [])
    = (Return s, st')
    /\ world st' = Demo.workspace /\ calls (trace st') = calls []
    /\ beforeTSUnix s = time.sec (time.mkTime 1588291200 0)
    /\ SlackTSToTime (beforeTS s)
       = Some (time.mkTime (beforeTSUnix s)
                 (time.nsec (time.mkTime 1588291200 0) / 1000 * 1000)).
Proof.
  apply (New_cutoffs_agree (mkOptions "20200501-0000" "xoxp-1")
           (time.mkTime 1588291200 0) (mkState Demo.workspace []));
    [vm_compute; reflexivity
    |vm_compute; (discriminate || (split; (discriminate || reflexivity)))..].
Defined.

(** X4.  When the cutoff parses to an instant whose microseconds print in
    fewer than six bytes (strictly between -10000 and 100000, as those of
    [19700101-0000] do), [New] stops the run before anything is printed
    and before any call to the client, with the panic of the first slice
    of [TimeToSlackTS]: "slice bounds out of range [:-k]", where [6 - k]
    bytes were printed. *)
Theorem New_rejects_cutoff {W : Type} `{!GoLib} (o : SlackCleanOptions)
    (t : time.Time) (st : State W) :
  time_Parse "20060102-1504" (Before o) = inl t ->
  -10000 < Z.quot (time.Time_UnixNano t) 1000 < 100000 ->
  exists k,
    1 <= k <= 5
    /\ GoString.len (strconv.FormatInt (Z.quot (time.Time_UnixNano t) 1000))
       = 6 - k
    /\ New o st
       = (Panic ("runtime error: slice bounds out of range [:-"
                 +:+ strconv.FormatInt k +:+ "]"), st).
Proof.
  intros Hparse Hsmall.
  pose proof (length_FormatInt (Z.quot (time.Time_UnixNano t) 1000))
    as [Hlow Hiff].
  apply Hiff in Hsmall.
  assert (TimeToSlackTS t = None) as Hnone by (apply TimeToSlackTS_None; lia).
  assert (New o st = (Panic (TimeToSlackTS_panic t), st)) as ->.
  { unfold New. rewrite Hparse, Hnone. reflexivity. }
  unfold TimeToSlackTS_panic, GoString.len.
  set (n := String.length _) in *.
  exists (6 - Z.of_nat n). split; [lia|]. split; [lia|].
  assert (n = 1 \/ n = 2 \/ n = 3 \/ n = 4 \/ n = 5)%nat as Hn by lia.
  destruct Hn as [-> | [-> | [-> | [-> | ->]]]]; reflexivity.
Qed.

Lemma New_rejects_cutoff_witness :
  exists k,
    1 <= k <= 5
    /\ GoString.len
         (strconv.FormatInt (Z.quot (time.Time_UnixNano (time.mkTime 0 0)) 1000))
       = 6 - k
    /\ New (mkOptions "19700101-0000" "xoxp-1") (mkState Demo.workspace [])
       = (Panic ("runtime error: slice bounds out of range [:-"
                 +:+ strconv.FormatInt k +:+ "]"),
          mkState Demo.workspace []).
Proof.
  apply (New_rejects_cutoff (mkOptions "19700101-0000" "xoxp-1")
           (time.mkTime 0 0) (mkState Demo.workspace [])).
  - vm_compute. reflexivity.
  - vm_compute. split; reflexivity.
Defined.

(** The cutoff [19700101-0000] prints one byte. *)
Example New_epoch_ex :
  New (mkOptions "19700101-0000" "xoxp-1") (mkState Demo.workspace [])
  = (Panic "runtime error: slice bounds out of range [:-5]",
     mkState Demo.workspace []).
Proof. vm_compute. reflexivity. Qed.

(** ** [Users] *)

Section UsersFacts.

Context {W : Type} `{!slack.Client W} `{!GoLib}.

Lemma resolve_snoc user userID res u :
  resolve user userID (res ++ [u])
  = if String.eqb (user_Name u) user then user_ID u
    else resolve user userID res.
Proof. unfold resolve. rewrite foldl_app. reflexivity. Qed.

Lemma resolve_no_match user userID res :
  (forall u, In u res -> user_Name u <> user) ->
  resolve user userID res = userID.
Proof.
  induction res as [|u res IH] using rev_ind; intros Hno; [reflexivity|].
  rewrite resolve_snoc.
  destruct (String.eqb_spec (user_Name u) user) as [Heq|_].
  - destruct (Hno u); [apply in_or_app; right; left; reflexivity|exact Heq].
  - apply IH. intros v Hv. apply Hno. apply in_or_app. left. exact Hv.
Qed.

Lemma resolve_match user userID res :
  (exists u, In u res /\ user_Name u = user) ->
  exists u, In u res /\ user_Name u = user
            /\ resolve user userID res = user_ID u.
Proof.
  induction res as [|u res IH] using rev_ind; intros (v & Hv & Hname).
  - destruct Hv.
  - rewrite resolve_snoc.
    destruct (String.eqb_spec (user_Name u) user) as [Heq|Hne].
    + exists u. split; [apply in_or_app; right; left; reflexivity|]. auto.
    + apply in_app_or in Hv as [Hv|[<-|[]]]; [|contradiction].
      destruct IH as (x & Hx & Hxn & Hres); [exists v; auto|].
      exists x. split; [apply in_or_app; left; exact Hx|]. auto.
Qed.

Lemma resolve_cases user res :
  resolve user EmptyString res = EmptyString
  \/ exists u, In u res /\ user_Name u = user
               /\ resolve user EmptyString res = user_ID u.
Proof.
  induction res as [|u res IH] using rev_ind; [left; reflexivity|].
  rewrite resolve_snoc.
  destruct (String.eqb_spec (user_Name u) user) as [Heq|Hne].
  - right. exists u. split; [apply in_or_app; right; left; reflexivity|]. auto.
  - destruct IH as [Hnone|(x & Hx & Hxn & Hres)]; [left; exact Hnone|].
    right. exists x. split; [apply in_or_app; left; exact Hx|]. auto.
Qed.

Lemma Users_item_exact user users userID u (st : State W) :
  exists st',
    Users_item user (users, userID) u st
    = (Return (<[user_ID u := user_Name u]> users,
               if nonempty user && String.eqb (user_Name u) user
               then user_ID u else userID), st')
    /\ world st' = world st /\ calls (trace st') = calls (trace st).
Proof.
  unfold Users_item.
  destruct (nonempty user); [destruct (String.eqb (user_Name u) user)|];
    eexists; (split; [reflexivity|]); cbn [world trace andb];
    (split; [reflexivity|]); rewrite ?calls_app; simpl;
    rewrite ?app_nil_r; reflexivity.
Qed.

(** The loop of [Users]: the directory and the id, no call, no panic. *)
Lemma Users_loop_run user res : forall users userID (st : State W),
  exists st',
    foldM (Users_item user) res (users, userID) st
    = (Return (foldl (fun users u => <[user_ID u := user_Name u]> users)
                 users res,
               if nonempty user then resolve user userID res else userID),
       st')
    /\ world st' = world st /\ calls (trace st') = calls (trace st).
Proof.
  induction res as [|u res IH]; intros users userID st.
  - exists st. cbn [foldM foldl resolve]. destruct (nonempty user); auto.
  - destruct (Users_item_exact user users userID u st)
      as (st1 & Hrun1 & Hw1 & Hc1).
    destruct (IH (<[user_ID u := user_Name u]> users)
                (if nonempty user && String.eqb (user_Name u) user
                 then user_ID u else userID) st1)
      as (st' & Hrun & Hw & Hc).
    exists st'. cbn [foldM]. rewrite (bind_Return _ _ st _ st1 Hrun1).
    split; [|split; congruence].
    rewrite Hrun. unfold resolve. cbn [foldl].
    destruct (nonempty user); reflexivity.
Qed.

(** [Users], when [GetUsers] answers: it panics exactly when a user is
    asked for and the loop is left without an id. *)
Lemma Users_run user res w1 (st : State W) :
  GetUsers (world st) = (inl res, w1) ->
  let userID := if nonempty user then resolve user EmptyString res
                else EmptyString in
  exists st',
    Users user st
    = (if nonempty user && String.eqb userID ""
       then Panic ("could not find user: " +:+ user)
       else Return (directory_of res, userID), st')
    /\ world st' = w1
    /\ calls (trace st') = calls (trace st) ++ [CGetUsers].
Proof.
  intros Hcall userID. unfold Users.
  unfold mbind at 1, M_bind, bind, call. rewrite Hcall.
  edestruct (Users_loop_run user res ∅ EmptyString) as (st1 & Hrun & Hw & Hc).
  rewrite (bind_Return _ _ _ _ st1 Hrun). fold userID.
  cbn [world trace] in Hw, Hc. rewrite calls_app in Hc. simpl in Hc.
  destruct (nonempty user); cbn [andb].
  - destruct (String.eqb userID "").
    + exists st1. unfold mbind, M_bind, bind, panic. auto.
    + eexists. unfold mbind, M_bind, bind, printf, emit, ret.
      split; [reflexivity|]. cbn [world trace]. split; [exact Hw|].
      rewrite !calls_app, Hc. simpl. rewrite !app_nil_r. reflexivity.
  - eexists. unfold mbind, M_bind, bind, printf, emit, ret.
    split; [reflexivity|]. cbn [world trace]. split; [exact Hw|].
    rewrite !calls_app, Hc. simpl. rewrite !app_nil_r. reflexivity.
Qed.

Lemma directory_of_snoc res u :
  directory_of (res ++ [u]) = <[user_ID u := user_Name u]> (directory_of res).
Proof. unfold directory_of. rewrite foldl_app. reflexivity. Qed.

Lemma directory_of_None res id :
  directory_of res !! id = None <-> forall u, In u res -> user_ID u <> id.
Proof.
  induction res as [|u res IH] using rev_ind.
  - split; [intros _ u []|intros _; apply lookup_empty].
  - rewrite directory_of_snoc. split.
    + intros Hnone v Hv.
      destruct (decide (user_ID u = id)) as [Heq|Hne].
      * rewrite Heq, lookup_insert_eq in Hnone. discriminate.
      * rewrite lookup_insert_ne in Hnone by exact Hne.
        apply in_app_or in Hv as [Hv|[<-|[]]]; [|exact Hne].
        apply IH; assumption.
    + intros Hall.
      rewrite lookup_insert_ne
        by (apply Hall, in_or_app; right; left; reflexivity).
      apply IH. intros v Hv. apply Hall, in_or_app. left. exact Hv.
Qed.

Lemma directory_of_Some res id name :
  directory_of res !! id = Some name ->
  exists u, In u res /\ user_ID u = id /\ user_Name u = name.
Proof.
  induction res as [|u res IH] using rev_ind.
  - unfold directory_of. simpl. rewrite lookup_empty. discriminate.
  - rewrite directory_of_snoc.
    destruct (decide (user_ID u = id)) as [Heq|Hne].
    + rewrite Heq, lookup_insert_eq. intros [= <-].
      exists u. split; [apply in_or_app; right; left; reflexivity|]. auto.
    + rewrite lookup_insert_ne by exact Hne. intros Hl.
      destruct (IH Hl) as (v & Hv & Hid & Hn).
      exists v. split; [apply in_or_app; left; exact Hv|]. auto.
Qed.

Lemma directory_of_NoDup res :
  List.NoDup (map user_ID res) ->
  forall u, In u res -> directory_of res !! user_ID u = Some (user_Name u).
Proof.
  induction res as [|v res IH] using rev_ind; intros Hnd u Hu; [destruct Hu|].
  rewrite directory_of_snoc. rewrite map_app in Hnd. simpl in Hnd.
  apply in_app_or in Hu as [Hu|[<-|[]]].
  - assert (user_ID v <> user_ID u) as Hne.
    { intros Heq. apply List.NoDup_remove_2 in Hnd. apply Hnd.
      rewrite app_nil_r, Heq. apply in_map. exact Hu. }
    rewrite lookup_insert_ne by exact Hne. apply IH; [|exact Hu].
    apply List.NoDup_remove_1 in Hnd. rewrite app_nil_r in Hnd. exact Hnd.
  - apply lookup_insert_eq.
Qed.

End UsersFacts.

(** X5.  When a user is asked for and [GetUsers] answers: if [Users]
    returns, the id it returns is not empty and is the id of a listed user
    with that handle; if no listed user has the handle, [Users] panics with
    "could not find user", after its one call; and if the listed ids are
    not empty and some listed user has the handle, [Users] returns. *)
Theorem Users_resolves_the_user {W : Type} `{!slack.Client W} `{!GoLib}
    (user : string) (res : list User) (w1 : W) (st : State W) :
  GetUsers (world st) = (inl res, w1) -> user <> EmptyString ->
  (forall users userID st',
     Users user st = (Return (users, userID), st') ->
     userID <> EmptyString
     /\ exists u, In u res /\ user_Name u = user /\ user_ID u = userID)
  /\ ((forall u, In u res -> user_Name u <> user) ->
      fst (Users user st) = Panic ("could not find user: " +:+ user)
      /\ calls (trace (snd (Users user st))) = calls (trace st) ++ [CGetUsers])
  /\ ((forall u, In u res -> user_ID u <> EmptyString) ->
      (exists u, In u res /\ user_Name u = user) ->
      exists users userID st', Users user st = (Return (users, userID), st')).
Proof.
  intros Hcall Huser.
  destruct (Users_run user res w1 st Hcall) as (st1 & Hrun & Hw & Hc).
  assert (nonempty user = true) as Hne
    by (unfold nonempty; destruct (String.eqb_spec user "");
        [contradiction|reflexivity]).
  rewrite Hne in Hrun. cbn [andb] in Hrun.
  split; [|split].
  - intros users userID st' Hret. rewrite Hrun in Hret.
    destruct (String.eqb_spec (resolve user "" res) "") as [|Hid];
      [discriminate|].
    injection Hret as <- <- <-. split; [exact Hid|].
    destruct (resolve_cases user res) as [Hnone|(u & Hu & Hn & Hr)];
      [contradiction|].
    exists u. auto.
  - intros Hno. rewrite Hrun, (resolve_no_match _ _ _ Hno). cbn [fst snd].
    split; [reflexivity|exact Hc].
  - intros Hids Hsome.
    destruct (resolve_match user "" res Hsome) as (u & Hu & Hn & Hr).
    rewrite Hr in Hrun.
    destruct (String.eqb_spec (user_ID u) "") as [Hempty|_].
    + destruct (Hids u Hu Hempty).
    + do 3 eexists. exact Hrun.
Qed.

Lemma Users_resolves_the_user_witness :
  (forall users userID st',
     Users "alice" (mkState Demo.workspace []) = (Return (users, userID), st') ->
     userID <> EmptyString
     /\ exists u, In u [Demo.alice; Demo.bob]
                  /\ user_Name u = "alice" /\ user_ID u = userID)
  /\ ((forall u, In u [Demo.alice; Demo.bob] -> user_Name u <> "alice") ->
      fst (Users "alice" (mkState Demo.workspace []))
      = Panic ("could not find user: " +:+ "alice")
      /\ calls (trace (snd (Users "alice" (mkState Demo.workspace []))))
         = calls [] ++ [CGetUsers])
  /\ ((forall u, In u [Demo.alice; Demo.bob] -> user_ID u <> EmptyString) ->
      (exists u, In u [Demo.alice; Demo.bob] /\ user_Name u = "alice") ->
      exists users userID st',
        Users "alice" (mkState Demo.workspace [])
        = (Return (users, userID), st')).
Proof.
  apply (Users_resolves_the_user "alice" [Demo.alice; Demo.bob]
           Demo.workspace (mkState Demo.workspace [])).
  - reflexivity.
  - discriminate.
Defined.

(** X6.  The mapping that [Users] returns is the directory of the listed
    users: an id is missing from it exactly when no listed user has it, an
    id that it has is mapped to the handle of a listed user with that id,
    and when the listed ids are distinct every listed user is found under
    its id with its handle. *)
Theorem Users_directory_lookup {W : Type} `{!slack.Client W} `{!GoLib}
    (user : string) (res : list User) (w1 : W) (st st' : State W)
    (users : gmap string string) (userID : string) :
  GetUsers (world st) = (inl res, w1) ->
  Users user st = (Return (users, userID), st') ->
  (forall id, users !! id = None <-> forall u, In u res -> user_ID u <> id)
  /\ (forall id name,
        users !! id = Some name ->
        exists u, In u res /\ user_ID u = id /\ user_Name u = name)
  /\ (List.NoDup (map user_ID res) ->
      forall u, In u res -> users !! user_ID u = Some (user_Name u)).
Proof.
  intros Hcall Hret.
  destruct (Users_run user res w1 st Hcall) as (st1 & Hrun & _).
  rewrite Hrun in Hret. destruct (_ && _); [discriminate|].
  injection Hret as <- _ _.
  split; [|split].
  - intros id. apply directory_of_None.
  - intros id name. apply directory_of_Some.
  - apply directory_of_NoDup.
Qed.

Lemma Users_directory_lookup_witness :
  (forall id,
     Demo.directory !! id = None
     <-> forall u, In u [Demo.alice; Demo.bob] -> user_ID u <> id)
  /\ (forall id name,
        Demo.directory !! id = Some name ->
        exists u, In u [Demo.alice; Demo.bob]
                  /\ user_ID u = id /\ user_Name u = name)
  /\ (List.NoDup (map user_ID [Demo.alice; Demo.bob]) ->
      forall u, In u [Demo.alice; Demo.bob] ->
        Demo.directory !! user_ID u = Some (user_Name u)).
Proof.
  apply (Users_directory_lookup "" [Demo.alice; Demo.bob] Demo.workspace
           (mkState Demo.workspace [])
           (snd (Users "" (mkState Demo.workspace [])))
           Demo.directory EmptyString).
  - reflexivity.
  - vm_compute. reflexivity.
Defined.

(** ** [Channels] *)

Section ChannelsFacts.

Context {W : Type} `{!slack.Client W} `{!GoLib}.




End ChannelsFacts.



(** Over the two pages, the filter [GEN,random] keeps the conversation
    [general] (the match is case-insensitive) and not the direct one. *)
Example Channels_pages_ex :
  fst (Channels 5 "GEN,random" Demo.directory (mkState Paged.server []))
  = Return [Demo.general]
  /\ fst (Channels 5 "" Demo.directory (mkState Paged.server []))
     = Return [Demo.general; Demo.direct].
Proof. vm_compute. split; reflexivity. Qed.

(** ** The calls a program makes *)

Section OnlyCalls.

Context {W : Type}.

Lemma only_calls_silent {A} P (m : M W A) :
  (forall st, calls (trace (snd (m st))) = calls (trace st)) ->
  only_calls P m.
Proof.
  intros Hm st. exists []. rewrite app_nil_r. split; [apply Hm|constructor].
Qed.

Lemma only_calls_ret {A} P (a : A) : only_calls P (ret a : M W A).
Proof. apply only_calls_silent. reflexivity. Qed.

Lemma only_calls_panic {A} P msg : only_calls P (panic msg : M W A).
Proof. apply only_calls_silent. reflexivity. Qed.

Lemma only_calls_os_Exit {A} P code : only_calls P (os_Exit code : M W A).
Proof. apply only_calls_silent. reflexivity. Qed.

Lemma only_calls_out_of_fuel {A} P : only_calls P (out_of_fuel : M W A).
Proof. apply only_calls_silent. reflexivity. Qed.

Lemma only_calls_printf P format args :
  only_calls P (printf format args : M W unit).
Proof.
  apply only_calls_silent. intros st. unfold printf, emit. cbn [snd trace].
  rewrite calls_app. apply app_nil_r.
Qed.

Lemma only_calls_println P s : only_calls P (println s : M W unit).
Proof.
  apply only_calls_silent. intros st. unfold println, emit. cbn [snd trace].
  rewrite calls_app. apply app_nil_r.
Qed.

Lemma only_calls_time_Sleep P ms : only_calls P (time_Sleep ms : M W unit).
Proof.
  apply only_calls_silent. intros st. unfold time_Sleep, emit.
  cbn [snd trace]. rewrite calls_app. apply app_nil_r.
Qed.

Lemma only_calls_call {A} (P : slack.Call -> Prop) c (f : W -> A * W) :
  P c -> only_calls P (call c f).
Proof.
  intros Hc st. exists [c]. unfold call. destruct (f (world st)) as [a w].
  cbn [snd trace]. rewrite calls_app. split; [reflexivity|].
  constructor; [exact Hc|constructor].
Qed.

Lemma only_calls_bind {A B} P (m : M W A) (k : A -> M W B) :
  only_calls P m -> (forall a, only_calls P (k a)) -> only_calls P (m ≫= k).
Proof.
  intros Hm Hk st. unfold mbind, M_bind, bind.
  destruct (Hm st) as (cs & Hcs & HP).
  destruct (m st) as [[a| | |] st']; cbn [snd] in *;
    try (exists cs; split; assumption).
  destruct (Hk a st') as (cs' & Hcs' & HP').
  exists (cs ++ cs'). rewrite Hcs', Hcs, app_assoc. split; [reflexivity|].
  apply Forall_app. split; assumption.
Qed.

(** The same, when what the head returns is known to satisfy [Q]. *)
Lemma only_calls_bind_returns {A B} P (Q : A -> Prop) (m : M W A)
    (k : A -> M W B) :
  only_calls P m -> returns_only Q m ->
  (forall a, Q a -> only_calls P (k a)) -> only_calls P (m ≫= k).
Proof.
  intros Hm HQ Hk st. unfold mbind, M_bind, bind.
  destruct (Hm st) as (cs & Hcs & HP). specialize (HQ st).
  destruct (m st) as [[a| | |] st']; cbn [snd] in *;
    try (exists cs; split; assumption).
  destruct (Hk a (HQ a st' eq_refl) st') as (cs' & Hcs' & HP').
  exists (cs ++ cs'). rewrite Hcs', Hcs, app_assoc. split; [reflexivity|].
  apply Forall_app. split; assumption.
Qed.

Lemma only_calls_foldM {A B} P (f : B -> A -> M W B) l :
  (forall b x, In x l -> only_calls P (f b x)) ->
  forall b, only_calls P (foldM f l b).
Proof.
  induction l as [|x l IH]; intros Hf b; cbn [foldM].
  - apply only_calls_ret.
  - apply only_calls_bind; [apply Hf; left; reflexivity|].
    intros b'. apply IH. intros b0 y Hy. apply Hf. right. exact Hy.
Qed.

Lemma only_calls_forM_from {A} P (f : Z -> A -> M W unit) l :
  (forall i x, In x l -> only_calls P (f i x)) ->
  forall i, only_calls P (forM_from f i l).
Proof.
  induction l as [|x l IH]; intros Hf i; cbn [forM_from].
  - apply only_calls_ret.
  - apply only_calls_bind; [apply Hf; left; reflexivity|].
    intros _. apply IH. intros j y Hy. apply Hf. right. exact Hy.
Qed.

Lemma only_calls_weaken {A} (P Q : slack.Call -> Prop) (m : M W A) :
  (forall c, P c -> Q c) -> only_calls P m -> only_calls Q m.
Proof.
  intros HPQ Hm st. destruct (Hm st) as (cs & Hcs & HP).
  exists cs. split; [exact Hcs|]. eapply Forall_impl; eassumption.
Qed.

End OnlyCalls.

Create HintDb only_calls.
#[local] Hint Resolve only_calls_ret only_calls_panic only_calls_os_Exit
  only_calls_out_of_fuel only_calls_printf only_calls_println
  only_calls_time_Sleep : only_calls.

(** One step of a proof about the calls of a program. *)
Ltac calls_step :=
  first
    [ solve [auto 1 with only_calls nocore]
    | apply only_calls_bind; [|intros]
    | match goal with
      | |- only_calls _ (match ?x with _ => _ end) => destruct x
      end ].

Ltac calls_tac := repeat calls_step.

(** ** [Files] *)

Section FilesFacts.

Context {W : Type} `{!slack.Client W} `{!GoLib}.

Lemma only_calls_or_panic {A} P msg (o : option A) :
  only_calls P (or_panic (W:=W) msg o).
Proof. unfold or_panic. calls_tac. Qed.

Lemma only_calls_ratelimitOrPanic P err :
  only_calls P (ratelimitOrPanic (W:=W) err).
Proof. unfold ratelimitOrPanic. calls_tac. Qed.

Hint Resolve only_calls_or_panic only_calls_ratelimitOrPanic : only_calls.

Lemma nonempty_false s : nonempty s = false -> s = EmptyString.
Proof.
  unfold nonempty. destruct (String.eqb_spec s ""); [auto|discriminate].
Qed.

Lemma only_calls_Files_item P s acc f :
  only_calls P (Files_item (W:=W) s acc f).
Proof. unfold Files_item. calls_tac. Qed.

Lemma only_calls_Files_loop n s p : forall acc,
  only_calls (eq (CListFiles p)) (Files_loop n s p acc).
Proof.
  induction n as [|n IH]; intros acc; cbn [Files_loop];
    [auto with only_calls|].
  apply only_calls_bind; [apply only_calls_call; reflexivity|].
  intros [[res p'] err].
  apply only_calls_bind; [destruct err; auto with only_calls|intros _].
  apply only_calls_bind;
    [apply only_calls_foldM; intros; apply only_calls_Files_item|intros acc'].
  apply only_calls_bind; [auto with only_calls|intros q].
  destruct (String.eqb (lf_Cursor q) ""); [auto with only_calls|].
  apply only_calls_bind; [auto with only_calls|intros _]. apply IH.
Qed.

Lemma only_calls_Files_channel fuel s userID acc c :
  only_calls (eq (CListFiles (mkListFiles 100 userID (ch_ID c) EmptyString)))
    (Files_channel fuel s userID acc c).
Proof.
  unfold Files_channel.
  apply (only_calls_bind_returns _
           (eq (mkListFiles 100 userID (ch_ID c) EmptyString))).
  - calls_tac.
  - intros st p st'. destruct (nonempty userID) eqn:Hu.
    + intros [= <- _]. reflexivity.
    + intros [= <- _]. rewrite (nonempty_false _ Hu). reflexivity.
  - intros p <-. apply only_calls_Files_loop.
Qed.

Lemma only_calls_Files fuel s userID channels :
  only_calls
    (fun call =>
       exists c, In c channels
                 /\ call = CListFiles
                             (mkListFiles 100 userID (ch_ID c) EmptyString))
    (Files fuel s userID channels).
Proof.
  unfold Files. apply only_calls_bind; [|intros [found files]; calls_tac].
  apply only_calls_foldM. intros acc c Hc.
  eapply only_calls_weaken; [|apply only_calls_Files_channel].
  intros call <-. exists c. auto.
Qed.

(** The loop over the files of a page never fails and makes no call. *)
Lemma Files_item_fold s res : forall found files (st : State W),
  exists found' st',
    foldM (Files_item s) res (found, files) st
    = (Return (found',
               files
               ++ List.filter (fun f => file_Created f <? beforeTSUnix s) res),
       st')
    /\ world st' = world st /\ calls (trace st') = calls (trace st).
Proof.
  induction res as [|f res IH]; intros found files st.
  - exists found, st. simpl. rewrite app_nil_r. auto.
  - cbn [foldM List.filter].
    pose proof (Files_item_selects s (found, files) f st) as Hitem.
    cbn [fst snd] in Hitem.
    destruct (file_Created f <? beforeTSUnix s);
      rewrite (bind_Return _ _ st _ _ Hitem).
    + edestruct (IH (incr found) (files ++ [f])) as (f2 & st2 & Hr & Hw & Hc).
      exists f2, st2. rewrite Hr, <- app_assoc. split; [reflexivity|].
      split; [exact Hw|]. rewrite Hc. cbn [trace]. rewrite calls_app.
      apply app_nil_r.
    + destruct (IH found files st) as (f2 & st2 & Hr & Hw & Hc).
      exists f2, st2. auto.
Qed.

End FilesFacts.

Section FilesRuns.

Context {W : Type} `{!slack.Client W} `{!GoLib}.

(** One turn of the loop of [Files] on an answer without error: the files
    of the page are filtered, and the cursor of the answer decides. *)
Lemma Files_loop_page n s p found files (st : State W) res q w1 :
  ListFiles p (world st) = ((res, Some q, None), w1) ->
  exists found' st1,
    world st1 = w1
    /\ calls (trace st1) = calls (trace st) ++ [CListFiles p]
    /\ Files_loop (S n) s p (found, files) st
       = (if String.eqb (lf_Cursor q) ""
          then ret
          else fun acc =>
                 printf "Fetching more files (cursor: %s , files: %d)\n"
                   [AStr (lf_Cursor q); AInt (len (snd acc))];;
                 Files_loop n s p acc)
           (found',
            files
            ++ List.filter (fun f => file_Created f <? beforeTSUnix s) res)
           st1.
Proof.
  intros Hcall. cbn [Files_loop].
  unfold mbind at 1, M_bind, bind, call. rewrite Hcall.
  unfold mbind at 1, M_bind, bind, ret.
  edestruct (Files_item_fold (W:=W) s res found files) as (f1 & st1 & Hr & Hw & Hc).
  rewrite (bind_Return _ _ _ _ st1 Hr).
  exists f1, st1. cbn [world trace] in Hw, Hc. rewrite calls_app in Hc.
  split; [exact Hw|]. split; [exact Hc|].
  unfold mbind at 1, M_bind, bind, or_panic, ret.
  destruct (String.eqb (lf_Cursor q) ""); reflexivity.
Qed.

Lemma Files_loop_spins (I : W -> Prop) s p :
  (forall w, I w ->
     exists res q w',
       ListFiles p w = ((res, Some q, None), w')
       /\ lf_Cursor q <> EmptyString /\ I w') ->
  forall n acc (st : State W), I (world st) ->
    fst (Files_loop n s p acc st) = OutOfFuel
    /\ calls (trace (snd (Files_loop n s p acc st)))
       = calls (trace st) ++ repeat (CListFiles p) n.
Proof.
  intros Hserver. induction n as [|n IH]; intros [found files] st HI.
  - cbn. rewrite app_nil_r. auto.
  - destruct (Hserver _ HI) as (res & q & w' & Hcall & Hq & HI').
    destruct (Files_loop_page n s p found files st res q w' Hcall)
      as (f1 & st1 & Hw1 & Hc1 & ->).
    apply String.eqb_neq in Hq. rewrite Hq.
    unfold printf. rewrite (bind_emit _ _ st1).
    match goal with
    | |- context [Files_loop n s p ?a ?st'] =>
        destruct (IH a st') as [Hout Hcalls];
          [cbn [world]; rewrite Hw1; exact HI'|]
    end.
    split; [exact Hout|].
    rewrite Hcalls. cbn [trace repeat]. rewrite calls_app, Hc1. simpl.
    rewrite app_nil_r, <- app_assoc. reflexivity.
Qed.

Lemma Files_channel_page n s userID found files c (st : State W) res q w1 :
  ListFiles (mkListFiles 100 userID (ch_ID c) EmptyString) (world st)
  = ((res, Some q, None), w1) ->
  lf_Cursor q = EmptyString ->
  exists found' st1,
    Files_channel (S n) s userID (found, files) c st
    = (Return (found',
               files
               ++ List.filter (fun f => file_Created f <? beforeTSUnix s) res),
       st1)
    /\ world st1 = w1.
Proof.
  intros Hcall Hq. unfold Files_channel.
  cbn [lf_Limit lf_Channel lf_Cursor].
  destruct (nonempty userID) eqn:Hu.
  - unfold mbind at 1 2, M_bind, bind, printf, emit, ret.
    match goal with
    | |- context [Files_loop (S n) s ?p ?a ?st0] =>
        destruct (Files_loop_page n s p found files st0 res q w1 Hcall)
          as (f1 & st1 & Hw1 & _ & ->)
    end.
    rewrite Hq. cbn [String.eqb]. exists f1, st1. auto.
  - rewrite (nonempty_false _ Hu) in *.
    unfold mbind at 1, M_bind, bind, ret.
    destruct (Files_loop_page n s _ found files st res q w1 Hcall)
      as (f1 & st1 & Hw1 & _ & ->).
    rewrite Hq. cbn [String.eqb]. exists f1, st1. auto.
Qed.

Lemma Files_run userID s w channels pages w' :
  FilesRun userID w channels pages w' ->
  forall n found files (st : State W), world st = w ->
  exists found' st',
    foldM (Files_channel (S n) s userID) channels (found, files) st
    = (Return (found',
               files
               ++ List.filter (fun f => file_Created f <? beforeTSUnix s)
                    (concat pages)), st')
    /\ world st' = w'.
Proof.
  induction 1 as [w|w c res q w1 cs rest w' Hcall Hq Hrest IH];
    intros n found files st Hw.
  - exists found, st. simpl. rewrite app_nil_r. auto.
  - subst w. cbn [foldM].
    destruct (Files_channel_page n s userID found files c st res q w1
                Hcall Hq) as (f1 & st1 & Hr1 & Hw1).
    rewrite (bind_Return _ _ st _ st1 Hr1).
    destruct (IH n f1 (files ++ List.filter
                                  (fun f => file_Created f <? beforeTSUnix s)
                                  res) st1 Hw1)
      as (f2 & st2 & Hr2 & Hw2).
    exists f2, st2. split; [|exact Hw2].
    rewrite Hr2. cbn [concat]. rewrite List.filter_app, app_assoc. reflexivity.
Qed.

End FilesRuns.

(** X8.  Whatever the workspace answers and however the run ends, every
    call that [Files] makes is a [ListFiles] for one of the conversations
    given, with limit 100, the user given and an empty cursor: [Files]
    never sends the cursor of a page it was handed. *)
Theorem Files_never_sends_a_cursor {W : Type} `{!slack.Client W} `{!GoLib}
    (fuel : nat) (s : SlackClean) (userID : string) (channels : list Channel)
    (st : State W) :
  exists cs,
    calls (trace (snd (Files fuel s userID channels st)))
    = calls (trace st) ++ cs
    /\ Forall
         (fun call =>
            exists c, In c channels
                      /\ call = CListFiles
                                  (mkListFiles 100 userID (ch_ID c)
                                     EmptyString))
         cs.
Proof. apply only_calls_Files. Qed.

(** X9.  When the listing of the files of a conversation is answered,
    again and again, with the cursor of a further page, the loop of
    [Files] makes the same first call on every turn and does not end: it
    uses up any fuel, with one call per unit of fuel. *)
Theorem Files_never_ends_on_a_further_page
    {W : Type} `{!slack.Client W} `{!GoLib}
    (I : W -> Prop) (s : SlackClean) (p : ListFilesParameters)
    (acc : Z * list File) (st : State W) (n : nat) :
  (forall w, I w ->
     exists res q w',
       ListFiles p w = ((res, Some q, None), w')
       /\ lf_Cursor q <> EmptyString /\ I w') ->
  I (world st) ->
  fst (Files_loop n s p acc st) = OutOfFuel
  /\ calls (trace (snd (Files_loop n s p acc st)))
     = calls (trace st) ++ repeat (CListFiles p) n.
Proof. intros Hserver HI. apply (Files_loop_spins I); assumption. Qed.

Lemma Files_never_ends_on_a_further_page_witness :
  fst (Files_loop 7 Demo.cutoff (mkListFiles 100 "" "C1" "") (0, [])
         (mkState Paged.server []))
  = OutOfFuel
  /\ calls (trace (snd (Files_loop 7 Demo.cutoff (mkListFiles 100 "" "C1" "")
                          (0, []) (mkState Paged.server []))))
     = calls [] ++ repeat (CListFiles (mkListFiles 100 "" "C1" "")) 7.
Proof.
  apply (Files_never_ends_on_a_further_page (fun w => w = Paged.server)
           Demo.cutoff (mkListFiles 100 "" "C1" "") (0, [])
           (mkState Paged.server []) 7).
  - intros w ->. do 3 eexists. split; [vm_compute; reflexivity|].
    split; [discriminate|reflexivity].
  - reflexivity.
Defined.

(** X10.  When the listing of every conversation is answered in one page,
    [Files] returns, with fuel for one turn, exactly the files of these
    pages, in order, that were created before the cutoff, to the second:
    a file created at the cutoff or later is never selected, and the owner
    of a file is not looked at. *)
Theorem Files_selects_older_files {W : Type} `{!slack.Client W} `{!GoLib}
    (fuel : nat) (s : SlackClean) (userID : string) (channels : list Channel)
    (pages : list (list File)) (st : State W) (w' : W) :
  FilesRun userID (world st) channels pages w' ->
  exists st',
    Files (S fuel) s userID channels st
    = (Return (List.filter (fun f => file_Created f <? beforeTSUnix s)
                 (concat pages)), st')
    /\ world st' = w'.
Proof.
  intros Hrun. unfold Files.
  destruct (Files_run userID s _ _ _ _ Hrun fuel 0 [] st eq_refl)
    as (f1 & st1 & Hr & Hw).
  rewrite (bind_Return _ _ st _ st1 Hr).
  eexists. split; [reflexivity|exact Hw].
Qed.

Lemma Files_selects_older_files_witness :
  exists st',
    Files 1 Demo.cutoff "" [Demo.general] (mkState Paged.one_page [])
    = (Return (List.filter
                 (fun f => file_Created f <? beforeTSUnix Demo.cutoff)
                 (concat [[Demo.file_before; Demo.file_at_cutoff]])), st')
    /\ world st' = Paged.one_page.
Proof.
  apply (Files_selects_older_files 0 Demo.cutoff "" [Demo.general]
           [[Demo.file_before; Demo.file_at_cutoff]]
           (mkState Paged.one_page []) Paged.one_page).
  eapply files_cons; [vm_compute; reflexivity|reflexivity|apply files_nil].
Defined.

(** ** [Messages] *)

Section MessagesFacts.

Context {W : Type} `{!slack.Client W} `{!GoLib}.

(** A message that is not the root of a thread: kept or selected by the
    two tests, with no call. *)
Lemma Messages_item_plain fuel s c userID clean last a m (st : State W) :
  decodable m -> thread_root m = false ->
  exists a' st',
    Messages_item fuel s c userID clean last a m st = (Return a', st')
    /\ messagesToDelete a'
       = messagesToDelete a
         ++ (if passes_filters s userID m then [setChannel (ch_ID c) m]
             else [])
    /\ world st' = world st.
Proof.
  intros Hdec Hroot. unfold passes_filters.
  destruct (nonempty userID && String.eqb (msg_User m) userID) eqn:Hauthor.
  - unfold Messages_item. rewrite Hauthor. do 2 eexists.
    split; [reflexivity|]. cbn. rewrite app_nil_r. auto.
  - destruct (GoString.gt (msg_Timestamp m) (beforeTS s)) eqn:Htime.
    + rewrite (Messages_item_after_cutoff fuel s c userID clean last a m st
                 Htime).
      do 2 eexists. split; [reflexivity|]. cbn. rewrite app_nil_r. auto.
    + cbn [negb andb].
      apply (Messages_item_selected fuel s c userID clean last a m st
               Hauthor Htime Hroot Hdec).
Qed.

Lemma Messages_item_fold fuel s c userID clean last ms :
  forall a (st : State W),
  Forall (fun m => decodable m /\ thread_root m = false) ms ->
  exists a' st',
    foldM (Messages_item fuel s c userID clean last) ms a st = (Return a', st')
    /\ messagesToDelete a'
       = messagesToDelete a
         ++ map (setChannel (ch_ID c))
              (List.filter (passes_filters s userID) ms)
    /\ world st' = world st.
Proof.
  induction ms as [|m ms IH]; intros a st Hall.
  - exists a, st. simpl. rewrite app_nil_r. auto.
  - apply Forall_cons in Hall as [[Hdec Hroot] Hall].
    destruct (Messages_item_plain fuel s c userID clean last a m st Hdec Hroot)
      as (a1 & st1 & Hr1 & Hs1 & Hw1).
    destruct (IH a1 st1 Hall) as (a2 & st2 & Hr2 & Hs2 & Hw2).
    exists a2, st2. cbn [foldM List.filter].
    rewrite (bind_Return _ _ st a1 st1 Hr1).
    split; [exact Hr2|]. split; [|congruence].
    rewrite Hs2, Hs1. destruct (passes_filters s userID m);
      cbn [map]; rewrite <- app_assoc; reflexivity.
Qed.

Lemma Messages_loop_run s c userID clean w cursor pages w' :
  HistoryRun (ch_ID c) w cursor pages w' ->
  Forall (fun m => decodable m /\ thread_root m = false) (concat pages) ->
  exists n0, forall n, (n0 <= n)%nat ->
    forall fuel last a (st : State W), world st = w ->
    exists a' st',
      Messages_loop n fuel s c userID clean cursor last a st = (Return a', st')
      /\ messagesToDelete a'
         = messagesToDelete a
           ++ map (setChannel (ch_ID c))
                (List.filter (passes_filters s userID) (concat pages))
      /\ world st' = w'.
Proof.
  induction 1 as [w cursor res w' Hcall Hmore
                 |w cursor res w1 pages w' Hcall Hmore Hrest IH
                 |w cursor err w1 pages w' Hcall Hrl Hrest IH]; intros Hall.
  - exists 1%nat. intros [|n] Hn fuel last a st Hw; [lia|]. subst w.
    simpl in Hall. rewrite app_nil_r in Hall.
    cbn [Messages_loop]. unfold mbind at 1, M_bind, bind, call. rewrite Hcall.
    edestruct (Messages_item_fold fuel s c userID clean last (hr_Messages res) a)
      as (a1 & st1 & Hr1 & Hs1 & Hw1); [exact Hall|].
    rewrite (bind_Return _ _ _ a1 st1 Hr1). rewrite Hmore. cbn [negb].
    exists a1, st1. split; [reflexivity|]. split; [|rewrite Hw1; reflexivity].
    rewrite Hs1. simpl. rewrite app_nil_r. reflexivity.
  - simpl in Hall. apply Forall_app in Hall as [Hall1 Hall2].
    destruct (IH Hall2) as (n0 & Hn0).
    exists (S n0). intros [|n] Hn fuel last a st Hw; [lia|]. subst w.
    cbn [Messages_loop]. unfold mbind at 1, M_bind, bind, call. rewrite Hcall.
    edestruct (Messages_item_fold fuel s c userID clean last (hr_Messages res) a)
      as (a1 & st1 & Hr1 & Hs1 & Hw1); [exact Hall1|].
    rewrite (bind_Return _ _ _ a1 st1 Hr1). rewrite Hmore. cbn [negb].
    assert (n0 <= n)%nat as Hn' by lia.
    assert (exists st1' : State W,
               (if found a1 =? last then printf "." []
                else
                  printf
                    "Fetching more messages for channel ID %s (cursor: %s , messages: %d)\n"
                    [AStr (ch_ID c); AStr (hr_NextCursor res);
                     AInt (len (messagesToDelete a1))]) st1
               = (Return tt, st1') /\ world st1' = w1)
      as (st1' & Hr1' & Hw1').
    { destruct (found a1 =? last); eexists; (split; [reflexivity|]);
        cbn [world]; rewrite Hw1; reflexivity. }
    rewrite (bind_Return _ _ st1 tt st1' Hr1').
    destruct (Hn0 n Hn' fuel (found a1) a1 st1' Hw1')
      as (a2 & st2 & Hr2 & Hs2 & Hw2).
    exists a2, st2. split; [exact Hr2|]. split; [|exact Hw2].
    rewrite Hs2, Hs1. cbn [concat].
    rewrite List.filter_app, map_app, <- app_assoc. reflexivity.
  - destruct (IH Hall) as (n0 & Hn0).
    exists (S n0). intros [|n] Hn fuel last a st Hw; [lia|]. subst w.
    rewrite (Messages_loop_retry n fuel s c userID clean cursor last a st err
               w1 Hcall Hrl).
    apply Hn0; [lia|reflexivity].
Qed.

Lemma Messages_channels_run s userID clean w channels histories w' :
  HistoriesRun w channels histories w' ->
  Forall (fun m => decodable m /\ thread_root m = false)
    (concat (concat histories)) ->
  exists n0, forall fuel, (n0 <= fuel)%nat ->
    forall i a (st : State W), world st = w ->
    exists i' a' st',
      foldM (Messages_channel fuel s userID clean) channels (i, a) st
      = (Return (i', a'), st')
      /\ messagesToDelete a'
         = messagesToDelete a ++ harvest_of s userID channels histories
      /\ world st' = w'.
Proof.
  induction 1 as [w|w c pages w1 cs rest w' Hhist Hrest IH]; intros Hall.
  - exists 0%nat. intros fuel _ i a st Hw. exists i, a, st.
    unfold harvest_of. simpl. rewrite app_nil_r. auto.
  - cbn [concat] in Hall. rewrite concat_app in Hall.
    apply Forall_app in Hall as [Hall1 Hall2].
    destruct (IH Hall2) as (n1 & Hn1).
    destruct (Messages_loop_run s c userID clean _ _ _ _ Hhist Hall1)
      as (n0 & Hn0).
    exists (n0 + n1)%nat. intros fuel Hfuel i a st Hw. subst w.
    assert (exists a1 st1,
               Messages_channel fuel s userID clean (i, a) c st
               = (Return (i + 1, a1), st1)
               /\ messagesToDelete a1
                  = messagesToDelete a
                    ++ map (setChannel (ch_ID c))
                         (List.filter (passes_filters s userID) (concat pages))
               /\ world st1 = w1) as (a1 & st1 & Hr1 & Hs1 & Hw1).
    { unfold Messages_channel, printf. rewrite (bind_emit _ _ st).
      match goal with
      | |- context [(Messages_loop fuel fuel s c userID clean ?cur ?l a ≫= _)
                      ?st0] =>
          destruct (Hn0 fuel ltac:(lia) fuel l a st0 eq_refl)
            as (a1 & st1 & Hr1 & Hs1 & Hw1)
      end.
      exists a1, st1. rewrite (bind_Return _ _ _ a1 st1 Hr1). auto. }
    cbn [foldM]. rewrite (bind_Return _ _ st _ st1 Hr1).
    destruct (Hn1 fuel ltac:(lia) (i + 1) a1 st1 Hw1)
      as (i2 & a2 & st2 & Hr2 & Hs2 & Hw2).
    exists i2, a2, st2. split; [exact Hr2|]. split; [|exact Hw2].
    rewrite Hs2, Hs1. unfold harvest_of. cbn [combine map concat fst snd].
    rewrite <- app_assoc. reflexivity.
Qed.

End MessagesFacts.

(** X11.  [Messages] harvests every page of every conversation: when the
    remote side hands out the histories in pages (turning calls down as
    rate limited in between or not) and no message is the root of a
    thread, [Messages] returns, given fuel for the calls, exactly the
    messages that pass its two tests (not of the user given, when one is
    given, and not after the cutoff as a text), conversation by
    conversation and page by page in order, each stamped with the id of
    its conversation. *)
Theorem Messages_harvests_all_pages {W : Type} `{!slack.Client W} `{!GoLib}
    (s : SlackClean) (userID : string) (clean : Regexp)
    (channels : list Channel) (histories : list (list (list Message)))
    (st : State W) (w' : W) :
  regexp_Compile "[\r\n\t]+" = inl clean ->
  HistoriesRun (world st) channels histories w' ->
  Forall (fun m => decodable m /\ thread_root m = false)
    (concat (concat histories)) ->
  exists n0, forall fuel, (n0 <= fuel)%nat ->
    exists st',
      Messages fuel s channels userID st
      = (Return (harvest_of s userID channels histories), st')
      /\ world st' = w'.
Proof.
  intros Hclean Hrun Hall.
  destruct (Messages_channels_run s userID clean _ _ _ _ Hrun Hall)
    as (n0 & Hn0).
  exists n0. intros fuel Hfuel. unfold Messages, regexp_MustCompile.
  rewrite Hclean. rewrite (bind_Return _ _ st clean st eq_refl).
  destruct (Hn0 fuel Hfuel 0 (mkMsgAcc 0 0 0 []) st eq_refl)
    as (i1 & a1 & st1 & Hr1 & Hs1 & Hw1).
  rewrite (bind_Return _ _ st _ st1 Hr1).
  eexists. split.
  - unfold mbind, M_bind, bind, printf, emit, ret. rewrite Hs1. reflexivity.
  - exact Hw1.
Qed.

Lemma Messages_harvests_all_pages_witness :
  exists n0, forall fuel, (n0 <= fuel)%nat ->
    exists st',
      Messages fuel Demo.cutoff [Demo.general] "" (mkState Paged.server [])
      = (Return (harvest_of Demo.cutoff "" [Demo.general]
                   [[[Demo.old_by_alice; Demo.new_by_bob]; [Demo.old_by_bob]]]),
         st')
      /\ world st' = Paged.server.
Proof.
  apply (Messages_harvests_all_pages Demo.cutoff "" Demo.clean [Demo.general]
           [[[Demo.old_by_alice; Demo.new_by_bob]; [Demo.old_by_bob]]]
           (mkState Paged.server []) Paged.server).
  - reflexivity.
  - eapply histories_cons; [|apply histories_nil].
    eapply (history_more (W:=Paged.Server)) with
      (res := mkHistory [Demo.old_by_alice; Demo.new_by_bob] true "1");
      [vm_compute; reflexivity|reflexivity|].
    eapply (history_last (W:=Paged.Server)) with
      (res := mkHistory [Demo.old_by_bob] false "");
      [vm_compute; reflexivity|reflexivity].
  - repeat constructor; unfold decodable; vm_compute; discriminate.
Defined.

(** Over the two pages of history, the messages of before the cutoff are
    selected and the one after it is not. *)
Example Messages_pages_ex :
  fst (Messages 5 Demo.cutoff [Demo.general] "" (mkState Paged.server []))
  = Return [Demo.old_by_alice; Demo.old_by_bob]
  /\ harvest_of Demo.cutoff "" [Demo.general]
       [[[Demo.old_by_alice; Demo.new_by_bob]; [Demo.old_by_bob]]]
     = [Demo.old_by_alice; Demo.old_by_bob].
Proof. vm_compute. split; reflexivity. Qed.
(** ** The harvest of conversations with threads *)

Section ThreadedHarvest.

Context {W : Type} `{!slack.Client W} `{!GoLib}.

(** A message that does not pass the two tests is kept: nothing is
    appended and no call is made, whatever the message is. *)
Lemma Messages_item_kept fuel s c userID clean last a m (st : State W) :
  passes_filters s userID m = false ->
  Messages_item fuel s c userID clean last a m st
  = (Return (mkMsgAcc (found a) (incr (keep a)) (incr (total a))
               (messagesToDelete a)), st).
Proof.
  unfold passes_filters. intros Hpass.
  destruct (nonempty userID && String.eqb (msg_User m) userID) eqn:Hauthor.
  - unfold Messages_item. rewrite Hauthor. reflexivity.
  - cbn [negb andb] in Hpass. apply negb_false_iff in Hpass.
    apply Messages_item_after_cutoff. exact Hpass.
Qed.

Lemma passes_filters_true s userID m :
  passes_filters s userID m = true ->
  nonempty userID && String.eqb (msg_User m) userID = false
  /\ GoString.gt (msg_Timestamp m) (beforeTS s) = false.
Proof.
  unfold passes_filters. intros Hpass.
  apply andb_true_iff in Hpass as [Hauthor Htime].
  apply negb_true_iff in Hauthor, Htime. auto.
Qed.

Lemma thread_root_true m :
  thread_root m = true ->
  msg_ThreadTimestamp m <> EmptyString
  /\ msg_Timestamp m = msg_ThreadTimestamp m.
Proof.
  unfold thread_root, nonempty. intros Hroot.
  apply andb_true_iff in Hroot as [Hne Heq].
  apply String.eqb_eq in Heq. split; [|exact Heq].
  destruct (String.eqb_spec (msg_ThreadTimestamp m) ""); [discriminate|].
  assumption.
Qed.

(** The loop over the messages of a page: what is appended is what comes
    of every message and its replies, in order. *)
Lemma Messages_items_run s c userID clean w items w' :
  ThreadsRun s userID (ch_ID c) w items w' ->
  Forall (decodable_item s userID) items ->
  exists n0, forall fuel, (n0 <= fuel)%nat ->
    forall last a (st : State W), world st = w ->
    exists a' st',
      foldM (Messages_item fuel s c userID clean last) (map fst items) a st
      = (Return a', st')
      /\ messagesToDelete a'
         = messagesToDelete a
           ++ concat (map (expand s userID (ch_ID c)) items)
      /\ world st' = w'.
Proof.
  induction 1 as [w|w m items w' Hask Hrest IH
                 |w m pages w1 items w' Hask Hreplies Hrest IH];
    intros Hdec.
  - exists 0%nat. intros fuel _ last a st Hw. exists a, st.
    simpl. rewrite app_nil_r. auto.
  - apply Forall_cons in Hdec as [Hm Hdec].
    destruct (IH Hdec) as (n0 & Hn0).
    exists n0. intros fuel Hfuel last a st Hw. subst w.
    cbn [map fst foldM concat]. unfold expand at 1. cbn [fst snd concat map].
    destruct (passes_filters s userID m) eqn:Hpass.
    + unfold asks_replies in Hask. rewrite Hpass in Hask. cbn [andb] in Hask.
      destruct (Hm Hpass) as [Hdm _].
      destruct (Messages_item_plain fuel s c userID clean last a m st Hdm Hask)
        as (a1 & st1 & Hr1 & Hs1 & Hw1).
      rewrite Hpass in Hs1.
      rewrite (bind_Return _ _ st a1 st1 Hr1).
      destruct (Hn0 fuel Hfuel last a1 st1 Hw1)
        as (a2 & st2 & Hr2 & Hs2 & Hw2).
      exists a2, st2. split; [exact Hr2|]. split; [|exact Hw2].
      rewrite Hs2, Hs1, <- app_assoc. reflexivity.
    + rewrite (bind_Return _ _ st _ st
                 (Messages_item_kept fuel s c userID clean last a m st Hpass)).
      destruct (Hn0 fuel Hfuel last
                  (mkMsgAcc (found a) (incr (keep a)) (incr (total a))
                     (messagesToDelete a)) st eq_refl)
        as (a2 & st2 & Hr2 & Hs2 & Hw2).
      exists a2, st2. split; [exact Hr2|]. split; [|exact Hw2].
      rewrite Hs2. reflexivity.
  - apply Forall_cons in Hdec as [Hm Hdec].
    destruct (IH Hdec) as (n1 & Hn1).
    unfold asks_replies in Hask. apply andb_true_iff in Hask as [Hpass Hroot].
    destruct (Hm Hpass) as [Hdm Hdr]. cbn [snd] in Hdr.
    destruct (passes_filters_true _ _ _ Hpass) as [Hauthor Htime].
    destruct (thread_root_true _ Hroot) as [Hne Hself].
    destruct (Messages_item_thread s c userID clean m w pages w1
                Hauthor Htime Hne Hself Hdm Hdr Hreplies) as (n0 & Hn0).
    exists (n0 + n1)%nat. intros fuel Hfuel last a st Hw.
    destruct (Hn0 fuel ltac:(lia) last a st Hw)
      as (a1 & st1 & Hr1 & Hs1 & Hw1).
    cbn [map fst foldM concat]. unfold expand at 1. cbn [fst snd].
    rewrite Hpass. rewrite (bind_Return _ _ st a1 st1 Hr1).
    destruct (Hn1 fuel ltac:(lia) last a1 st1 Hw1)
      as (a2 & st2 & Hr2 & Hs2 & Hw2).
    exists a2, st2. split; [exact Hr2|]. split; [|exact Hw2].
    rewrite Hs2, Hs1, <- app_assoc. reflexivity.
Qed.

(** The loop over the pages of the history of a conversation. *)
Lemma Messages_loop_threads s c userID clean w cursor pages w' :
  ThreadedHistoryRun s userID (ch_ID c) w cursor pages w' ->
  Forall (decodable_item s userID) (concat pages) ->
  exists n0, forall n fuel, (n0 <= n)%nat -> (n0 <= fuel)%nat ->
    forall last a (st : State W), world st = w ->
    exists a' st',
      Messages_loop n fuel s c userID clean cursor last a st = (Return a', st')
      /\ messagesToDelete a'
         = messagesToDelete a
           ++ concat (map (expand s userID (ch_ID c)) (concat pages))
      /\ world st' = w'.
Proof.
  induction 1 as [w cursor res items w1 w' Hcall Hpage Hitems Hmore
                 |w cursor res items w1 w2 pages w' Hcall Hpage Hitems Hmore
                    Hrest IH
                 |w cursor err w1 pages w' Hcall Hrl Hrest IH]; intros Hdec.
  - cbn [concat] in Hdec. rewrite app_nil_r in Hdec.
    destruct (Messages_items_run s c userID clean _ _ _ Hitems Hdec)
      as (n0 & Hn0).
    exists (S n0). intros [|n] fuel Hn Hfuel last a st Hw; [lia|]. subst w.
    cbn [Messages_loop]. unfold mbind at 1, M_bind, bind, call.
    rewrite Hcall, Hpage.
    edestruct (Hn0 fuel ltac:(lia) last a) as (a1 & st1 & Hr1 & Hs1 & Hw1);
      [|rewrite (bind_Return _ _ _ a1 st1 Hr1)]; [reflexivity|].
    rewrite Hmore. cbn [negb].
    exists a1, st1. split; [reflexivity|]. split; [|exact Hw1].
    rewrite Hs1. cbn [concat]. rewrite app_nil_r. reflexivity.
  - cbn [concat] in Hdec. apply Forall_app in Hdec as [Hdec1 Hdec2].
    destruct (Messages_items_run s c userID clean _ _ _ Hitems Hdec1)
      as (n0 & Hn0).
    destruct (IH Hdec2) as (n1 & Hn1).
    exists (S (n0 + n1)). intros [|n] fuel Hn Hfuel last a st Hw; [lia|].
    subst w. cbn [Messages_loop]. unfold mbind at 1, M_bind, bind, call.
    rewrite Hcall, Hpage.
    edestruct (Hn0 fuel ltac:(lia) last a) as (a1 & st1 & Hr1 & Hs1 & Hw1);
      [|rewrite (bind_Return _ _ _ a1 st1 Hr1)]; [reflexivity|].
    rewrite Hmore. cbn [negb].
    assert (exists st1' : State W,
               (if found a1 =? last then printf "." []
                else
                  printf
                    "Fetching more messages for channel ID %s (cursor: %s , messages: %d)\n"
                    [AStr (ch_ID c); AStr (hr_NextCursor res);
                     AInt (len (messagesToDelete a1))]) st1
               = (Return tt, st1') /\ world st1' = w2)
      as (st1' & Hr1' & Hw1').
    { destruct (found a1 =? last); eexists; (split; [reflexivity|]);
        cbn [world]; exact Hw1. }
    rewrite (bind_Return _ _ st1 tt st1' Hr1').
    destruct (Hn1 n fuel ltac:(lia) ltac:(lia) (found a1) a1 st1' Hw1')
      as (a2 & st2 & Hr2 & Hs2 & Hw2).
    exists a2, st2. split; [exact Hr2|]. split; [|exact Hw2].
    rewrite Hs2, Hs1. cbn [concat]. rewrite map_app, concat_app, <- app_assoc.
    reflexivity.
  - destruct (IH Hdec) as (n0 & Hn0).
    exists (S n0). intros [|n] fuel Hn Hfuel last a st Hw; [lia|]. subst w.
    rewrite (Messages_loop_retry n fuel s c userID clean cursor last a st err
               w1 Hcall Hrl).
    apply Hn0; [lia|lia|reflexivity].
Qed.

(** The loop over the conversations. *)
Lemma Messages_channels_threads s userID clean w channels answers w' :
  HarvestRun s userID w channels answers w' ->
  Forall (decodable_item s userID) (concat (concat answers)) ->
  exists n0, forall fuel, (n0 <= fuel)%nat ->
    forall i a (st : State W), world st = w ->
    exists i' a' st',
      foldM (Messages_channel fuel s userID clean) channels (i, a) st
      = (Return (i', a'), st')
      /\ messagesToDelete a'
         = messagesToDelete a ++ deletion_set s userID channels answers
      /\ world st' = w'.
Proof.
  induction 1 as [w|w c pages w1 cs rest w' Hhist Hrest IH]; intros Hdec.
  - exists 0%nat. intros fuel _ i a st Hw. exists i, a, st.
    unfold deletion_set. simpl. rewrite app_nil_r. auto.
  - cbn [concat] in Hdec. rewrite concat_app in Hdec.
    apply Forall_app in Hdec as [Hdec1 Hdec2].
    destruct (IH Hdec2) as (n1 & Hn1).
    destruct (Messages_loop_threads s c userID clean _ _ _ _ Hhist Hdec1)
      as (n0 & Hn0).
    exists (n0 + n1)%nat. intros fuel Hfuel i a st Hw. subst w.
    assert (exists a1 st1,
               Messages_channel fuel s userID clean (i, a) c st
               = (Return (i + 1, a1), st1)
               /\ messagesToDelete a1
                  = messagesToDelete a
                    ++ concat (map (expand s userID (ch_ID c)) (concat pages))
               /\ world st1 = w1) as (a1 & st1 & Hr1 & Hs1 & Hw1).
    { unfold Messages_channel, printf. rewrite (bind_emit _ _ st).
      match goal with
      | |- context [(Messages_loop fuel fuel s c userID clean ?cur ?l a ≫= _)
                      ?st0] =>
          destruct (Hn0 fuel fuel ltac:(lia) ltac:(lia) l a st0 eq_refl)
            as (a1 & st1 & Hr1 & Hs1 & Hw1)
      end.
      exists a1, st1. rewrite (bind_Return _ _ _ a1 st1 Hr1). auto. }
    cbn [foldM]. rewrite (bind_Return _ _ st _ st1 Hr1).
    destruct (Hn1 fuel ltac:(lia) (i + 1) a1 st1 Hw1)
      as (i2 & a2 & st2 & Hr2 & Hs2 & Hw2).
    exists i2, a2, st2. split; [exact Hr2|]. split; [|exact Hw2].
    rewrite Hs2, Hs1. unfold deletion_set. cbn [combine map concat fst snd].
    rewrite <- app_assoc. reflexivity.
Qed.

(** In the deletion set, what comes of a message that passes the tests
    stands in one piece: the message and then its replies. *)
Lemma deletion_set_block s userID channels answers c pages m replies :
  In (c, pages) (combine channels answers) ->
  In (m, replies) (concat pages) ->
  passes_filters s userID m = true ->
  exists before after,
    deletion_set s userID channels answers
    = before
      ++ setChannel (ch_ID c) m
         :: map (setChannel (ch_ID c)) (concat replies) ++ after.
Proof.
  intros Hc Hm Hpass. unfold deletion_set.
  apply in_split in Hc as (l1 & l2 & ->).
  rewrite map_app, concat_app. cbn [map concat fst snd].
  apply in_split in Hm as (i1 & i2 & ->).
  rewrite map_app, concat_app. cbn [map concat].
  assert (expand s userID (ch_ID c) (m, replies)
          = setChannel (ch_ID c) m
            :: map (setChannel (ch_ID c)) (concat replies)) as ->
    by (unfold expand; cbn [fst snd]; rewrite Hpass; reflexivity).
  exists (concat
            (map (fun ch : Channel * list (list (Message * list (list Message)))
                  => concat (map (expand s userID (ch_ID (fst ch)))
                               (concat (snd ch)))) l1)
          ++ concat (map (expand s userID (ch_ID c)) i1)).
  eexists. rewrite <- !app_assoc. cbn [app]. rewrite <- ?app_assoc.
  reflexivity.
Qed.

End ThreadedHarvest.

(** C5 (as amended).  When the time stamps of the messages that pass the
    two tests, and of their replies, decode: [Messages] returns, given
    fuel for the calls, the deletion set in which every message that
    passes the tests stands, stamped with the id of its conversation, and
    right after it, when it is the root of a thread, every reply of every
    page that the remote side hands out for the thread (rate-limited calls
    in between are made again), in order and once for each time it is
    listed, stamped with the id of the conversation, with no test on the
    author or the time of a reply.  Nothing removes duplicates: a reply
    that the history lists as well is selected there once more. *)
Theorem thread_replies_follow_their_root
    {W : Type} `{!slack.Client W} `{!GoLib}
    (s : SlackClean) (userID : string) (clean : Regexp)
    (channels : list Channel)
    (answers : list (list (list (Message * list (list Message)))))
    (st : State W) (w' : W) :
  regexp_Compile "[\r\n\t]+" = inl clean ->
  HarvestRun s userID (world st) channels answers w' ->
  Forall (decodable_item s userID) (concat (concat answers)) ->
  exists n0, forall fuel, (n0 <= fuel)%nat ->
    exists messages st',
      Messages fuel s channels userID st = (Return messages, st')
      /\ world st' = w'
      /\ messages = deletion_set s userID channels answers
      /\ forall c pages m replies,
           In (c, pages) (combine channels answers) ->
           In (m, replies) (concat pages) ->
           passes_filters s userID m = true ->
           exists before after,
             messages
             = before
               ++ setChannel (ch_ID c) m
                  :: map (setChannel (ch_ID c)) (concat replies) ++ after.
Proof.
  intros Hclean Hrun Hdec.
  destruct (Messages_channels_threads s userID clean _ _ _ _ Hrun Hdec)
    as (n0 & Hn0).
  exists n0. intros fuel Hfuel.
  destruct (Hn0 fuel Hfuel 0 (mkMsgAcc 0 0 0 []) st eq_refl)
    as (i1 & a1 & st1 & Hr1 & Hs1 & Hw1).
  cbn [messagesToDelete app] in Hs1.
  exists (deletion_set s userID channels answers).
  unfold Messages, regexp_MustCompile. rewrite Hclean.
  rewrite (bind_Return _ _ st clean st eq_refl).
  rewrite (bind_Return _ _ st _ st1 Hr1).
  eexists. split.
  - unfold mbind, M_bind, bind, printf, emit, ret. rewrite Hs1. reflexivity.
  - split; [exact Hw1|]. split; [reflexivity|].
    intros c pages m replies Hc Hm Hpass.
    exact (deletion_set_block s userID channels answers c pages m replies
             Hc Hm Hpass).
Qed.

Lemma thread_replies_follow_their_root_witness :
  let answers :=
    [[[(setChannel "" Demo.old_by_alice, []);
       (setChannel "" Demo.root_by_bob,
        [[setChannel "" Demo.late_reply_by_alice]]);
       (setChannel "" Demo.at_cutoff_by_bob, []);
       (setChannel "" Demo.new_by_bob, [])]]] in
  exists n0, forall fuel, (n0 <= fuel)%nat ->
    exists messages st',
      Messages fuel Demo.cutoff [Demo.general] "" (mkState Demo.workspace [])
      = (Return messages, st')
      /\ world st' = Demo.workspace
      /\ messages = deletion_set Demo.cutoff "" [Demo.general] answers
      /\ forall c pages m replies,
           In (c, pages) (combine [Demo.general] answers) ->
           In (m, replies) (concat pages) ->
           passes_filters Demo.cutoff "" m = true ->
           exists before after,
             messages
             = before
               ++ setChannel (ch_ID c) m
                  :: map (setChannel (ch_ID c)) (concat replies) ++ after.
Proof.
  apply (thread_replies_follow_their_root Demo.cutoff "" Demo.clean
           [Demo.general]
           [[[(setChannel "" Demo.old_by_alice, []);
              (setChannel "" Demo.root_by_bob,
               [[setChannel "" Demo.late_reply_by_alice]]);
              (setChannel "" Demo.at_cutoff_by_bob, []);
              (setChannel "" Demo.new_by_bob, [])]]]
           (mkState Demo.workspace []) Demo.workspace).
  - reflexivity.
  - eapply harvest_cons; [|apply harvest_nil].
    eapply (threaded_last (W:=Fake.Workspace)) with
      (res := mkHistory
                [setChannel "" Demo.old_by_alice;
                 setChannel "" Demo.root_by_bob;
                 setChannel "" Demo.at_cutoff_by_bob;
                 setChannel "" Demo.new_by_bob] false "");
      [vm_compute; reflexivity|reflexivity| |reflexivity].
    apply threads_skip; [vm_compute; reflexivity|].
    eapply threads_root;
      [vm_compute; reflexivity
      |eapply replies_last; vm_compute; reflexivity|].
    apply threads_skip; [vm_compute; reflexivity|].
    apply threads_skip; [vm_compute; reflexivity|].
    apply threads_nil.
  - cbn [concat app].
    repeat (apply List.Forall_cons;
            [intros _; split;
             [unfold decodable; vm_compute; discriminate
             |cbn [snd concat app];
              repeat (apply List.Forall_cons;
                      [unfold decodable; vm_compute; discriminate|]);
              apply List.Forall_nil]|]).
    apply List.Forall_nil.
Defined.

(** The deletion set of the small workspace: the root of the thread is
    followed by its reply, which is by another author and after the
    cutoff. *)
Example deletion_set_ex :
  deletion_set Demo.cutoff "" [Demo.general]
    [[[(setChannel "" Demo.old_by_alice, []);
       (setChannel "" Demo.root_by_bob,
        [[setChannel "" Demo.late_reply_by_alice]]);
       (setChannel "" Demo.at_cutoff_by_bob, []);
       (setChannel "" Demo.new_by_bob, [])]]]
  = [Demo.old_by_alice; Demo.root_by_bob; Demo.late_reply_by_alice;
     Demo.at_cutoff_by_bob].
Proof. vm_compute. reflexivity. Qed.

(** C5, as it was stated, fails: a reply that was also sent to the
    conversation is listed by the history and by the replies of its
    thread, and is selected twice; and a reply whose time stamp has no
    decimal point is not selected at all, the run panics. *)
Lemma thread_reply_is_not_selected_exactly_once :
  thread_root Threaded.root = true
  /\ passes_filters Demo.cutoff "" Threaded.root = true
  /\ fst (Messages 2 Demo.cutoff [Demo.general] ""
            (mkState Threaded.broadcast []))
     = Return [setChannel "C1" Threaded.root;
               setChannel "C1" Threaded.broadcast_reply;
               setChannel "C1" Threaded.broadcast_reply]
  /\ fst (Messages 2 Demo.cutoff [Demo.general] ""
            (mkState Threaded.undated []))
     = Panic "runtime error: index out of range [1] with length 1".
Proof. vm_compute. repeat split. Qed.
(** ** The executor: [DeleteMessages] and [DeleteFiles] *)

Section ExecutorCalls.

Context {W : Type} `{!slack.Client W} `{!GoLib}.

Hint Resolve only_calls_or_panic only_calls_ratelimitOrPanic : only_calls.

Lemma only_calls_DeleteMessages_loop n i m :
  only_calls (eq (CDeleteMessage (msg_Channel m) (msg_Timestamp m)))
    (DeleteMessages_loop n i m).
Proof.
  induction n as [|n IH]; cbn [DeleteMessages_loop]; [auto with only_calls|].
  apply only_calls_bind; [apply only_calls_call; reflexivity|].
  intros [[ch ts]|err]; [auto with only_calls|].
  destruct (String.eqb err "message_not_found"); [auto with only_calls|].
  apply only_calls_bind; [auto with only_calls|intros _]. exact IH.
Qed.

Lemma only_calls_DeleteFiles_loop n i f :
  only_calls (eq (CDeleteFile (file_ID f))) (DeleteFiles_loop n i f).
Proof.
  induction n as [|n IH]; cbn [DeleteFiles_loop]; [auto with only_calls|].
  apply only_calls_bind; [apply only_calls_call; reflexivity|].
  intros [err|]; [|auto with only_calls].
  destruct (String.eqb err "file_not_found"); [auto with only_calls|].
  apply only_calls_bind; [auto with only_calls|intros _]. exact IH.
Qed.

Lemma only_calls_DeleteMessages fuel messages :
  only_calls
    (fun call =>
       exists m, In m messages
                 /\ call = CDeleteMessage (msg_Channel m) (msg_Timestamp m))
    (DeleteMessages fuel messages).
Proof.
  unfold DeleteMessages. apply only_calls_forM_from. intros i m Hm.
  apply only_calls_bind; [|intros; auto with only_calls].
  eapply only_calls_weaken; [|apply only_calls_DeleteMessages_loop].
  intros call <-. exists m. auto.
Qed.

Lemma only_calls_DeleteFiles fuel files :
  only_calls
    (fun call => exists f, In f files /\ call = CDeleteFile (file_ID f))
    (DeleteFiles fuel files).
Proof.
  unfold DeleteFiles. apply only_calls_forM_from. intros i f Hf.
  apply only_calls_bind; [|intros; auto with only_calls].
  eapply only_calls_weaken; [|apply only_calls_DeleteFiles_loop].
  intros call <-. exists f. auto.
Qed.

(** A call that is turned down [k] times and then carried out: the loop of
    the item makes it [k + 1] times, waiting in between, and reports the
    delete. *)
Lemma DeleteMessages_loop_throttled k i m w w1 :
  Throttled (DeleteMessage (msg_Channel m) (msg_Timestamp m)) error_of k w w1 ->
  forall (st : State W) ch ts w2 n,
  world st = w ->
  DeleteMessage (msg_Channel m) (msg_Timestamp m) w1 = (inl (ch, ts), w2) ->
  (k < n)%nat ->
  DeleteMessages_loop n i m st
  = (Return tt,
     mkState w2
       (trace st
        ++ retried_times k (CDeleteMessage (msg_Channel m) (msg_Timestamp m))
        ++ [ECall (CDeleteMessage (msg_Channel m) (msg_Timestamp m));
            EPrintf "%04d. Deleted message ID %s in channel ID %s\n"
              [AInt (i + 1); AStr ts; AStr ch]])).
Proof.
  induction 1 as [w|k w r err w1 w' Hcall Herr Hrl Hrest IH];
    intros st ch ts w2 n Hw Hdone Hn.
  - destruct n as [|n]; [lia|]. subst w.
    apply (DeleteMessages_loop_deleted n i m st ch ts w2 Hdone).
  - destruct n as [|n]; [lia|]. subst w.
    destruct r as [?|err']; [discriminate|]. injection Herr as ->.
    rewrite (DeleteMessages_loop_retry n i m st err w1 Hcall Hrl).
    rewrite (IH (mkState w1 _) ch ts w2 n eq_refl Hdone) by lia.
    cbn [trace retried_times]. rewrite <- app_assoc. reflexivity.
Qed.

(** The same for a file. *)
Lemma DeleteFiles_loop_throttled k i f w w1 :
  Throttled (DeleteFile (file_ID f)) id k w w1 ->
  forall (st : State W) w2 n,
  world st = w ->
  DeleteFile (file_ID f) w1 = (None, w2) ->
  (k < n)%nat ->
  DeleteFiles_loop n i f st
  = (Return tt,
     mkState w2
       (trace st
        ++ retried_times k (CDeleteFile (file_ID f))
        ++ [ECall (CDeleteFile (file_ID f));
            EPrintf "%04d. Deleted file named %s (created: %s)\n"
              [AInt (i + 1); AStr (file_Name f);
               ADate (time.Unix (file_Created f) 0)]])).
Proof.
  induction 1 as [w|k w r err w1 w' Hcall Herr Hrl Hrest IH];
    intros st w2 n Hw Hdone Hn.
  - destruct n as [|n]; [lia|]. subst w.
    apply (DeleteFiles_loop_deleted n i f st w2 Hdone).
  - destruct n as [|n]; [lia|]. subst w. unfold id in Herr. subst r.
    rewrite (DeleteFiles_loop_retry n i f st err w1 Hcall Hrl).
    rewrite (IH (mkState w1 _) w2 n eq_refl Hdone) by lia.
    cbn [trace retried_times]. rewrite <- app_assoc. reflexivity.
Qed.

End ExecutorCalls.

(** X12.  Whatever the client answers and however the run ends, the two
    delete phases of a committed run call the client only to delete a
    message of the list handed to [DeleteMessages], by its conversation
    and its time stamp, or a file of the list handed to [DeleteFiles], by
    its id: nothing else is deleted, and nothing is listed again. *)
Theorem executor_deletes_only_what_it_is_given
    {W : Type} `{!slack.Client W} `{!GoLib}
    (fuel : nat) (messages : list Message) (files : list File)
    (st : State W) :
  exists cs,
    calls (trace (snd ((DeleteMessages fuel messages;;
                        DeleteFiles fuel files) st)))
    = calls (trace st) ++ cs
    /\ Forall
         (fun call =>
            (exists m, In m messages
                       /\ call = CDeleteMessage (msg_Channel m)
                                   (msg_Timestamp m))
            \/ (exists f, In f files /\ call = CDeleteFile (file_ID f)))
         cs.
Proof.
  revert st. change (only_calls
    (fun call =>
       (exists m, In m messages
                  /\ call = CDeleteMessage (msg_Channel m) (msg_Timestamp m))
       \/ (exists f, In f files /\ call = CDeleteFile (file_ID f)))
    (DeleteMessages fuel messages;; DeleteFiles fuel files)).
  apply only_calls_bind; [|intros _].
  - eapply only_calls_weaken; [|apply only_calls_DeleteMessages].
    intros call Hc. left. exact Hc.
  - eapply only_calls_weaken; [|apply only_calls_DeleteFiles].
    intros call Hc. right. exact Hc.
Qed.

(** X13.  A delete of a message that the remote side turns down as rate
    limited [k] times in a row and then carries out: with more than [k]
    turns of fuel, the loop of the item returns after exactly [k + 1]
    calls for that message, with a notice and a wait of a second after
    each of the first [k], and a report of the delete after the last. *)
Theorem DeleteMessages_retries_until_deleted
    {W : Type} `{!slack.Client W} `{!GoLib}
    (k n : nat) (i : Z) (m : Message) (st : State W) (w1 w2 : W)
    (ch ts : string) :
  Throttled (DeleteMessage (msg_Channel m) (msg_Timestamp m)) error_of k
    (world st) w1 ->
  DeleteMessage (msg_Channel m) (msg_Timestamp m) w1 = (inl (ch, ts), w2) ->
  (k < n)%nat ->
  DeleteMessages_loop n i m st
  = (Return tt,
     mkState w2
       (trace st
        ++ retried_times k (CDeleteMessage (msg_Channel m) (msg_Timestamp m))
        ++ [ECall (CDeleteMessage (msg_Channel m) (msg_Timestamp m));
            EPrintf "%04d. Deleted message ID %s in channel ID %s\n"
              [AInt (i + 1); AStr ts; AStr ch]])).
Proof.
  intros Hthrottled Hdone Hn.
  exact (DeleteMessages_loop_throttled k i m (world st) w1 Hthrottled
           st ch ts w2 n eq_refl Hdone Hn).
Qed.

Lemma DeleteMessages_retries_until_deleted_witness :
  let m := Demo.old_by_alice in
  let c := CDeleteMessage (msg_Channel m) (msg_Timestamp m) in
  DeleteMessages_loop 3 0 m (mkState (Demo.limited [true; true]) [])
  = (Return tt,
     mkState
       (Fake.set_messages
          [Demo.root_by_bob; Demo.late_reply_by_alice; Demo.at_cutoff_by_bob;
           Demo.new_by_bob]
          (Demo.limited []))
       ([] ++ retried_times 2 c
        ++ [ECall c;
            EPrintf "%04d. Deleted message ID %s in channel ID %s\n"
              [AInt (0 + 1); AStr "1588000000.000100"; AStr "C1"]])).
Proof.
  apply (DeleteMessages_retries_until_deleted 2 3 0 Demo.old_by_alice
           (mkState (Demo.limited [true; true]) []) (Demo.limited [])).
  - eapply throttled_S with (err := Fake.rate_limited);
      [reflexivity|reflexivity|reflexivity|].
    eapply throttled_S with (err := Fake.rate_limited);
      [reflexivity|reflexivity|reflexivity|].
    apply throttled_O.
  - reflexivity.
  - lia.
Defined.

(** X14.  The same for a file: [k] refusals as rate limited and then a
    delete make [k + 1] calls of [DeleteFile] for that file, with a wait
    after each of the first [k], and the loop of the item returns. *)
Theorem DeleteFiles_retries_until_deleted
    {W : Type} `{!slack.Client W} `{!GoLib}
    (k n : nat) (i : Z) (f : File) (st : State W) (w1 w2 : W) :
  Throttled (DeleteFile (file_ID f)) id k (world st) w1 ->
  DeleteFile (file_ID f) w1 = (None, w2) ->
  (k < n)%nat ->
  DeleteFiles_loop n i f st
  = (Return tt,
     mkState w2
       (trace st
        ++ retried_times k (CDeleteFile (file_ID f))
        ++ [ECall (CDeleteFile (file_ID f));
            EPrintf "%04d. Deleted file named %s (created: %s)\n"
              [AInt (i + 1); AStr (file_Name f);
               ADate (time.Unix (file_Created f) 0)]])).
Proof.
  intros Hthrottled Hdone Hn.
  exact (DeleteFiles_loop_throttled k i f (world st) w1 Hthrottled
           st w2 n eq_refl Hdone Hn).
Qed.

Lemma DeleteFiles_retries_until_deleted_witness :
  let f := Demo.file_before in
  DeleteFiles_loop 2 0 f (mkState (Demo.limited [true]) [])
  = (Return tt,
     mkState
       (Fake.set_files [("C1", Demo.file_at_cutoff)] (Demo.limited []))
       ([] ++ retried_times 1 (CDeleteFile (file_ID f))
        ++ [ECall (CDeleteFile (file_ID f));
            EPrintf "%04d. Deleted file named %s (created: %s)\n"
              [AInt (0 + 1); AStr (file_Name f);
               ADate (time.Unix (file_Created f) 0)]])).
Proof.
  apply (DeleteFiles_retries_until_deleted 1 2 0 Demo.file_before
           (mkState (Demo.limited [true]) []) (Demo.limited [])).
  - eapply throttled_S with (err := Fake.rate_limited);
      [reflexivity|reflexivity|reflexivity|].
    apply throttled_O.
  - reflexivity.
  - lia.
Defined.

(** X15.  An error of [DeleteMessage] that is neither [message_not_found]
    nor a rate limit stops a committed run at once: the run panics with
    the error after that one call, no later message is tried and no file
    is deleted. *)
Theorem fatal_delete_error_stops_the_run
    {W : Type} `{!slack.Client W} `{!GoLib}
    (fuel : nat) (m : Message) (rest : list Message) (files : list File)
    (st : State W) (err : slack.error) (w1 : W) :
  DeleteMessage (msg_Channel m) (msg_Timestamp m) (world st) = (inr err, w1) ->
  err <> "message_not_found" ->
  GoString.Contains err "rate limit" = false ->
  (DeleteMessages (S fuel) (m :: rest);; DeleteFiles (S fuel) files) st
  = (Panic err,
     mkState w1
       (trace st
        ++ [ECall (CDeleteMessage (msg_Channel m) (msg_Timestamp m))])).
Proof.
  intros Hcall Hnf Hrl. unfold DeleteMessages. cbn [forM_from].
  apply bind_Panic. apply bind_Panic. apply bind_Panic.
  apply (DeleteMessages_loop_fatal fuel 0 m st err w1 Hcall Hnf Hrl).
Qed.

Lemma fatal_delete_error_stops_the_run_witness :
  (DeleteMessages 1 [Demo.old_by_alice; Demo.old_by_bob];;
   DeleteFiles 1 [Demo.file_before]) (mkState tt [])
  = (Panic Revoked.invalid_auth,
     mkState tt
       ([] ++ [ECall (CDeleteMessage (msg_Channel Demo.old_by_alice)
                        (msg_Timestamp Demo.old_by_alice))])).
Proof.
  apply (fatal_delete_error_stops_the_run 0 Demo.old_by_alice
           [Demo.old_by_bob] [Demo.file_before] (mkState tt [])
           Revoked.invalid_auth tt).
  - reflexivity.
  - discriminate.
  - reflexivity.
Defined.
(** ** What a program returns *)

Section ReturnsOnly.

Context {W : Type}.

Lemma bind_Return_inv {A B} (m : M W A) (k : A -> M W B) st b st' :
  (m ≫= k) st = (Return b, st') ->
  exists a st1, m st = (Return a, st1) /\ k a st1 = (Return b, st').
Proof.
  unfold mbind, M_bind, bind.
  destruct (m st) as [[a| | |] st1]; try discriminate.
  intros Hk. exists a, st1. auto.
Qed.

Lemma returns_only_ret {A} (Q : A -> Prop) a :
  Q a -> returns_only Q (ret a : M W A).
Proof. intros HQ st a' st' [= <- _]. exact HQ. Qed.

Lemma returns_only_panic {A} (Q : A -> Prop) msg :
  returns_only Q (panic msg : M W A).
Proof. intros st a st'. discriminate. Qed.

Lemma returns_only_out_of_fuel {A} (Q : A -> Prop) :
  returns_only Q (out_of_fuel : M W A).
Proof. intros st a st'. discriminate. Qed.

Lemma returns_only_bind {A B} (Q : A -> Prop) (R : B -> Prop) (m : M W A)
    (k : A -> M W B) :
  returns_only Q m -> (forall a, Q a -> returns_only R (k a)) ->
  returns_only R (m ≫= k).
Proof.
  intros Hm Hk st b st' Hrun.
  apply bind_Return_inv in Hrun as (a & st1 & Hr1 & Hr2).
  exact (Hk a (Hm st a st1 Hr1) st1 b st' Hr2).
Qed.

(** The same, when nothing is needed of the head. *)
Lemma returns_only_then {A B} (R : B -> Prop) (m : M W A) (k : A -> M W B) :
  (forall a, returns_only R (k a)) -> returns_only R (m ≫= k).
Proof.
  intros Hk. apply (returns_only_bind (fun _ => True)); [|auto].
  intros st a st' _. exact I.
Qed.

Lemma returns_only_foldM {A B} (Q : B -> Prop) (f : B -> A -> M W B) l :
  (forall b x, In x l -> Q b -> returns_only Q (f b x)) ->
  forall b, Q b -> returns_only Q (foldM f l b).
Proof.
  induction l as [|x l IH]; intros Hf b Hb; cbn [foldM].
  - apply returns_only_ret. exact Hb.
  - apply (returns_only_bind Q); [apply Hf; [left; reflexivity|exact Hb]|].
    intros b' Hb'. apply IH; [|exact Hb'].
    intros b0 y Hy. apply Hf. right. exact Hy.
Qed.

End ReturnsOnly.

(** ** The accumulator of [Messages] *)

Section Accumulator.

Lemma wrap64_add_l a b : wrap64 (wrap64 a + b) = wrap64 (a + b).
Proof.
  unfold wrap64. f_equal.
  replace ((a + 2 ^ 63) mod 2 ^ 64 - 2 ^ 63 + b + 2 ^ 63)
    with ((a + 2 ^ 63) mod 2 ^ 64 + b) by lia.
  rewrite Z.add_mod_idemp_l by lia. f_equal. lia.
Qed.

Lemma len_snoc {A} (l : list A) x : len (l ++ [x]) = len l + 1.
Proof. unfold len. rewrite List.length_app. cbn [length]. lia. Qed.

(** A message that is kept. *)
Lemma counted_kept a :
  counted a ->
  counted (mkMsgAcc (found a) (incr (keep a)) (incr (total a))
             (messagesToDelete a)).
Proof.
  intros [Hfound Htotal]. split; cbn [found keep total messagesToDelete].
  - exact Hfound.
  - unfold incr. rewrite Htotal, !wrap64_add_l. f_equal. lia.
Qed.

(** A message or a reply that is selected. *)
Lemma counted_selected a m :
  counted a ->
  counted (mkMsgAcc (incr (found a)) (keep a) (incr (total a))
             (messagesToDelete a ++ [m])).
Proof.
  intros [Hfound Htotal]. split; cbn [found keep total messagesToDelete];
    unfold incr; rewrite len_snoc.
  - rewrite Hfound, wrap64_add_l. reflexivity.
  - rewrite Htotal, wrap64_add_l. f_equal. lia.
Qed.

Lemma stamped_selected ids a f k t m :
  stamped ids a -> In (msg_Channel m) ids ->
  stamped ids (mkMsgAcc f k t (messagesToDelete a ++ [m])).
Proof.
  unfold stamped. cbn [messagesToDelete]. intros Ha Hm.
  apply Forall_app. split; [exact Ha|]. constructor; [exact Hm|constructor].
Qed.

End Accumulator.

Section MessagesInvariant.

Context {W : Type} `{!slack.Client W} `{!GoLib}.

Variable ids : list string.

Lemma Messages_reply_keeps c channelName clean a r :
  In (ch_ID c) ids -> stamped ids a /\ counted a ->
  returns_only (fun a' => stamped ids a' /\ counted a')
    (Messages_reply (W:=W) c channelName clean a r).
Proof.
  intros Hc [Hs Hn]. unfold Messages_reply.
  apply returns_only_then. intros date.
  apply returns_only_then. intros _.
  apply returns_only_ret. unfold add_message.
  cbn [found keep total messagesToDelete].
  split; [apply stamped_selected; [exact Hs|exact Hc]
         |apply counted_selected; exact Hn].
Qed.

Lemma Messages_replies_keeps n c channelName clean : forall p a,
  In (ch_ID c) ids -> stamped ids a /\ counted a ->
  returns_only (fun a' => stamped ids a' /\ counted a')
    (Messages_replies n c channelName clean p a).
Proof.
  induction n as [|n IH]; intros p a Hc Ha; cbn [Messages_replies].
  - apply returns_only_out_of_fuel.
  - apply returns_only_then. intros [[[replies hasMore] nextCursor]|err].
    + apply (returns_only_bind (fun a' => stamped ids a' /\ counted a')).
      * apply returns_only_foldM; [|exact Ha].
        intros b r _ Hb. apply Messages_reply_keeps; assumption.
      * intros a' Ha'. destruct (negb hasMore).
        -- apply returns_only_ret. exact Ha'.
        -- apply IH; assumption.
    + apply returns_only_then. intros _. apply IH; assumption.
Qed.

Lemma Messages_item_keeps fuel s c userID clean last a m :
  In (ch_ID c) ids -> stamped ids a /\ counted a ->
  returns_only (fun a' => stamped ids a' /\ counted a')
    (Messages_item fuel s c userID clean last a m).
Proof.
  intros Hc [Hs Hn]. unfold Messages_item.
  assert (stamped ids
            (mkMsgAcc (found a) (incr (keep a)) (incr (total a))
               (messagesToDelete a))
          /\ counted
               (mkMsgAcc (found a) (incr (keep a)) (incr (total a))
                  (messagesToDelete a))) as Hkept.
  { split; [exact Hs|apply counted_kept; exact Hn]. }
  cbn [found keep total messagesToDelete].
  destruct (nonempty userID && String.eqb (msg_User m) userID);
    [apply returns_only_ret; exact Hkept|].
  destruct (GoString.gt (msg_Timestamp m) (beforeTS s));
    [apply returns_only_ret; exact Hkept|].
  apply returns_only_then. intros _.
  apply returns_only_then. intros date.
  apply returns_only_then. intros _.
  assert (stamped ids
            (add_message (setChannel (ch_ID c) m)
               (mkMsgAcc (incr (found a)) (keep a) (incr (total a))
                  (messagesToDelete a)))
          /\ counted
               (add_message (setChannel (ch_ID c) m)
                  (mkMsgAcc (incr (found a)) (keep a) (incr (total a))
                     (messagesToDelete a)))) as Hsel.
  { unfold add_message. cbn [found keep total messagesToDelete].
    split; [apply stamped_selected; [exact Hs|exact Hc]
           |apply counted_selected; exact Hn]. }
  match goal with
  | |- returns_only _ (if ?b then _ else _) => destruct b
  end.
  - apply Messages_replies_keeps; assumption.
  - apply returns_only_ret. exact Hsel.
Qed.

Lemma Messages_loop_keeps n fuel s c userID clean : forall cursor last a,
  In (ch_ID c) ids -> stamped ids a /\ counted a ->
  returns_only (fun a' => stamped ids a' /\ counted a')
    (Messages_loop n fuel s c userID clean cursor last a).
Proof.
  induction n as [|n IH]; intros cursor last a Hc Ha; cbn [Messages_loop].
  - apply returns_only_out_of_fuel.
  - apply returns_only_then. intros [res|err].
    + apply (returns_only_bind (fun a' => stamped ids a' /\ counted a')).
      * apply returns_only_foldM; [|exact Ha].
        intros b m _ Hb. apply Messages_item_keeps; assumption.
      * intros a' Ha'. destruct (negb (hr_HasMore res)).
        -- apply returns_only_ret. exact Ha'.
        -- apply returns_only_then. intros _. apply IH; assumption.
    + apply returns_only_then. intros _. apply IH; assumption.
Qed.

Lemma Messages_channels_keep fuel s userID clean channels :
  (forall c, In c channels -> In (ch_ID c) ids) ->
  forall ia, stamped ids (snd ia) /\ counted (snd ia) ->
  returns_only (fun ia' => stamped ids (snd ia') /\ counted (snd ia'))
    (foldM (Messages_channel fuel s userID clean) channels ia).
Proof.
  intros Hids. apply returns_only_foldM.
  intros [i a] c Hc Ha. unfold Messages_channel. cbn [snd] in Ha.
  apply returns_only_then. intros _.
  apply (returns_only_bind (fun a' => stamped ids a' /\ counted a')).
  - apply Messages_loop_keeps; [apply Hids; exact Hc|exact Ha].
  - intros a' Ha'. apply returns_only_ret. exact Ha'.
Qed.

End MessagesInvariant.

Section MessagesReturn.

Context {W : Type} `{!slack.Client W} `{!GoLib}.

(** What [Messages] returns is the list of an accumulator that is stamped
    and counted, after the report of its numbers. *)
Lemma Messages_return fuel s channels userID (st : State W) messages st' :
  Messages fuel s channels userID st = (Return messages, st') ->
  exists a tr,
    messages = messagesToDelete a
    /\ stamped (map ch_ID channels) a /\ counted a
    /\ trace st'
       = tr ++ [EPrintf "Fetched %d messages to delete (kept %d / %d)\n"
                  [AInt (len (messagesToDelete a)); AInt (keep a);
                   AInt (total a)]].
Proof.
  unfold Messages. intros Hrun.
  apply bind_Return_inv in Hrun as (clean & st1 & _ & Hrun).
  apply bind_Return_inv in Hrun as ([i a] & st2 & Hfold & Hrun).
  apply (Messages_channels_keep (map ch_ID channels)) in Hfold as [Hs Hn].
  - cbn [snd] in Hs, Hn. exists a, (trace st2).
    unfold printf in Hrun. rewrite (bind_emit _ _ st2) in Hrun.
    injection Hrun as <- <-. auto.
  - intros c Hc. apply in_map. exact Hc.
  - cbn [snd]. split; [constructor|]. split; reflexivity.
Qed.

(** Without a [--before], or with one that does not parse, nothing comes
    after the check and [New]. *)
Lemma refuses_before {A} before token (k : SlackClean -> M W A)
    (st : State W) :
  before = ""
  \/ (exists err, time_Parse "20060102-1504" before = inr err) ->
  exists msg st',
    ((if String.eqb before "" then
        emit EPrintDefaults;;
        panic "--before flag is required but missing"
      else ret tt);;
     s ← New (mkOptions before token); k s) st
    = (Panic msg, st')
    /\ calls (trace st') = calls (trace st).
Proof.
  intros Hbad.
  destruct (String.eqb_spec before "") as [Hbefore|Hbefore].
  - do 2 eexists. split; [reflexivity|].
    cbn [trace]. rewrite calls_app. apply app_nil_r.
  - destruct Hbad as [Hempty|[err Herr]]; [contradiction|].
    rewrite (bind_Return _ _ st tt st eq_refl).
    unfold New. cbn [Before]. rewrite Herr.
    do 2 eexists. split; reflexivity.
Qed.

(** The three ways in which [main] turns its inputs down. *)
Lemma main_refuses fuel flags env (st : State W) :
  (flag_token flags = "" /\ env = "")
  \/ flag_before flags = ""
  \/ (exists err,
        time_Parse "20060102-1504" (flag_before flags) = inr err) ->
  exists msg st',
    main fuel flags env st = (Panic msg, st')
    /\ calls (trace st') = calls (trace st).
Proof.
  intros Hbad. unfold main.
  destruct (String.eqb_spec (flag_token flags) "") as [Htoken|Htoken];
    [destruct (String.eqb_spec env "") as [Henv|Henv]|].
  - do 2 eexists. split; reflexivity.
  - rewrite (bind_Return _ _ st env st eq_refl).
    apply refuses_before. destruct Hbad as [[_ Hempty]|Hbad];
      [contradiction|exact Hbad].
  - rewrite (bind_Return _ _ st (flag_token flags) st eq_refl).
    apply refuses_before. destruct Hbad as [[Hempty _]|Hbad];
      [contradiction|exact Hbad].
Qed.

End MessagesReturn.



(** X17.  The last thing [Messages] does before it returns is to report
    its numbers, and they add up: the first is the number of messages
    returned, and the third, the number of messages seen, is the second,
    the number kept, plus the first (as 64-bit integers). *)
Theorem Messages_report_adds_up {W : Type} `{!slack.Client W} `{!GoLib}
    (fuel : nat) (s : SlackClean) (channels : list Channel) (userID : string)
    (st st' : State W) (messages : list Message) :
  Messages fuel s channels userID st = (Return messages, st') ->
  exists tr kept seen,
    trace st'
    = tr ++ [EPrintf "Fetched %d messages to delete (kept %d / %d)\n"
               [AInt (len messages); AInt kept; AInt seen]]
    /\ seen = wrap64 (kept + len messages).
Proof.
  intros Hrun.
  apply Messages_return in Hrun as (a & tr & -> & _ & [_ Htotal] & Htr).
  exists tr, (keep a), (total a). split; [exact Htr|exact Htotal].
Qed.

Lemma Messages_report_adds_up_witness :
  exists tr kept seen,
    trace (snd (Messages 5 Demo.cutoff [Demo.general; Demo.direct] ""
                  (mkState Demo.workspace [])))
    = tr ++ [EPrintf "Fetched %d messages to delete (kept %d / %d)\n"
               [AInt (len Demo.selected_messages); AInt kept; AInt seen]]
    /\ seen = wrap64 (kept + len Demo.selected_messages).
Proof.
  apply (Messages_report_adds_up 5 Demo.cutoff [Demo.general; Demo.direct] ""
           (mkState Demo.workspace [])).
  vm_compute. reflexivity.
Defined.


(** X19.  [main] checks its inputs before it talks to Slack: without a
    token (neither flag nor environment), without a [--before], or with a
    [--before] that does not parse, it panics without a single call of the
    client. *)
Theorem main_checks_its_inputs_first {W : Type} `{!slack.Client W} `{!GoLib}
    (fuel : nat) (flags : Flags) (env : string) (st : State W) :
  (flag_token flags = "" /\ env = "")
  \/ flag_before flags = ""
  \/ (exists err,
        time_Parse "20060102-1504" (flag_before flags) = inr err) ->
  (exists msg, fst (main fuel flags env st) = Panic msg)
  /\ calls (trace (snd (main fuel flags env st))) = calls (trace st).
Proof.
  intros Hbad.
  destruct (main_refuses fuel flags env st Hbad) as (msg & st' & Hrun & Hcalls).
  rewrite Hrun. split; [exists msg; reflexivity|exact Hcalls].
Qed.

Lemma main_checks_its_inputs_first_witness :
  let flags := mkFlags "xoxp-1" "" "" "2020-05-01" true in
  (exists msg,
     fst (main 5 flags "" (mkState Demo.workspace [])) = Panic msg)
  /\ calls (trace (snd (main 5 flags "" (mkState Demo.workspace []))))
     = calls [].
Proof.
  apply (main_checks_its_inputs_first 5
           (mkFlags "xoxp-1" "" "" "2020-05-01" true) ""
           (mkState Demo.workspace [])).
  right. right. eexists. vm_compute. reflexivity.
Defined.
(** ** The order of the calls of a run *)

Section Phases.

Context {W : Type} `{!slack.Client W} `{!GoLib}.

Lemma reads_then_deletes_reads {A} (m : M W A) :
  only_calls reads m -> reads_then_deletes m.
Proof.
  intros Hm st. destruct (Hm st) as (cs & Hcs & Hall).
  exists cs, []. rewrite app_nil_r. split; [exact Hcs|].
  split; [exact Hall|constructor].
Qed.

Lemma reads_then_deletes_deletes {A} (m : M W A) :
  only_calls deletes m -> reads_then_deletes m.
Proof.
  intros Hm st. destruct (Hm st) as (cs & Hcs & Hall).
  exists [], cs. split; [exact Hcs|]. split; [constructor|exact Hall].
Qed.

Lemma reads_then_deletes_bind {A B} (m : M W A) (k : A -> M W B) :
  only_calls reads m -> (forall a, reads_then_deletes (k a)) ->
  reads_then_deletes (m ≫= k).
Proof.
  intros Hm Hk st. unfold mbind, M_bind, bind.
  destruct (Hm st) as (cs & Hcs & Hall).
  destruct (m st) as [[a| | |] st1]; cbn [snd] in *;
    try (exists cs, []; rewrite app_nil_r;
         split; [exact Hcs|split; [exact Hall|constructor]]).
  destruct (Hk a st1) as (rs & ds & Hk1 & Hrs & Hds).
  exists (cs ++ rs), ds. rewrite Hk1, Hcs, <- !app_assoc.
  split; [reflexivity|]. split; [|exact Hds].
  apply Forall_app. split; assumption.
Qed.

Lemma only_calls_PrintDefaults P :
  only_calls P (emit EPrintDefaults : M W unit).
Proof.
  apply only_calls_silent. intros st. unfold emit. cbn [snd trace].
  rewrite calls_app. apply app_nil_r.
Qed.

Hint Resolve only_calls_or_panic only_calls_ratelimitOrPanic
  only_calls_PrintDefaults : only_calls.
Hint Extern 0 (only_calls reads (call _ _)) =>
  apply only_calls_call; reflexivity : only_calls.

(** One step for a program of the harvest. *)
Ltac reads_step :=
  first [calls_step | apply only_calls_foldM; intros].

Lemma reads_regexp_MustCompile str :
  only_calls reads (regexp_MustCompile (W:=W) str).
Proof. unfold regexp_MustCompile. repeat reads_step. Qed.

Lemma reads_prettyTS ts : only_calls reads (prettyTS (W:=W) ts).
Proof. unfold prettyTS. repeat reads_step. Qed.

Hint Resolve reads_regexp_MustCompile reads_prettyTS : only_calls.

Lemma reads_New o : only_calls reads (New (W:=W) o).
Proof. unfold New. repeat reads_step. Qed.

Lemma reads_Users user : only_calls reads (Users user).
Proof. unfold Users, Users_item. repeat reads_step. Qed.

Lemma reads_Channels_loop n re users : forall cursor acc,
  only_calls reads (Channels_loop n re users cursor acc).
Proof.
  induction n as [|n IH]; intros cursor acc; simpl; [auto with only_calls|].
  unfold Channels_item. repeat reads_step; apply IH.
Qed.

Hint Resolve reads_Channels_loop : only_calls.

Lemma reads_Channels fuel filter users :
  only_calls reads (Channels fuel filter users).
Proof. unfold Channels. repeat reads_step. Qed.

Lemma reads_Files fuel s userID channels :
  only_calls reads (Files fuel s userID channels).
Proof.
  eapply only_calls_weaken; [|apply only_calls_Files].
  intros call (c & _ & ->). reflexivity.
Qed.

Lemma reads_Messages_replies n c channelName clean : forall p a,
  only_calls reads (Messages_replies n c channelName clean p a).
Proof.
  induction n as [|n IH]; intros p a; simpl; [auto with only_calls|].
  unfold Messages_reply. repeat reads_step; apply IH.
Qed.

Hint Resolve reads_Messages_replies : only_calls.

Lemma reads_Messages_item fuel s c userID clean last a m :
  only_calls reads (Messages_item fuel s c userID clean last a m).
Proof. unfold Messages_item. repeat reads_step. Qed.

Hint Resolve reads_Messages_item : only_calls.

Lemma reads_Messages_loop n fuel s c userID clean : forall cursor last a,
  only_calls reads (Messages_loop n fuel s c userID clean cursor last a).
Proof.
  induction n as [|n IH]; intros cursor last a; simpl;
    [auto with only_calls|].
  repeat reads_step; apply IH.
Qed.

Hint Resolve reads_Messages_loop : only_calls.

Lemma reads_Messages fuel s channels userID :
  only_calls reads (Messages fuel s channels userID).
Proof. unfold Messages, Messages_channel. repeat reads_step. Qed.

Lemma deletes_DeleteMessages fuel messages :
  only_calls deletes (DeleteMessages (W:=W) fuel messages).
Proof.
  eapply only_calls_weaken; [|apply only_calls_DeleteMessages].
  intros call (m & _ & ->). reflexivity.
Qed.

Lemma deletes_DeleteFiles fuel files :
  only_calls deletes (DeleteFiles (W:=W) fuel files).
Proof.
  eapply only_calls_weaken; [|apply only_calls_DeleteFiles].
  intros call (f & _ & ->). reflexivity.
Qed.

End Phases.

(** X20.  In every run of [main], whatever the flags and the answers of
    the client and however the run ends, all the calls that read (users,
    conversations, files, histories, replies) come before all the calls
    that delete: nothing is deleted until the whole harvest is done, and
    nothing is read again once the deleting has begun. *)
Theorem main_reads_before_it_deletes {W : Type} `{!slack.Client W} `{!GoLib}
    (fuel : nat) (flags : Flags) (env : string) (st : State W) :
  exists rs ds,
    calls (trace (snd (main fuel flags env st))) = calls (trace st) ++ rs ++ ds
    /\ Forall reads rs /\ Forall deletes ds.
Proof.
  revert st. change (reads_then_deletes (main (W:=W) fuel flags env)).
  unfold main.
  apply reads_then_deletes_bind; [calls_tac|intros token].
  apply reads_then_deletes_bind; [|intros _].
  { destruct (String.eqb (flag_before flags) ""); [|calls_tac].
    apply only_calls_bind; [apply only_calls_PrintDefaults|intros _].
    apply only_calls_panic. }
  apply reads_then_deletes_bind; [apply reads_New|intros s].
  apply reads_then_deletes_bind; [apply reads_Users|intros [users userID]].
  apply reads_then_deletes_bind; [apply reads_Channels|intros channels].
  apply reads_then_deletes_bind; [apply reads_Files|intros files].
  apply reads_then_deletes_bind; [apply reads_Messages|intros messages].
  apply reads_then_deletes_bind; [calls_tac|intros _].
  apply reads_then_deletes_bind; [calls_tac|intros _].
  apply reads_then_deletes_deletes.
  apply only_calls_bind; [apply deletes_DeleteMessages|intros _].
  apply only_calls_bind; [apply deletes_DeleteFiles|intros _].
  apply only_calls_printf.
Qed.
(** ** A time stamp that does not decode *)

Section Undecodable.

Context {W : Type} `{!slack.Client W} `{!GoLib}.

Lemma foldM_app {A B} (f : B -> A -> M W B) l1 l2 : forall b st,
  foldM f (l1 ++ l2) b st = (foldM f l1 b ≫= foldM f l2) st.
Proof.
  induction l1 as [|x l1 IH]; intros b st; cbn [foldM app].
  - reflexivity.
  - unfold mbind, M_bind, bind.
    destruct (f b x st) as [[b1| | |] st1]; try reflexivity.
    apply IH.
Qed.

Lemma bind_fst_Panic {A B} (m : M W A) (k : A -> M W B) st msg :
  fst (m st) = Panic msg -> fst ((m ≫= k) st) = Panic msg.
Proof.
  unfold mbind, M_bind, bind.
  destruct (m st) as [[a| | |] st1]; cbn [fst]; try discriminate.
  intros [= ->]. reflexivity.
Qed.

(** The loop over a page stops at the first selected message whose time
    stamp does not decode. *)
Lemma Messages_page_undecodable fuel s c userID clean last before m after a
    (st : State W) :
  Forall (fun m => decodable m /\ thread_root m = false) before ->
  passes_filters s userID m = true ->
  SlackTSToTime (msg_Timestamp m) = None ->
  fst (foldM (Messages_item fuel s c userID clean last)
         (before ++ m :: after) a st)
  = Panic "runtime error: index out of range [1] with length 1".
Proof.
  intros Hbefore Hpass Hdec. rewrite foldM_app.
  destruct (Messages_item_fold fuel s c userID clean last before a st Hbefore)
    as (a1 & st1 & Hr1 & _ & _).
  rewrite (bind_Return _ _ st a1 st1 Hr1). cbn [foldM].
  apply bind_fst_Panic.
  unfold passes_filters in Hpass.
  apply andb_true_iff in Hpass as [Hauthor Htime].
  apply negb_true_iff in Hauthor, Htime.
  apply (Messages_item_undecodable fuel s c userID clean last a1 m st1
           Hauthor Htime Hdec).
Qed.

End Undecodable.

(** X21.  A time stamp that does not decode stops the harvest: when the
    first page of the history of the first conversation holds a message
    that passes the two tests and whose time stamp [SlackTSToTime] does
    not decode (after messages that decode and are not roots of threads),
    [Messages] panics with the index error of [SlackTSToTime], which is
    called to print the date of every selected message. *)
Theorem Messages_panics_on_undecodable_timestamp
    {W : Type} `{!slack.Client W} `{!GoLib}
    (fuel : nat) (s : SlackClean) (userID : string) (clean : Regexp)
    (c : Channel) (cs : list Channel) (st : State W)
    (res : GetConversationHistoryResponse) (w1 : W)
    (before after : list Message) (m : Message) :
  regexp_Compile "[\r\n\t]+" = inl clean ->
  GetConversationHistory (mkGetHistory (ch_ID c) EmptyString 1000) (world st)
  = (inl res, w1) ->
  hr_Messages res = before ++ m :: after ->
  Forall (fun m => decodable m /\ thread_root m = false) before ->
  passes_filters s userID m = true ->
  SlackTSToTime (msg_Timestamp m) = None ->
  fst (Messages (S fuel) s (c :: cs) userID st)
  = Panic "runtime error: index out of range [1] with length 1".
Proof.
  intros Hclean Hcall Hpage Hbefore Hpass Hdec.
  unfold Messages, regexp_MustCompile. rewrite Hclean.
  rewrite (bind_Return _ _ st clean st eq_refl).
  apply bind_fst_Panic. cbn [foldM]. apply bind_fst_Panic.
  unfold Messages_channel, printf. rewrite (bind_emit _ _ st).
  apply bind_fst_Panic. cbn [Messages_loop].
  unfold mbind at 1, M_bind, bind, call. cbn [world]. rewrite Hcall.
  apply bind_fst_Panic. rewrite Hpage.
  apply Messages_page_undecodable; assumption.
Qed.

Lemma Messages_panics_on_undecodable_timestamp_witness :
  fst (Messages 1 Demo.cutoff [Demo.general] ""
         (mkState
            (Fake.set_messages
               [Demo.old_by_alice; mkMessage "C1" "U2" "hm" "1588000003" ""]
               Demo.workspace) []))
  = Panic "runtime error: index out of range [1] with length 1".
Proof.
  apply (Messages_panics_on_undecodable_timestamp 0 Demo.cutoff ""
           Demo.clean Demo.general []
           (mkState
              (Fake.set_messages
                 [Demo.old_by_alice; mkMessage "C1" "U2" "hm" "1588000003" ""]
                 Demo.workspace) [])
           (mkHistory
              [setChannel "" Demo.old_by_alice;
               mkMessage "" "U2" "hm" "1588000003" ""] false "")
           (Fake.set_messages
              [Demo.old_by_alice; mkMessage "C1" "U2" "hm" "1588000003" ""]
              Demo.workspace)
           [setChannel "" Demo.old_by_alice] []
           (mkMessage "" "U2" "hm" "1588000003" "")).
  - reflexivity.
  - reflexivity.
  - reflexivity.
  - repeat constructor. unfold decodable. vm_compute. discriminate.
  - reflexivity.
  - reflexivity.
Defined.
